(** * MINIX file-system tool: shallow embedding and checked properties

    The Python tool [MINIX_File_System.py] edits a raw MINIX v1 disk image
    through one open file handle.  This development embeds its functions
    in Rocq and states, for each documented property, what the code does.

    Conventions of the embedding
    - a byte is a [Z] in [0, 256); a [bytes] value and the disk image are
      [list Z];
    - a Python [str] is the list of its code points ([list Z]); [decode]
      and [encode] are strict UTF-8, as in CPython;
    - a Python [dict] with string keys is a [gmap string Z]; a missing key
      raises [KeyError];
    - every [file.seek(o)] of the source is immediately followed by one
      [file.read] or [file.write]; the pair is one [fread] or [fwrite] at
      the explicit offset [o]; offsets are never negative in the tool
      (inode and zone numbers come from unsigned fields), so a seek to a
      negative offset is not modelled;
    - an exception of the source is a [Raise] result; nothing in the tool
      catches exceptions, so a [Raise] reaches the top level;
    - [time.time()] is an explicit input [now]. *)

From Stdlib Require Import ZArith List Lia String Ascii Bool.
From stdpp Require Import base gmap strings list fin_maps.

#[local] Open Scope Z_scope.

(** ** Constants of the source *)

Definition BLOCK_SIZE : Z := 1024.
Definition INODE_SIZE : Z := 32.
Definition BOOT_BLOCK : Z := 1.
Definition SUPER_BLOCK : Z := 1.
Definition EMPTY : Z := 0.
Definition MAX_FILENAME_SHORT : Z := 14.
Definition MAX_FILENAME_LONG : Z := 30.
Definition NUM_DIRECT_ZONES : Z := 7.
Definition INDIRECT_ZONE_INDEX : Z := 7.
Definition DOUBLE_INDIRECT_ZONE_INDEX : Z := 8.

Definition S_IFREG : Z := 0x8000.
Definition S_IFDIR : Z := 0x4000.
Definition S_IRUSR : Z := 0x100.
Definition S_IWUSR : Z := 0x80.
Definition S_IXUSR : Z := 0x40.

(** ** Exceptions and the error monad *)

Inductive exn : Type :=
| StructError                 (* struct.error *)
| KeyError (key : string)     (* dict[key] on a missing key *)
| IndexError                  (* tuple index out of range *)
| TypeError                   (* call with a wrong number of arguments *)
| UnicodeDecodeError          (* bytes.decode() on ill-formed UTF-8 *)
| UnicodeEncodeError          (* str.encode() on a lone surrogate *)
| SystemExit (code : Z).      (* sys.exit(code) *)

Inductive res (A : Type) : Type :=
| Ok (a : A)
| Raise (e : exn).
Arguments Ok {A} a.
Arguments Raise {A} e.

Definition rbind {A B} (m : res A) (k : A -> res B) : res B :=
  match m with
  | Ok a => k a
  | Raise e => Raise e
  end.

Notation "'let*' x ':=' m 'in' k" := (rbind m (fun x => k))
  (at level 10, x pattern, m at level 100, k at level 200).

(** ** Bytes, slices and the image file *)

Definition len {A} (l : list A) : Z := Z.of_nat (length l).

(** [b[lo:hi]] for [0 <= lo]: Python clamps both ends to the length. *)
Definition slice {A} (l : list A) (lo hi : Z) : list A :=
  take (Z.to_nat (hi - lo)) (drop (Z.to_nat lo) l).

(** [file.seek(off); file.read(n)]: short at end of file. *)
Definition fread (f : list Z) (off n : Z) : list Z :=
  take (Z.to_nat n) (drop (Z.to_nat off) f).

(** [file.seek(off); file.write(data)]: overwrites in place, extends the
    file when the write passes its end (a gap is filled with zero bytes).
    Two cases that the tool never reaches are not distinguished: an empty
    [data] beyond the end of the file (Python leaves the file as it is)
    and a negative offset (Python raises; here, as in [fread], it counts
    as 0).  Every write of the tool has 2, 32 or [2 + w] bytes, at an
    offset computed from unsigned fields. *)
Definition fwrite (f : list Z) (off : Z) (data : list Z) : list Z :=
  let o := Z.to_nat off in
  take o f ++ repeat 0 (o - length f)%nat ++ data ++ drop (o + length data)%nat f.

(** ** The [struct] module, little-endian standard sizes ("<") *)

Fixpoint le_decode (bs : list Z) : Z :=
  match bs with
  | [] => 0
  | b :: bs' => b + 256 * le_decode bs'
  end.

Fixpoint le_encode (n : nat) (v : Z) : list Z :=
  match n with
  | O => []
  | S n' => v mod 256 :: le_encode n' (v / 256)
  end.

(** Integer format codes: ["B"], ["H"], ["I"]. *)
Inductive icode : Type := cB | cH | cI.

Definition calcsize (c : icode) : Z :=
  match c with cB => 1 | cH => 2 | cI => 4 end.

(** [struct.unpack_from("<" + c, data, idx)]: needs [calcsize c] bytes
    from [idx] on. *)
Definition unpack_from (c : icode) (data : list Z) (idx : Z) : res Z :=
  if len data - idx <? calcsize c then Raise StructError
  else Ok (le_decode (slice data idx (idx + calcsize c))).

(** One integer argument of [struct.pack]: out of range is [struct.error]. *)
Definition pack_int (c : icode) (v : Z) : res (list Z) :=
  if (0 <=? v) && (v <? 2 ^ (8 * calcsize c))
  then Ok (le_encode (Z.to_nat (calcsize c)) v)
  else Raise StructError.

(** ** Superblock *)

Definition fields : list (string * icode) :=
  [("num_inodes", cH); ("num_zones", cH); ("imap_blocks", cH);
   ("zmap_blocks", cH); ("first_data_zone", cH); ("log_zone_size", cH);
   ("max_file_size", cI); ("magic", cH); ("state", cH)]%string.

Fixpoint parse_fields (fs : list (string * icode)) (sb_data : list Z)
    (idx : Z) (sb_dict : gmap string Z) : res (gmap string Z) :=
  match fs with
  | [] => Ok sb_dict
  | (field_name, fmt) :: fs' =>
      let* v := unpack_from fmt sb_data idx in
      parse_fields fs' sb_data (idx + calcsize fmt) (<[field_name := v]> sb_dict)
  end.

Definition parse_superblock (sb_data : list Z) : res (gmap string Z) :=
  parse_fields fields sb_data 0 ∅.

(** [sb_dict[key]] *)
Definition getitem (sb_dict : gmap string Z) (key : string) : res Z :=
  match sb_dict !! key with
  | Some v => Ok v
  | None => Raise (KeyError key)
  end.

(** ** Inodes *)

Record inode : Type := mkInode {
  i_mode : Z;
  i_uid : Z;
  i_size : Z;
  i_time : Z;
  i_gid : Z;
  i_nlinks : Z;
  i_zone : list Z
}.

(** [struct.unpack("<HHIIBB9H", inode_data)] followed by the construction
    of [inode_dict]. *)
Definition unpack_inode (inode_data : list Z) : res inode :=
  if negb (len inode_data =? 32) then Raise StructError
  else
    let u16 o := le_decode (slice inode_data o (o + 2)) in
    let u32 o := le_decode (slice inode_data o (o + 4)) in
    let u8 o := le_decode (slice inode_data o (o + 1)) in
    Ok {| i_mode := u16 0;
          i_uid := u16 2;
          i_size := u32 4;
          i_time := u32 8;
          i_gid := u8 12;
          i_nlinks := u8 13;
          i_zone := map (fun k => u16 (14 + 2 * k)) [0; 1; 2; 3; 4; 5; 6; 7; 8] |}.

Definition inode_table_offset (sb_dict : gmap string Z) (inode_number : Z) : res Z :=
  let* imap := getitem sb_dict "imap_blocks" in
  let* zmap := getitem sb_dict "zmap_blocks" in
  let inode_table_start_block := BOOT_BLOCK + SUPER_BLOCK + imap + zmap in
  let inode_table_start_byte := inode_table_start_block * BLOCK_SIZE in
  Ok (inode_table_start_byte + (inode_number - 1) * INODE_SIZE).

Definition parse_inode (file : list Z) (sb_dict : gmap string Z)
    (inode_number : Z) : res inode :=
  let* inode_offset := inode_table_offset sb_dict inode_number in
  let inode_data := fread file inode_offset INODE_SIZE in
  unpack_inode inode_data.

(** [struct.pack("<HHIIBB9H", mode, uid, size, time, gid, nlinks, *zones)]:
    exactly nine zone arguments are required. *)
Fixpoint pack_ints (c : icode) (vs : list Z) : res (list Z) :=
  match vs with
  | [] => Ok []
  | v :: vs' =>
      let* b := pack_int c v in
      let* bs := pack_ints c vs' in
      Ok (b ++ bs)
  end.

Definition pack_inode (mode uid size time gid nlinks : Z) (zones : list Z)
    : res (list Z) :=
  if negb (len zones =? 9) then Raise StructError
  else
    let* b0 := pack_int cH mode in
    let* b1 := pack_int cH uid in
    let* b2 := pack_int cI size in
    let* b3 := pack_int cI time in
    let* b4 := pack_int cB gid in
    let* b5 := pack_int cB nlinks in
    let* bz := pack_ints cH zones in
    Ok (b0 ++ b1 ++ b2 ++ b3 ++ b4 ++ b5 ++ bz).


(** ** Strings

    A [str] is its list of code points.  [bytes.decode()] and
    [str.encode()] use UTF-8 with the strict error handler: overlong
    forms, surrogates and code points above U+10FFFF are rejected. *)

Definition is_cont (b : Z) : bool := (0x80 <=? b) && (b <=? 0xBF).

Fixpoint decode (bs : list Z) : res (list Z) :=
  match bs with
  | [] => Ok []
  | b0 :: r0 =>
      if (0 <=? b0) && (b0 <? 0x80) then
        let* s := decode r0 in Ok (b0 :: s)
      else if (0xC2 <=? b0) && (b0 <=? 0xDF) then
        match r0 with
        | b1 :: r1 =>
            if is_cont b1 then
              let* s := decode r1 in
              Ok ((b0 - 0xC0) * 64 + (b1 - 0x80) :: s)
            else Raise UnicodeDecodeError
        | _ => Raise UnicodeDecodeError
        end
      else if (0xE0 <=? b0) && (b0 <=? 0xEF) then
        match r0 with
        | b1 :: b2 :: r2 =>
            let lo := if b0 =? 0xE0 then 0xA0 else 0x80 in
            let hi := if b0 =? 0xED then 0x9F else 0xBF in
            if (lo <=? b1) && (b1 <=? hi) && is_cont b2 then
              let* s := decode r2 in
              Ok ((b0 - 0xE0) * 4096 + (b1 - 0x80) * 64 + (b2 - 0x80) :: s)
            else Raise UnicodeDecodeError
        | _ => Raise UnicodeDecodeError
        end
      else if (0xF0 <=? b0) && (b0 <=? 0xF4) then
        match r0 with
        | b1 :: b2 :: b3 :: r3 =>
            let lo := if b0 =? 0xF0 then 0x90 else 0x80 in
            let hi := if b0 =? 0xF4 then 0x8F else 0xBF in
            if (lo <=? b1) && (b1 <=? hi) && is_cont b2 && is_cont b3 then
              let* s := decode r3 in
              Ok ((b0 - 0xF0) * 262144 + (b1 - 0x80) * 4096
                  + (b2 - 0x80) * 64 + (b3 - 0x80) :: s)
            else Raise UnicodeDecodeError
        | _ => Raise UnicodeDecodeError
        end
      else Raise UnicodeDecodeError
  end.

Definition encode_char (c : Z) : res (list Z) :=
  if c <? 0x80 then Ok [c]
  else if c <? 0x800 then Ok [0xC0 + c / 64; 0x80 + c mod 64]
  else if (0xD800 <=? c) && (c <=? 0xDFFF) then Raise UnicodeEncodeError
  else if c <? 0x10000 then
    Ok [0xE0 + c / 4096; 0x80 + (c / 64) mod 64; 0x80 + c mod 64]
  else
    Ok [0xF0 + c / 262144; 0x80 + (c / 4096) mod 64;
        0x80 + (c / 64) mod 64; 0x80 + c mod 64].

Fixpoint encode (s : list Z) : res (list Z) :=
  match s with
  | [] => Ok []
  | c :: s' =>
      let* b := encode_char c in
      let* bs := encode s' in
      Ok (b ++ bs)
  end.

(** A string literal of the source as a [str] (ASCII literals only). *)
Definition str (s : string) : list Z :=
  map (fun a => Z.of_nat (nat_of_ascii a)) (list_ascii_of_string s).

(** [b.rstrip(b'\0')] *)
Fixpoint rstrip0 (bs : list Z) : list Z :=
  match bs with
  | [] => []
  | b :: r =>
      match rstrip0 r with
      | [] => if b =? 0 then [] else [b]
      | r' => b :: r'
      end
  end.

(** [s.ljust(width, fill)] on a [str] or on [bytes]. *)
Definition ljust (s : list Z) (width : Z) (fill : Z) : list Z :=
  s ++ repeat fill (Z.to_nat (width - len s)).

(** [range(start, stop, step)] for [step > 0]. *)
Definition py_range (start stop step : Z) : list Z :=
  map (fun i => start + Z.of_nat i * step)
      (seq 0 (Z.to_nat ((stop - start + step - 1) / step))).

(** ** Loops

    [for_each xs body s]: a [for] loop whose body updates the loop state.
    [for_find xs body]: a [for] loop that is left at the first iteration
    whose body answers [Some r] (a [break] or a [return]); [None] when the
    loop runs to its end (the [else] branch of a [for]/[else]). *)

Fixpoint for_each {A S} (xs : list A) (body : A -> S -> res S) (s : S) : res S :=
  match xs with
  | [] => Ok s
  | x :: xs' =>
      let* s' := body x s in
      for_each xs' body s'
  end.

Fixpoint for_find {A R} (xs : list A) (body : A -> res (option R)) : res (option R) :=
  match xs with
  | [] => Ok None
  | x :: xs' =>
      let* r := body x in
      match r with
      | Some v => Ok (Some v)
      | None => for_find xs' body
      end
  end.

(** ** Directory entries *)

(** [struct.calcsize(f"<H{max_filename_length}s")] *)
Definition entry_size (max_filename_length : Z) : Z := 2 + max_filename_length.

(** [struct.unpack(f"<H{max_filename_length}s", entry_data)] *)
Definition unpack_entry (max_filename_length : Z) (entry_data : list Z)
    : res (Z * list Z) :=
  if negb (len entry_data =? entry_size max_filename_length) then Raise StructError
  else Ok (le_decode (slice entry_data 0 2),
           slice entry_data 2 (2 + max_filename_length)).

(** [struct.pack(f"<H{max_filename_length}s", inode_number, name)]: the
    ["s"] field truncates a longer argument and pads a shorter one with
    zero bytes. *)
Definition pack_entry (max_filename_length : Z) (inode_number : Z)
    (name : list Z) : res (list Z) :=
  let* b := pack_int cH inode_number in
  Ok (b ++ take (Z.to_nat max_filename_length)
              (name ++ repeat 0 (Z.to_nat max_filename_length))).

(** ** Listing the root directory *)

Definition read_root_directory_entries (file : list Z)
    (sb_dict : gmap string Z) (max_filename_length : Z) : res (list (list Z)) :=
  let* root_inode := parse_inode file sb_dict 1 in
  let entry_size := entry_size max_filename_length in
  for_each (i_zone root_inode) (fun zone_number entries =>
    if negb (zone_number =? EMPTY) then
      let block_data := fread file (zone_number * BLOCK_SIZE) BLOCK_SIZE in
      for_each (py_range 0 BLOCK_SIZE entry_size) (fun offset entries =>
        let entry_data := slice block_data offset (offset + entry_size) in
        let* (inode_number, filename) := unpack_entry max_filename_length entry_data in
        if negb (inode_number =? 0) then
          let cleaned_filename := rstrip0 filename in
          Ok (entries ++ [cleaned_filename])
        else Ok entries) entries
    else Ok entries) [].

(** ** Name lookup

    The same pair of loops occurs in [find_inode_of_directory], [cat_file]
    and [append_to_file]: every zone slot of the directory inode, every
    entry of the block, and the first entry whose trimmed, decoded name
    equals the wanted name ends the scan.  The inode number of the entry
    is not looked at. *)

Definition scan_directory (file : list Z) (dir_inode : inode)
    (filename : list Z) (max_filename_length : Z) : res (option Z) :=
  let entry_size := entry_size max_filename_length in
  for_find (i_zone dir_inode) (fun zone =>
    if negb (zone =? EMPTY) then
      let block_data := fread file (zone * BLOCK_SIZE) BLOCK_SIZE in
      for_find (py_range 0 BLOCK_SIZE entry_size) (fun offset =>
        let entry_data := slice block_data offset (offset + entry_size) in
        let* (inode_number, entry_name) := unpack_entry max_filename_length entry_data in
        let* decoded := decode (rstrip0 entry_name) in
        if bool_decide (decoded = filename) then Ok (Some inode_number)
        else Ok None)
    else Ok None).

Definition find_inode_of_directory (file : list Z) (sb_dict : gmap string Z)
    (dir_name : list Z) (max_filename_length : Z) (root_inode_number : Z)
    : res (option Z) :=
  let* root_inode := parse_inode file sb_dict root_inode_number in
  scan_directory file root_inode dir_name max_filename_length.

(** ** Indirect blocks *)

(** [struct.unpack_from("<" + "H" * 512, block_data)]: needs 1024 bytes. *)
Definition unpack_from_512H (block_data : list Z) : res (list Z) :=
  if len block_data <? 2 * (BLOCK_SIZE / 2) then Raise StructError
  else Ok (map (fun k => le_decode (slice block_data (2 * Z.of_nat k) (2 * Z.of_nat k + 2)))
               (seq 0 (Z.to_nat (BLOCK_SIZE / 2)))).

Definition fetch_indirect_block_addresses (file : list Z) (block_num : Z)
    : res (list Z) :=
  let block_data := fread file (block_num * BLOCK_SIZE) BLOCK_SIZE in
  let* addresses := unpack_from_512H block_data in
  for_each addresses (fun address valid_addresses =>
    if negb (address =? EMPTY) then Ok (valid_addresses ++ [address])
    else Ok valid_addresses) [].

Definition fetch_double_indirect_block_addresses (file : list Z) (block_num : Z)
    : res (list Z) :=
  let* indirect_addresses := fetch_indirect_block_addresses file block_num in
  for_each indirect_addresses (fun indirect_address data_block_addresses =>
    let* l := fetch_indirect_block_addresses file indirect_address in
    Ok (data_block_addresses ++ l)) [].

(** ** Reading a file *)

(** [inode["i_zone"][i]] *)
Definition getzone (zones : list Z) (i : Z) : res Z :=
  match zones !! Z.to_nat i with
  | Some z => Ok z
  | None => Raise IndexError
  end.

(** The loop body shared by the three loops of [read_file_data]; the loop
    state is the pair [(file_content, remaining_size)]. *)
Definition read_block (file : list Z) (block : Z) (st : list Z * Z) : list Z * Z :=
  let '(file_content, remaining_size) := st in
  let bytes_to_read := Z.min BLOCK_SIZE remaining_size in
  (file_content ++ fread file (block * BLOCK_SIZE) bytes_to_read,
   remaining_size - bytes_to_read).

(** The loop over the direct zones: no [break], a guard on every zone. *)
Fixpoint read_direct (file : list Z) (zones : list Z) (st : list Z * Z) : list Z * Z :=
  match zones with
  | [] => st
  | zone :: rest =>
      if negb (zone =? EMPTY) && (0 <? snd st)
      then read_direct file rest (read_block file zone st)
      else read_direct file rest st
  end.

(** The loops over indirect and double-indirect blocks:
    [if remaining_size <= 0: break]. *)
Fixpoint read_blocks (file : list Z) (blocks : list Z) (st : list Z * Z) : list Z * Z :=
  match blocks with
  | [] => st
  | block :: rest =>
      if snd st <=? 0 then st
      else read_blocks file rest (read_block file block st)
  end.

(** [remaining_size > 0 and inode["i_zone"][i] != EMPTY]: the slot is
    indexed only when the left operand holds. *)
Definition more_in_slot (remaining_size : Z) (zones : list Z) (i : Z) : res bool :=
  if 0 <? remaining_size then
    let* z := getzone zones i in Ok (negb (z =? EMPTY))
  else Ok false.

Definition read_file_data (file : list Z) (inode : inode) : res (list Z) :=
  let st0 := ([], i_size inode) in
  let st1 := read_direct file (take (Z.to_nat NUM_DIRECT_ZONES) (i_zone inode)) st0 in
  let* c1 := more_in_slot (snd st1) (i_zone inode) INDIRECT_ZONE_INDEX in
  let* st2 :=
    if c1 then
      let* indirect_index := getzone (i_zone inode) INDIRECT_ZONE_INDEX in
      let* indirect_blocks := fetch_indirect_block_addresses file indirect_index in
      Ok (read_blocks file indirect_blocks st1)
    else Ok st1 in
  let* c2 := more_in_slot (snd st2) (i_zone inode) DOUBLE_INDIRECT_ZONE_INDEX in
  let* st3 :=
    if c2 then
      let* double_indirect_index := getzone (i_zone inode) DOUBLE_INDIRECT_ZONE_INDEX in
      let* double_indirect_blocks :=
        fetch_double_indirect_block_addresses file double_indirect_index in
      Ok (read_blocks file double_indirect_blocks st2)
    else Ok st2 in
  Ok (fst st3).

(** ** Commands: the image, standard output and standard error

    A command runs on a [world]; what it wrote before an exception stays
    written. *)

Record world : Type := mkWorld {
  disk : list Z;               (* the bytes of the image file *)
  stdout : list Z;             (* bytes written to sys.stdout.buffer *)
  stderr : list (list Z)       (* lines printed to sys.stderr *)
}.

Definition cmd (A : Type) : Type := world -> res A * world.

Definition cret {A} (a : A) : cmd A := fun w => (Ok a, w).

Definition cbind {A B} (m : cmd A) (k : A -> cmd B) : cmd B :=
  fun w =>
    match m w with
    | (Ok a, w') => k a w'
    | (Raise e, w') => (Raise e, w')
    end.

Notation "'let!' x ':=' m 'in' k" := (cbind m (fun x => k))
  (at level 10, x pattern, m at level 100, k at level 200).

Definition raise {A} (e : exn) : cmd A := fun w => (Raise e, w).

Definition lift {A} (r : res A) : cmd A := fun w => (r, w).

(** A function that only reads the image. *)
Definition reading {A} (f : list Z -> res A) : cmd A := fun w => (f (disk w), w).

Definition file_read (off n : Z) : cmd (list Z) :=
  fun w => (Ok (fread (disk w) off n), w).

Definition file_write (off : Z) (data : list Z) : cmd unit :=
  fun w => (Ok tt, {| disk := fwrite (disk w) off data;
                      stdout := stdout w; stderr := stderr w |}).

(** [print(msg, file=sys.stderr)] *)
Definition print_stderr (msg : list Z) : cmd unit :=
  fun w => (Ok tt, {| disk := disk w; stdout := stdout w;
                      stderr := stderr w ++ [msg] |}).

(** [sys.stdout.buffer.write(data)] *)
Definition stdout_write (data : list Z) : cmd unit :=
  fun w => (Ok tt, {| disk := disk w; stdout := stdout w ++ data;
                      stderr := stderr w |}).

(** Positional arguments of a call of [read_file_data].  The function is
    declared with two parameters, [(file, inode)]; Python raises
    [TypeError] on a call with any other number of arguments. *)
Inductive pyarg : Type :=
| AFile                           (* the open image handle *)
| ADict (d : gmap string Z)
| AInode (i : inode).

Definition call_read_file_data (args : list pyarg) : cmd (list Z) :=
  match args with
  | [AFile; AInode inode] => reading (fun file => read_file_data file inode)
  | _ => raise TypeError
  end.

(** ** [ls] *)

Definition print_directory_entries (entries : list (list Z)) : cmd unit :=
  fun w => (Ok tt, {| disk := disk w;
                      stdout := stdout w ++ flat_map (fun entry => entry ++ [10]) entries;
                      stderr := stderr w |}).

Definition print_root_directory (sb_dict : gmap string Z)
    (max_filename_length : Z) : cmd unit :=
  let! entries := reading (fun file =>
    read_root_directory_entries file sb_dict max_filename_length) in
  print_directory_entries entries.

(** ** [cat] *)

Definition cat_file (sb_dict : gmap string Z) (dir_inode_number : Z)
    (filename : list Z) (max_filename_length : Z) : cmd unit :=
  let! dir_inode := reading (fun file => parse_inode file sb_dict dir_inode_number) in
  let! found := reading (fun file =>
    scan_directory file dir_inode filename max_filename_length) in
  match found with
  | Some inode_number =>
      let! file_inode := reading (fun file => parse_inode file sb_dict inode_number) in
      let! file_content := call_read_file_data [AFile; AInode file_inode] in
      stdout_write file_content
  | None =>
      print_stderr (str "File " ++ filename ++ str " not found in dir")
  end.

(** ** Allocation scans *)

(** [for inode_number in range(1, sb_dict["num_inodes"] + 1)] with a
    [break] at the first inode whose [i_nlinks] is 0.  [create_new_file]
    writes it as [for]/[else], [create_new_directory] with a variable
    initialised to [None]; both are this scan. *)
Definition find_free_inode (file : list Z) (sb_dict : gmap string Z)
    (num_inodes : Z) : res (option Z) :=
  for_find (py_range 1 (num_inodes + 1) 1) (fun inode_number =>
    let* inode := parse_inode file sb_dict inode_number in
    if i_nlinks inode =? 0 then Ok (Some inode_number) else Ok None).

(** [for offset in range(0, BLOCK_SIZE, entry_size)] over one block, with
    a [break] at the first entry whose inode number is 0. *)
Definition find_free_entry (block_data : list Z) (max_filename_length : Z)
    : res (option Z) :=
  let entry_size := entry_size max_filename_length in
  for_find (py_range 0 BLOCK_SIZE entry_size) (fun offset =>
    let entry_data := slice block_data offset (offset + entry_size) in
    let* (inode_num, name) := unpack_entry max_filename_length entry_data in
    if inode_num =? 0 then Ok (Some offset) else Ok None).

(** [for zone_number in range(first, last)] with a [break] at the first
    block equal to [bytes([EMPTY] * BLOCK_SIZE)]. *)
Definition find_free_block (file : list Z) (first last : Z) : res (option Z) :=
  for_find (py_range first last 1) (fun zone_number =>
    let block_data := fread file (zone_number * BLOCK_SIZE) BLOCK_SIZE in
    if bool_decide (block_data = repeat EMPTY (Z.to_nat BLOCK_SIZE))
    then Ok (Some zone_number) else Ok None).

(** ** [touch] *)

Definition create_new_file (sb_dict : gmap string Z) (filename : list Z)
    (max_filename_length : Z) (now : Z) : cmd unit :=
  let! root_inode := reading (fun file => parse_inode file sb_dict 1) in
  let! num_inodes := lift (getitem sb_dict "num_inodes") in
  let! found := reading (fun file => find_free_inode file sb_dict num_inodes) in
  match found with
  | None => print_stderr (str "Error: No free inodes available.")
  | Some inode_number =>
      let! inode_offset := lift (inode_table_offset sb_dict inode_number) in
      let! new_inode := lift (pack_inode
        (Z.lor (Z.lor (Z.lor S_IFREG S_IRUSR) S_IWUSR) S_IXUSR)
        0 0 now 0 1 (repeat EMPTY 9)) in
      let! _ := file_write inode_offset new_inode in
      let! root_dir_block := lift (getzone (i_zone root_inode) 0) in
      let! block_data := file_read (root_dir_block * BLOCK_SIZE) BLOCK_SIZE in
      let! slot := lift (find_free_entry block_data max_filename_length) in
      match slot with
      | None => print_stderr (str "Error: No free directory entry available.")
      | Some offset =>
          let! name := lift (encode (ljust filename max_filename_length 0)) in
          let! new_dir_entry := lift (pack_entry max_filename_length inode_number name) in
          file_write (root_dir_block * BLOCK_SIZE + offset) new_dir_entry
      end
  end.

(** ** [mkdir] *)

Definition create_new_directory (sb_dict : gmap string Z) (dirname : list Z)
    (max_filename_length : Z) (now : Z) : cmd unit :=
  let! root_inode := reading (fun file => parse_inode file sb_dict 1) in
  let! num_inodes := lift (getitem sb_dict "num_inodes") in
  let! found := reading (fun file => find_free_inode file sb_dict num_inodes) in
  match found with
  | None => print_stderr (str "Error: No free inodes available.")
  | Some free_inode_number =>
      let! inode_offset := lift (inode_table_offset sb_dict free_inode_number) in
      let! new_inode := lift (pack_inode
        (Z.lor (Z.lor (Z.lor S_IFDIR S_IRUSR) S_IWUSR) S_IXUSR)
        0 BLOCK_SIZE now 0 2 (repeat EMPTY 9)) in
      let! _ := file_write inode_offset new_inode in
      let! root_dir_block := lift (getzone (i_zone root_inode) 0) in
      let! block_data := file_read (root_dir_block * BLOCK_SIZE) BLOCK_SIZE in
      let! slot := lift (find_free_entry block_data max_filename_length) in
      match slot with
      | None => print_stderr (str "Error: No free directory entry available.")
      | Some offset =>
          let! name := lift (encode (ljust dirname max_filename_length 0)) in
          let! new_dir_entry :=
            lift (pack_entry max_filename_length free_inode_number name) in
          let! _ := file_write (root_dir_block * BLOCK_SIZE + offset) new_dir_entry in
          let! first_data_zone := lift (getitem sb_dict "first_data_zone") in
          let! nzones := lift (getitem sb_dict "nzones") in
          let! new_dir_block := reading (fun file =>
            find_free_block file first_data_zone nzones) in
          match new_dir_block with
          | None => print_stderr (str "Error: No free data blocks available.")
          | Some new_dir_block =>
              let! zone_field := lift (pack_int cH new_dir_block) in
              let! _ := file_write (inode_offset + 16) zone_field in
              let! dot := lift (pack_entry max_filename_length free_inode_number
                                  (ljust (str ".") max_filename_length 0)) in
              let! dotdot := lift (pack_entry max_filename_length 1
                                  (ljust (str "..") max_filename_length 0)) in
              file_write (new_dir_block * BLOCK_SIZE) (dot ++ dotdot)
          end
      end
  end.

(** ** [append] *)

(** The loop over the direct zones of [append_to_file]: a block is written
    for every non-empty slot, also when no content is left. *)
Fixpoint write_direct (zones : list Z) (file_content : list Z) : cmd (list Z) :=
  match zones with
  | [] => cret file_content
  | zone :: rest =>
      if negb (zone =? EMPTY) then
        let! _ := file_write (zone * BLOCK_SIZE) (slice file_content 0 BLOCK_SIZE) in
        write_direct rest (drop (Z.to_nat BLOCK_SIZE) file_content)
      else write_direct rest file_content
  end.

(** The loops over indirect and double-indirect blocks:
    [if len(file_content) <= 0: break]. *)
Fixpoint write_blocks (blocks : list Z) (file_content : list Z) : cmd (list Z) :=
  match blocks with
  | [] => cret file_content
  | block :: rest =>
      if len file_content <=? 0 then cret file_content
      else
        let! _ := file_write (block * BLOCK_SIZE) (slice file_content 0 BLOCK_SIZE) in
        write_blocks rest (drop (Z.to_nat BLOCK_SIZE) file_content)
  end.

Definition append_to_file (sb_dict : gmap string Z) (dir_inode_number : Z)
    (filename : list Z) (data : list Z) (max_filename_length : Z) (now : Z)
    : cmd unit :=
  let! dir_inode := reading (fun file => parse_inode file sb_dict dir_inode_number) in
  let! found := reading (fun file =>
    scan_directory file dir_inode filename max_filename_length) in
  match found with
  | Some inode_number =>
      let! file_inode := reading (fun file => parse_inode file sb_dict inode_number) in
      let current_size := i_size file_inode in
      let new_size := current_size + len data in
      let! file_content :=
        call_read_file_data [AFile; ADict sb_dict; AInode file_inode] in
      let! data_bytes := lift (encode data) in
      let file_content := file_content ++ data_bytes in
      let! file_content :=
        write_direct (take (Z.to_nat NUM_DIRECT_ZONES) (i_zone file_inode)) file_content in
      let! c1 := lift (more_in_slot (len file_content) (i_zone file_inode)
                         INDIRECT_ZONE_INDEX) in
      let! file_content :=
        (if c1 : bool then
           let! indirect_index := lift (getzone (i_zone file_inode) INDIRECT_ZONE_INDEX) in
           let! indirect_blocks := reading (fun file =>
             fetch_indirect_block_addresses file indirect_index) in
           write_blocks indirect_blocks file_content
         else cret file_content) in
      let! c2 := lift (more_in_slot (len file_content) (i_zone file_inode)
                         DOUBLE_INDIRECT_ZONE_INDEX) in
      let! file_content :=
        (if c2 : bool then
           let! double_indirect_index :=
             lift (getzone (i_zone file_inode) DOUBLE_INDIRECT_ZONE_INDEX) in
           let! double_indirect_blocks := reading (fun file =>
             fetch_double_indirect_block_addresses file double_indirect_index) in
           write_blocks double_indirect_blocks file_content
         else cret file_content) in
      let! inode_offset := lift (inode_table_offset sb_dict inode_number) in
      let! new_inode := lift (pack_inode (i_mode file_inode) (i_uid file_inode)
        new_size now (i_gid file_inode) (i_nlinks file_inode) (i_zone file_inode)) in
      file_write inode_offset new_inode
  | None =>
      print_stderr (str "File " ++ filename ++ str " not found in dir")
  end.

(** ** The command line *)

(** [s.split('/')] *)
Fixpoint split (sep : Z) (s : list Z) : list (list Z) :=
  match s with
  | [] => [[]]
  | c :: r =>
      match split sep r with
      | cur :: rest => if c =? sep then [] :: cur :: rest else (c :: cur) :: rest
      | [] => [[c]]
      end
  end.

(** [MAX_FILENAME_LONG if sb_dict["magic"] == 0x138F else MAX_FILENAME_SHORT] *)
Definition name_width (sb_dict : gmap string Z) : res Z :=
  let* magic := getitem sb_dict "magic" in
  Ok (if magic =? 0x138F then MAX_FILENAME_LONG else MAX_FILENAME_SHORT).

Definition sys_exit {A} (code : Z) : cmd A := raise (SystemExit code).

(** [sys.argv[i]], used after the length of [sys.argv] has been checked. *)
Definition arg (argv : list (list Z)) (i : nat) : list Z := default [] (argv !! i).

(** The body of [if __name__ == "__main__"]; [disk] of the world is the
    content of the file named by [sys.argv[1]]. *)
Definition main (argv : list (list Z)) (now : Z) : cmd unit :=
  if len argv <? 3 then
    let! _ := print_stderr (str "Usage: mfstool.py image command params") in
    sys_exit 1
  else
    let command := arg argv 2 in
    let! sb_data := file_read BLOCK_SIZE BLOCK_SIZE in
    let! sb_dict := lift (parse_superblock sb_data) in
    if bool_decide (command = str "ls") then
      let! max_filename_length := lift (name_width sb_dict) in
      print_root_directory sb_dict max_filename_length
    else if bool_decide (command = str "cat") then
      if negb (len argv =? 4) then
        let! _ := print_stderr (str
          "Error: Incorrect usage. Please use: mfstool.py image cat path/to/file") in
        sys_exit 1
      else
        match split 47 (arg argv 3) with
        | [dir_name; file_name] =>
            let! max_filename_length := lift (name_width sb_dict) in
            let! dir_inode_number := reading (fun file =>
              find_inode_of_directory file sb_dict dir_name max_filename_length 1) in
            match dir_inode_number with
            | None =>
                let! _ := print_stderr (str "Error: The directory '" ++ dir_name
                                          ++ str "' was not found.") in
                sys_exit 1
            | Some dir_inode_number =>
                cat_file sb_dict dir_inode_number file_name max_filename_length
            end
        | _ =>
            let! _ := print_stderr (str
              "Error: Only paths in the format 'directory/filename' are supported.") in
            sys_exit 1
        end
    else if bool_decide (command = str "touch") then
      if negb (len argv =? 4) then
        let! _ := print_stderr (str
          "Error: Incorrect usage. Please use: mfstool.py image touch filename") in
        sys_exit 1
      else
        let filename := arg argv 3 in
        let! max_filename_length := lift (name_width sb_dict) in
        if max_filename_length <? len filename then
          let! _ := print_stderr (str "Error: Filename '" ++ filename
                                    ++ str "' is too long.") in
          sys_exit 1
        else create_new_file sb_dict filename max_filename_length now
    else if bool_decide (command = str "mkdir") then
      if negb (len argv =? 4) then
        let! _ := print_stderr (str
          "Error: Incorrect usage. Please use: mfstool.py image mkdir dirname") in
        sys_exit 1
      else
        let dirname := arg argv 3 in
        let! max_filename_length := lift (name_width sb_dict) in
        if max_filename_length <? len dirname then
          let! _ := print_stderr (str "Error: Directory name '" ++ dirname
                                    ++ str "' is too long.") in
          sys_exit 1
        else create_new_directory sb_dict dirname max_filename_length now
    else if bool_decide (command = str "append") then
      if negb (len argv =? 5) then
        let! _ := print_stderr (str
          "Error: Incorrect usage. Please use: mfstool.py image append path/to/file data_to_append") in
        sys_exit 1
      else
        match split 47 (arg argv 3) with
        | [dir_name; file_name] =>
            let data_to_append := arg argv 4 in
            let! max_filename_length := lift (name_width sb_dict) in
            let! dir_inode_number := reading (fun file =>
              find_inode_of_directory file sb_dict dir_name max_filename_length 1) in
            match dir_inode_number with
            | None =>
                let! _ := print_stderr (str "Error: The directory '" ++ dir_name
                                          ++ str "' was not found.") in
                sys_exit 1
            | Some dir_inode_number =>
                append_to_file sb_dict dir_inode_number file_name data_to_append
                  max_filename_length now
            end
        | _ =>
            let! _ := print_stderr (str
              "Error: Only paths in the format 'directory/filename' are supported.") in
            sys_exit 1
        end
    else
      print_stderr (str "Unknown command: " ++ command).

(** ** Reference formulations used in the statements below *)

(** The ordered sequence of block numbers behind an inode's zone slots:
    the non-zero direct slots, then the non-zero entries of the indirect
    block, then, for each non-zero entry of the double-indirect block in
    order, the non-zero entries of the block it names. *)
Definition resolve_zones (file : list Z) (zones : list Z) : res (list Z) :=
  let direct := filter (fun z => z <> EMPTY) (take 7 zones) in
  let* z7 := getzone zones 7 in
  let* indirect :=
    if z7 =? EMPTY then Ok [] else fetch_indirect_block_addresses file z7 in
  let* z8 := getzone zones 8 in
  let* double :=
    if z8 =? EMPTY then Ok [] else fetch_double_indirect_block_addresses file z8 in
  Ok (direct ++ indirect ++ double).


(** Reading along a sequence of blocks: [min(1024, remaining)] bytes from
    each, until nothing remains or the blocks are exhausted. *)
Fixpoint gather (file : list Z) (blocks : list Z) (remaining : Z) : list Z :=
  match blocks with
  | [] => []
  | block :: rest =>
      if remaining <=? 0 then []
      else
        fread file (block * BLOCK_SIZE) (Z.min BLOCK_SIZE remaining)
          ++ gather file rest (remaining - Z.min BLOCK_SIZE remaining)
  end.

(** The record found at [offset] of a directory block. *)
Definition entry_at (max_filename_length : Z) (block_data : list Z) (offset : Z)
    : Z * list Z :=
  let entry_data := slice block_data offset (offset + entry_size max_filename_length) in
  (le_decode (slice entry_data 0 2), slice entry_data 2 (2 + max_filename_length)).

(** The records of one directory block, in block order. *)
Definition block_entries (max_filename_length : Z) (block_data : list Z)
    : list (Z * list Z) :=
  map (entry_at max_filename_length block_data)
      (py_range 0 BLOCK_SIZE (entry_size max_filename_length)).

(** The records of a directory whose zone slots are [zones]: every
    non-zero slot value, in slot order, names one block of records.  No
    slot is treated as an indirect block. *)
Definition dir_entries (file : list Z) (zones : list Z) (max_filename_length : Z)
    : list (Z * list Z) :=
  flat_map (fun zone =>
              block_entries max_filename_length
                (fread file (zone * BLOCK_SIZE) BLOCK_SIZE))
           (filter (fun zone => zone <> EMPTY) zones).

(** The names of the records in use (inode number not 0), zero-trimmed. *)
Definition names_of (entries : list (Z * list Z)) : list (list Z) :=
  map (fun e => rstrip0 (snd e)) (filter (fun e => fst e <> 0) entries).

(** Every non-zero slot of [zones] names a block that lies inside the
    image. *)
Definition blocks_present (file : list Z) (zones : list Z) : Prop :=
  forall zone, zone ∈ zones -> zone <> EMPTY ->
    len (fread file (zone * BLOCK_SIZE) BLOCK_SIZE) = BLOCK_SIZE.

(** The test the lookup applies to one record: the name field is
    trimmed, decoded and compared; the inode number plays no part. *)
Definition match_entry (name : list Z) (e : Z * list Z) : res (option Z) :=
  let* decoded := decode (rstrip0 (snd e)) in
  if bool_decide (decoded = name) then Ok (Some (fst e)) else Ok None.

(** An exception other than [SystemExit] that reaches the top level ends
    the run with a traceback: an uncontrolled abort. *)
Definition controlled {A} (r : res A) : Prop :=
  match r with
  | Ok _ => True
  | Raise (SystemExit _) => True
  | Raise _ => False
  end.

(** The free-slot search as the design document words it: all allocated
    zones of the directory, block order then in-block order, the first
    record whose inode number is 0; [None] is "directory full". *)
Definition spec_free_directory_slot (file : list Z) (zones : list Z)
    (max_filename_length : Z) : option (Z * Z) :=
  head (filter (fun p : Z * Z =>
                  fst (entry_at max_filename_length
                         (fread file (fst p * BLOCK_SIZE) BLOCK_SIZE) (snd p)) = 0)
               (flat_map (fun zone =>
                            map (fun offset => (zone, offset))
                                (py_range 0 BLOCK_SIZE (entry_size max_filename_length)))
                         (filter (fun zone => zone <> EMPTY) zones))).

(** ** Example images

    All examples share one layout: block 0 boot, block 1 superblock,
    block 2 inode bitmap, block 3 zone bitmap, block 4 inode table
    (32 inodes), data zones from block 5 on; magic 0x137F (14-byte
    names). *)

Definition superblock_bytes (num_inodes num_zones : Z) : list Z :=
  le_encode 2 num_inodes ++ le_encode 2 num_zones ++ le_encode 2 1
    ++ le_encode 2 1 ++ le_encode 2 5 ++ le_encode 2 0
    ++ le_encode 4 0x10081C00 ++ le_encode 2 0x137F ++ le_encode 2 1.

Definition inode_bytes (mode size time nlinks : Z) (zones : list Z) : list Z :=
  le_encode 2 mode ++ le_encode 2 0 ++ le_encode 4 size ++ le_encode 4 time
    ++ le_encode 1 0 ++ le_encode 1 nlinks
    ++ flat_map (le_encode 2) zones.

Definition entry_bytes (inode_number : Z) (name : list Z) : list Z :=
  le_encode 2 inode_number ++ take 14 (name ++ repeat 0 14).

(** [nblocks] zero blocks with a superblock for 32 inodes. *)
Definition formatted (nblocks : Z) : list Z :=
  fwrite (repeat 0 (Z.to_nat (nblocks * 1024))) 1024 (superblock_bytes 32 nblocks).

Definition boot (image : list Z) : world :=
  {| disk := image; stdout := []; stderr := [] |}.

(** The superblock dictionary of an example image, as [parse_superblock]
    builds it: one insertion per field, in field order. *)
Definition sb_of (num_inodes num_zones : Z) : gmap string Z :=
  <["state" := 1]> (<["magic" := 0x137F]> (<["max_file_size" := 0x10081C00]>
  (<["log_zone_size" := 0]> (<["first_data_zone" := 5]> (<["zmap_blocks" := 1]>
  (<["imap_blocks" := 1]> (<["num_zones" := num_zones]>
  (<["num_inodes" := num_inodes]> ∅)))))))).

Definition example_sb (nblocks : Z) : gmap string Z := sb_of 32 nblocks.

(** Scenario A: the root directory (inode 1, zone 5) holds ("foo", 5);
    zones 6 and 7 are all zero. *)
Definition image_foo : list Z :=
  fwrite (fwrite (formatted 8)
    4096 (inode_bytes 0x41C0 1024 0 2 [5; 0; 0; 0; 0; 0; 0; 0; 0]))
    5120 (entry_bytes 5 (str "foo")).

(** Scenario C: a formatted image whose inode table and data zones are
    all zero. *)
Definition image_free : list Z := formatted 8.

(** A small tree: root (inode 1, zone 5) holds ("d", 2); directory "d"
    (inode 2, zone 6) holds ("f", 3); file "f" (inode 3, zone 7) holds
    the three bytes "abc". *)
Definition image_tree : list Z :=
  fwrite (fwrite (fwrite (fwrite (fwrite (fwrite (formatted 8)
    4096 (inode_bytes 0x41C0 1024 0 2 [5; 0; 0; 0; 0; 0; 0; 0; 0]))
    4128 (inode_bytes 0x41C0 1024 0 2 [6; 0; 0; 0; 0; 0; 0; 0; 0]))
    4160 (inode_bytes 0x81C0 3 0 1 [7; 0; 0; 0; 0; 0; 0; 0; 0]))
    5120 (entry_bytes 2 (str "d")))
    6144 (entry_bytes 3 (str "f")))
    7168 (str "abc").

(** A root directory with a released record: record 0 is (0, "a"), its
    inode number zeroed when the name was removed, record 1 is (3, "a"). *)
Definition image_stale : list Z :=
  fwrite (fwrite (fwrite (fwrite (formatted 6)
    4096 (inode_bytes 0x41C0 1024 0 2 [5; 0; 0; 0; 0; 0; 0; 0; 0]))
    4160 (inode_bytes 0x81C0 0 0 1 [0; 0; 0; 0; 0; 0; 0; 0; 0]))
    5120 (entry_bytes 0 (str "a")))
    5136 (entry_bytes 3 (str "a")).

(** A root directory of two zones: zone 5 is full (64 records in use),
    zone 6 is empty.  Inodes 1 and 2 are in use. *)
Definition image_full : list Z :=
  fwrite (fwrite (fwrite (formatted 8)
    4096 (inode_bytes 0x41C0 2048 0 2 [5; 6; 0; 0; 0; 0; 0; 0; 0]))
    4128 (inode_bytes 0x81C0 0 0 1 [0; 0; 0; 0; 0; 0; 0; 0; 0]))
    5120 (flat_map (fun _ => entry_bytes 2 (str "x")) (seq 0 64)).

(** A root directory whose first record has the name byte 0xFF, which
    is not UTF-8. *)
Definition image_latin : list Z :=
  fwrite (fwrite (formatted 6)
    4096 (inode_bytes 0x41C0 1024 0 2 [5; 0; 0; 0; 0; 0; 0; 0; 0]))
    5120 (entry_bytes 2 [255]).

(** An image with two inodes, both in use. *)
Definition image_used : list Z :=
  fwrite (fwrite (fwrite (repeat 0 (Z.to_nat (6 * 1024)))
    1024 (superblock_bytes 2 6))
    4096 (inode_bytes 0x41C0 1024 0 2 [5; 0; 0; 0; 0; 0; 0; 0; 0]))
    4128 (inode_bytes 0x81C0 0 0 1 [0; 0; 0; 0; 0; 0; 0; 0; 0]).

Definition sb_used : gmap string Z := sb_of 2 6.

(** A file shorter than boot block plus superblock record. *)
Definition image_short : list Z := repeat 0 (Z.to_nat 1030).

(** Scenario B: a file of 2500 bytes in zones 10, 11 and 12. *)
Definition inode_B : inode :=
  {| i_mode := 0x81C0; i_uid := 0; i_size := 2500; i_time := 0; i_gid := 0;
     i_nlinks := 1; i_zone := [10; 11; 12; 0; 0; 0; 0; 0; 0] |}.

Definition image_B : list Z :=
  flat_map (fun b => repeat (Z.of_nat b) (Z.to_nat 1024)) (seq 0 13).

(** A root directory whose record ("d", 40000) names an inode far
    beyond [num_inodes] = 32 and beyond the end of the image. *)
Definition image_range : list Z :=
  fwrite (fwrite (formatted 6)
    4096 (inode_bytes 0x41C0 1024 0 2 [5; 0; 0; 0; 0; 0; 0; 0; 0]))
    5120 (entry_bytes 40000 (str "d")).

(** A root directory that uses the indirect slot: zone slot 0 is block 5
    with the record ("foo", 5), zone slot 7 is block 6 with the record
    ("bar", 6). *)
Definition image_slot7 : list Z :=
  fwrite (fwrite (fwrite (formatted 8)
    4096 (inode_bytes 0x41C0 2048 0 2 [5; 0; 0; 0; 0; 0; 0; 6; 0]))
    5120 (entry_bytes 5 (str "foo")))
    6144 (entry_bytes 6 (str "bar")).

Definition inode_root (zones : list Z) (size : Z) : inode :=
  {| i_mode := 0x41C0; i_uid := 0; i_size := size; i_time := 0; i_gid := 0;
     i_nlinks := 2; i_zone := zones |}.

Definition inode_file (zones : list Z) (size : Z) : inode :=
  {| i_mode := 0x81C0; i_uid := 0; i_size := size; i_time := 0; i_gid := 0;
     i_nlinks := 1; i_zone := zones |}.



(** ** Further reference formulations *)

(** The names under which [parse_superblock] stores the fields. *)
Definition field_names : list string := map fst fields.

(** A code point a [str] can hold and UTF-8 can encode: a Unicode scalar
    value. *)
Definition scalar (c : Z) : Prop :=
  0 <= c <= 0x10FFFF /\ ~ (0xD800 <= c <= 0xDFFF).

(** A command that leaves one component of the world as it found it,
    whatever it returns or raises. *)
Definition keeps {A B} (proj : world -> B) (m : cmd A) : Prop :=
  forall wd, proj (snd (m wd)) = proj wd.

(** The loop invariant of the three loops of [read_file_data]: what has
    been read and what remains add up to at most the size. *)
Definition within (size : Z) (st : list Z * Z) : Prop :=
  0 <= snd st /\ len (fst st) + snd st <= size.



(** Scenario A with a released record after ("foo", 5): record 1 of zone
    5 has inode number 0 and still holds the name "old". *)
Definition image_foo_old : list Z :=
  fwrite image_foo 5136 (entry_bytes 0 (str "old")).

(** A directory that uses the indirect slot for a file with content: the
    root (inode 1) has zone slot 0 = block 5 with the record ("foo", 5)
    and zone slot 7 = block 6 with the record ("bar", 2); inode 2 is a
    file of three bytes in block 7, "abc". *)
Definition image_cat7 : list Z :=
  fwrite (fwrite (fwrite (fwrite (fwrite (formatted 8)
    4096 (inode_bytes 0x41C0 2048 0 2 [5; 0; 0; 0; 0; 0; 0; 6; 0]))
    4128 (inode_bytes 0x81C0 3 0 1 [7; 0; 0; 0; 0; 0; 0; 0; 0]))
    5120 (entry_bytes 5 (str "foo")))
    6144 (entry_bytes 2 (str "bar")))
    7168 (str "abc").

(** The dictionary of the example images with the key "nzones" added,
    the key that [create_new_directory] asks for. *)
Definition sb_nzones : gmap string Z := <["nzones" := 8]> (example_sb 8).

(** * Properties *)

(** ** Little-endian integers *)

Lemma le_decode_encode (n : nat) (v : Z) :
  0 <= v < 256 ^ Z.of_nat n -> le_decode (le_encode n v) = v.
Proof.
  revert v. induction n as [|n IH]; intros v Hv.
  - simpl in *. lia.
  - cbn [le_encode le_decode].
    rewrite IH.
    + pose proof (Z.div_mod v 256). lia.
    + rewrite Nat2Z.inj_succ, Z.pow_succ_r in Hv by lia.
      split; [apply Z.div_pos; lia | apply Z.div_lt_upper_bound; lia].
Qed.

Lemma length_le_encode (n : nat) (v : Z) : length (le_encode n v) = n.
Proof. revert v. induction n; intros; simpl; auto. Qed.

Lemma pack_int_Ok (c : icode) (v : Z) (b : list Z) :
  pack_int c v = Ok b ->
  0 <= v < 2 ^ (8 * calcsize c) /\ b = le_encode (Z.to_nat (calcsize c)) v.
Proof.
  unfold pack_int. intros H.
  destruct (0 <=? v) eqn:E1; destruct (v <? 2 ^ (8 * calcsize c)) eqn:E2;
    simpl in H; try discriminate.
  inversion H. split; [lia | reflexivity].
Qed.

Lemma pack_int_decode (c : icode) (v : Z) (b : list Z) :
  pack_int c v = Ok b -> le_decode b = v /\ len b = calcsize c.
Proof.
  intros H. apply pack_int_Ok in H as [Hv ->]. split.
  - apply le_decode_encode.
    destruct c.
    + change (0 <= v < 256) in Hv. change (0 <= v < 256). exact Hv.
    + change (0 <= v < 65536) in Hv. change (0 <= v < 65536). exact Hv.
    + change (0 <= v < 4294967296) in Hv. change (0 <= v < 4294967296). exact Hv.
  - unfold len. rewrite length_le_encode. destruct c; reflexivity.
Qed.

(** ** Reading back what was written *)

Lemma fread_fwrite_same (f : list Z) (off : Z) (data : list Z) :
  fread (fwrite f off data) off (len data) = data.
Proof.
  unfold fread, fwrite, len. rewrite Nat2Z.id.
  set (o := Z.to_nat off).
  rewrite app_assoc.
  rewrite drop_app_length'.
  - rewrite take_app_length. reflexivity.
  - rewrite length_app, length_take, repeat_length. lia.
Qed.

Lemma length_fwrite (f : list Z) (off : Z) (data : list Z) :
  (Z.to_nat off + length data <= length (fwrite f off data))%nat.
Proof.
  unfold fwrite. rewrite !length_app, length_take, repeat_length. lia.
Qed.

(** A write does not change what a read of a disjoint, fully present
    range returns. *)
Lemma fread_fwrite_disjoint (f : list Z) (off n off' : Z) (data : list Z) :
  0 <= off -> 0 <= n -> 0 <= off' ->
  off + n <= len f ->
  off + n <= off' \/ off' + len data <= off ->
  fread (fwrite f off' data) off n = fread f off n.
Proof.
  unfold fread, fwrite, len. intros Ho Hn Ho' Hlen Hdis.
  apply list_eq. intros i.
  rewrite !lookup_take. 
  destruct (decide (i < Z.to_nat n)%nat) as [Hi|Hi]; [|reflexivity].
  rewrite !lookup_drop.
  set (o' := Z.to_nat off'). set (o := Z.to_nat off).
  destruct Hdis as [Hd|Hd].
  - rewrite lookup_app_l by (rewrite length_take; lia).
    rewrite lookup_take. destruct (decide (o + i < o')%nat); [reflexivity|lia].
  - rewrite app_assoc, app_assoc.
    rewrite lookup_app_r by (rewrite !length_app, length_take, repeat_length; lia).
    rewrite lookup_drop. f_equal.
    rewrite !length_app, length_take, repeat_length. lia.
Qed.

(** ** Inode records: encode, write, read, decode *)

Lemma unpack_inode_cells
    (a0 a1 a2 a3 a4 a5 a6 a7 a8 a9 a10 a11 a12 a13 a14 a15 : Z)
    (a16 a17 a18 a19 a20 a21 a22 a23 a24 a25 a26 a27 a28 a29 a30 a31 : Z) :
  unpack_inode [a0; a1; a2; a3; a4; a5; a6; a7; a8; a9; a10; a11; a12; a13;
                a14; a15; a16; a17; a18; a19; a20; a21; a22; a23; a24; a25;
                a26; a27; a28; a29; a30; a31]
  = Ok {| i_mode := le_decode [a0; a1];
          i_uid := le_decode [a2; a3];
          i_size := le_decode [a4; a5; a6; a7];
          i_time := le_decode [a8; a9; a10; a11];
          i_gid := le_decode [a12];
          i_nlinks := le_decode [a13];
          i_zone := [le_decode [a14; a15]; le_decode [a16; a17];
                     le_decode [a18; a19]; le_decode [a20; a21];
                     le_decode [a22; a23]; le_decode [a24; a25];
                     le_decode [a26; a27]; le_decode [a28; a29];
                     le_decode [a30; a31]] |}.
Proof. reflexivity. Qed.

Lemma le1 (v : Z) : 0 <= v < 256 -> le_decode (le_encode 1 v) = v.
Proof. intros H. apply le_decode_encode. exact H. Qed.

Lemma le2 (v : Z) : 0 <= v < 65536 -> le_decode (le_encode 2 v) = v.
Proof. intros H. apply le_decode_encode. exact H. Qed.

Lemma le4 (v : Z) : 0 <= v < 4294967296 -> le_decode (le_encode 4 v) = v.
Proof. intros H. apply le_decode_encode. exact H. Qed.

Ltac pack_cases H :=
  repeat match type of H with
  | context [pack_int ?c ?v] =>
      let E := fresh "E" in
      destruct (pack_int c v) eqn:E; cbn [rbind pack_ints] in H;
      [apply pack_int_Ok in E as [? ->] | discriminate H]
  end.

Lemma pack_inode_Ok (mode uid size time gid nlinks : Z) (zones record : list Z) :
  pack_inode mode uid size time gid nlinks zones = Ok record ->
  exists z0 z1 z2 z3 z4 z5 z6 z7 z8,
    zones = [z0; z1; z2; z3; z4; z5; z6; z7; z8]
    /\ (0 <= mode < 65536 /\ 0 <= uid < 65536 /\ 0 <= size < 4294967296
        /\ 0 <= time < 4294967296 /\ 0 <= gid < 256 /\ 0 <= nlinks < 256)
    /\ Forall (fun z => 0 <= z < 65536) zones
    /\ record = le_encode 2 mode ++ le_encode 2 uid ++ le_encode 4 size
         ++ le_encode 4 time ++ le_encode 1 gid ++ le_encode 1 nlinks
         ++ le_encode 2 z0 ++ le_encode 2 z1 ++ le_encode 2 z2
         ++ le_encode 2 z3 ++ le_encode 2 z4 ++ le_encode 2 z5
         ++ le_encode 2 z6 ++ le_encode 2 z7 ++ le_encode 2 z8.
Proof.
  unfold pack_inode. intros H.
  destruct (len zones =? 9) eqn:Hlen; [|discriminate H]. cbn [negb] in H.
  apply Z.eqb_eq in Hlen. unfold len in Hlen.
  destruct zones as [|z0 [|z1 [|z2 [|z3 [|z4 [|z5 [|z6 [|z7 [|z8 [|]]]]]]]]]];
    simpl in Hlen; try lia.
  exists z0, z1, z2, z3, z4, z5, z6, z7, z8.
  cbn [pack_ints] in H.
  pack_cases H.
  inversion H; subst record; clear H.
  change (2 ^ (8 * calcsize cH)) with 65536 in *.
  change (2 ^ (8 * calcsize cI)) with 4294967296 in *.
  change (2 ^ (8 * calcsize cB)) with 256 in *.
  split; [reflexivity|]. split; [tauto|]. split.
  - repeat (apply Forall_cons; split; [assumption|]). apply Forall_nil_2.
  - reflexivity.
Qed.

(** C8: for every valid inode number n in [1, num_inodes], decoding the
    32-byte record read at the inode-table offset of n gives back every
    field (mode, uid, size, mtime, gid, nlinks and the nine zone slots) of
    the record most recently encoded and written at that offset; a later
    write elsewhere in the image does not change it. *)
Theorem inode_record_roundtrip (file : list Z) (sb_dict : gmap string Z)
    (num_inodes n off : Z) (ino : inode) (record : list Z) :
  getitem sb_dict "num_inodes" = Ok num_inodes ->
  1 <= n <= num_inodes ->
  inode_table_offset sb_dict n = Ok off ->
  pack_inode (i_mode ino) (i_uid ino) (i_size ino) (i_time ino) (i_gid ino)
             (i_nlinks ino) (i_zone ino) = Ok record ->
  parse_inode (fwrite file off record) sb_dict n = Ok ino
  /\ forall off' data,
       0 <= off -> 0 <= off' ->
       off' + len data <= off \/ off + INODE_SIZE <= off' ->
       parse_inode (fwrite (fwrite file off record) off' data) sb_dict n = Ok ino.
Proof.
  intros _ _ Hoff Hpack.
  destruct ino as [mode uid size time gid nlinks zones]; cbn [i_mode i_uid i_size
    i_time i_gid i_nlinks i_zone] in Hpack.
  apply pack_inode_Ok in Hpack
    as (z0 & z1 & z2 & z3 & z4 & z5 & z6 & z7 & z8 & -> & Hr & Hz & Hrec).
  assert (Hlen : len record = INODE_SIZE).
  { subst record. unfold len. rewrite !length_app, !length_le_encode. reflexivity. }
  assert (Hdec : unpack_inode record
                 = Ok (mkInode mode uid size time gid nlinks
                         [z0; z1; z2; z3; z4; z5; z6; z7; z8])).
  { subst record. cbn [le_encode app]. rewrite unpack_inode_cells.
    repeat match goal with
    | H : Forall _ (_ :: _) |- _ => apply Forall_cons in H as [? H]
    end.
    destruct Hr as (? & ? & ? & ? & ? & ?).
    pose proof (le2 mode) as E1. pose proof (le2 uid) as E2.
    pose proof (le4 size) as E3. pose proof (le4 time) as E4.
    pose proof (le1 gid) as E5. pose proof (le1 nlinks) as E6.
    pose proof (le2 z0) as F0. pose proof (le2 z1) as F1.
    pose proof (le2 z2) as F2. pose proof (le2 z3) as F3.
    pose proof (le2 z4) as F4. pose proof (le2 z5) as F5.
    pose proof (le2 z6) as F6. pose proof (le2 z7) as F7.
    pose proof (le2 z8) as F8.
    cbn [le_encode] in *.
    rewrite E1, E2, E3, E4, E5, E6, F0, F1, F2, F3, F4, F5, F6, F7, F8
      by assumption.
    reflexivity. }
  split.
  - unfold parse_inode. rewrite Hoff. cbn [rbind].
    rewrite <- Hlen, fread_fwrite_same. exact Hdec.
  - intros off' data Ho Ho' Hdis.
    unfold parse_inode. rewrite Hoff. cbn [rbind].
    rewrite fread_fwrite_disjoint.
    + rewrite <- Hlen, fread_fwrite_same. exact Hdec.
    + exact Ho.
    + unfold INODE_SIZE. lia.
    + exact Ho'.
    + pose proof (length_fwrite file off record). unfold len in *. lia.
    + lia.
Qed.

(** ** Loops *)

Lemma for_find_Some {A R} (xs : list A) (body : A -> res (option R)) (v : R) :
  for_find xs body = Ok (Some v) <->
  exists (i : nat) (x : A),
    xs !! i = Some x /\ body x = Ok (Some v)
    /\ forall (j : nat) (y : A), (j < i)%nat -> xs !! j = Some y -> body y = Ok None.
Proof.
  induction xs as [|x xs IH]; cbn [for_find].
  - split; [discriminate|]. intros (i & y & Hi & _). destruct i; discriminate.
  - destruct (body x) as [[r|]|e] eqn:Hx; cbn [rbind].
    + split.
      * intros H. inversion H; subst. exists 0%nat, x.
        split; [reflexivity|]. split; [exact Hx|]. intros j y Hj. lia.
      * intros (i & y & Hi & Hy & Hpre). destruct i as [|i].
        -- inversion Hi; subst. congruence.
        -- specialize (Hpre 0%nat x ltac:(lia) eq_refl). congruence.
    + rewrite IH. split.
      * intros (i & y & Hi & Hy & Hpre). exists (S i), y.
        split; [exact Hi|]. split; [exact Hy|].
        intros [|j] z Hj Hz.
        -- inversion Hz; subst. exact Hx.
        -- apply (Hpre j); [lia | exact Hz].
      * intros (i & y & Hi & Hy & Hpre). destruct i as [|i].
        -- inversion Hi; subst. congruence.
        -- exists i, y. split; [exact Hi|]. split; [exact Hy|].
           intros j z Hj Hz. apply (Hpre (S j)); [lia | exact Hz].
    + split; [discriminate|].
      intros (i & y & Hi & Hy & Hpre). destruct i as [|i].
      * inversion Hi; subst. congruence.
      * specialize (Hpre 0%nat x ltac:(lia) eq_refl). congruence.
Qed.

Lemma for_find_None {A R} (xs : list A) (body : A -> res (option R)) :
  for_find xs body = Ok None <-> Forall (fun x => body x = Ok None) xs.
Proof.
  induction xs as [|x xs IH]; cbn [for_find].
  - split; [constructor | reflexivity].
  - rewrite Forall_cons. destruct (body x) as [[r|]|e] eqn:Hx; cbn [rbind].
    + split; [discriminate | intros [? _]; discriminate].
    + rewrite IH. tauto.
    + split; [discriminate | intros [? _]; discriminate].
Qed.



Lemma for_each_ext {A S} (xs : list A) (f g : A -> S -> res S) (s : S) :
  (forall x s', x ∈ xs -> f x s' = g x s') ->
  for_each xs f s = for_each xs g s.
Proof.
  revert s. induction xs as [|x xs IH]; intros s H; cbn [for_each].
  - reflexivity.
  - rewrite (H x s) by apply list_elem_of_here.
    destruct (g x s); cbn [rbind]; [|reflexivity].
    apply IH. intros y s' Hy. apply H. apply list_elem_of_further. exact Hy.
Qed.

Lemma for_each_collect {A B} (xs : list A) (g : A -> list B) (acc : list B) :
  for_each xs (fun x acc => Ok (acc ++ g x)) acc = Ok (acc ++ flat_map g xs).
Proof.
  revert acc. induction xs as [|x xs IH]; intros acc; cbn [for_each flat_map rbind].
  - rewrite app_nil_r. reflexivity.
  - rewrite IH, <- app_assoc. reflexivity.
Qed.

Lemma for_find_ext {A R} (xs : list A) (f g : A -> res (option R)) :
  (forall x, x ∈ xs -> f x = g x) ->
  for_find xs f = for_find xs g.
Proof.
  induction xs as [|x xs IH]; intros H; cbn [for_find].
  - reflexivity.
  - rewrite (H x) by apply list_elem_of_here.
    destruct (g x) as [[r|]|e]; cbn [rbind]; try reflexivity.
    apply IH. intros y Hy. apply H. apply list_elem_of_further. exact Hy.
Qed.

Lemma for_find_map {A B R} (f : A -> B) (xs : list A) (body : B -> res (option R)) :
  for_find (map f xs) body = for_find xs (fun x => body (f x)).
Proof.
  induction xs as [|x xs IH]; cbn [for_find map]; [reflexivity|].
  destruct (body (f x)) as [[r|]|e]; cbn [rbind]; try reflexivity. exact IH.
Qed.

Lemma for_find_app {A R} (xs ys : list A) (body : A -> res (option R)) :
  for_find (xs ++ ys) body
  = let* r := for_find xs body in
    match r with Some v => Ok (Some v) | None => for_find ys body end.
Proof.
  induction xs as [|x xs IH]; cbn [for_find app rbind]; [reflexivity|].
  destruct (body x) as [[r|]|e]; cbn [rbind]; try reflexivity. exact IH.
Qed.

Lemma for_find_flat_map {A B R} (f : A -> list B) (xs : list A)
    (body : B -> res (option R)) :
  for_find (flat_map f xs) body = for_find xs (fun x => for_find (f x) body).
Proof.
  induction xs as [|x xs IH]; cbn [for_find flat_map]; [reflexivity|].
  rewrite for_find_app.
  destruct (for_find (f x) body) as [[r|]|e]; cbn [rbind]; try reflexivity.
  exact IH.
Qed.

Lemma for_find_filter {A R} (P : A -> Prop) `{forall x, Decision (P x)}
    (xs : list A) (body : A -> res (option R)) :
  for_find (filter P xs) body
  = for_find xs (fun x => if decide (P x) then body x else Ok None).
Proof.
  induction xs as [|x xs IH]; cbn [for_find]; [reflexivity|].
  destruct (decide (P x)) as [Hx|Hx].
  - rewrite filter_cons_True by exact Hx. cbn [for_find].
    destruct (body x) as [[r|]|e]; cbn [rbind]; try reflexivity. exact IH.
  - rewrite filter_cons_False by exact Hx. cbn [rbind]. exact IH.
Qed.


Lemma py_range_lookup (start stop step : Z) (i : nat) (x : Z) :
  py_range start stop step !! i = Some x <->
  (i < Z.to_nat ((stop - start + step - 1) / step))%nat
  /\ x = start + Z.of_nat i * step.
Proof.
  unfold py_range. rewrite list_lookup_fmap.
  destruct (decide (i < Z.to_nat ((stop - start + step - 1) / step))%nat) as [Hi|Hi].
  - rewrite lookup_seq_lt by exact Hi. cbn. split.
    + intros H. inversion H. split; [exact Hi | reflexivity].
    + intros [_ ->]. reflexivity.
  - rewrite lookup_seq_ge by lia. cbn. split; [discriminate | tauto].
Qed.

Lemma py_range_step1 (start stop : Z) (i : nat) (x : Z) :
  py_range start stop 1 !! i = Some x <->
  start <= x < stop /\ x = start + Z.of_nat i.
Proof.
  rewrite py_range_lookup.
  replace ((stop - start + 1 - 1) / 1) with (stop - start)
    by (rewrite Z.div_1_r; lia).
  lia.
Qed.

(** ** The free-inode scan *)

Lemma free_inode_body_Some (file : list Z) (sb_dict : gmap string Z) (n v : Z) :
  (let* inode := parse_inode file sb_dict n in
   if i_nlinks inode =? 0 then Ok (Some n) else Ok None) = Ok (Some v)
  <-> v = n /\ exists ino, parse_inode file sb_dict n = Ok ino /\ i_nlinks ino = 0.
Proof.
  destruct (parse_inode file sb_dict n) as [ino|e]; cbn [rbind].
  - destruct (i_nlinks ino =? 0) eqn:E.
    + apply Z.eqb_eq in E. split.
      * intros H. inversion H. split; [reflexivity|]. exists ino. auto.
      * intros [-> _]. reflexivity.
    + apply Z.eqb_neq in E. split; [discriminate|].
      intros [_ (ino' & H & H0)]. inversion H; subst. contradiction.
  - split; [discriminate|]. intros [_ (ino' & H & _)]. discriminate.
Qed.

Lemma free_inode_body_None (file : list Z) (sb_dict : gmap string Z) (n : Z) :
  (let* inode := parse_inode file sb_dict n in
   if i_nlinks inode =? 0 then Ok (Some n) else Ok None) = Ok None
  <-> exists ino, parse_inode file sb_dict n = Ok ino /\ i_nlinks ino <> 0.
Proof.
  destruct (parse_inode file sb_dict n) as [ino|e]; cbn [rbind].
  - destruct (i_nlinks ino =? 0) eqn:E.
    + apply Z.eqb_eq in E. split; [discriminate|].
      intros (ino' & H & H0). inversion H; subst. contradiction.
    + apply Z.eqb_neq in E. split; [|reflexivity].
      intros _. exists ino. auto.
  - split; [discriminate|]. intros (ino' & H & _). discriminate.
Qed.

Lemma find_free_inode_Some (file : list Z) (sb_dict : gmap string Z)
    (num_inodes n : Z) :
  find_free_inode file sb_dict num_inodes = Ok (Some n) <->
  1 <= n <= num_inodes
  /\ (exists ino, parse_inode file sb_dict n = Ok ino /\ i_nlinks ino = 0)
  /\ (forall m, 1 <= m < n ->
        exists ino, parse_inode file sb_dict m = Ok ino /\ i_nlinks ino <> 0).
Proof.
  unfold find_free_inode. rewrite for_find_Some. split.
  - intros (i & x & Hi & Hx & Hpre).
    apply py_range_step1 in Hi as [Hr ->].
    apply free_inode_body_Some in Hx as [-> Hino].
    split; [lia|]. split; [exact Hino|].
    intros m Hm. apply free_inode_body_None.
    apply (Hpre (Z.to_nat (m - 1))); [lia|].
    apply py_range_step1. lia.
  - intros (Hr & Hino & Hpre).
    exists (Z.to_nat (n - 1)), n. split; [apply py_range_step1; lia|].
    split; [apply free_inode_body_Some; auto|].
    intros j y Hj Hy. apply py_range_step1 in Hy as [Hy ->].
    apply free_inode_body_None. apply Hpre. lia.
Qed.

Lemma find_free_inode_None (file : list Z) (sb_dict : gmap string Z)
    (num_inodes : Z) :
  find_free_inode file sb_dict num_inodes = Ok None <->
  forall m, 1 <= m <= num_inodes ->
    exists ino, parse_inode file sb_dict m = Ok ino /\ i_nlinks ino <> 0.
Proof.
  unfold find_free_inode. rewrite for_find_None, Forall_lookup. split.
  - intros H m Hm. apply free_inode_body_None.
    apply (H (Z.to_nat (m - 1))). apply py_range_step1. lia.
  - intros H i x Hi. apply py_range_step1 in Hi as [Hr ->].
    apply free_inode_body_None. apply H. lia.
Qed.

(** C7: the free-inode search goes through the inode numbers
    1..num_inodes in ascending order and answers the first one whose
    decoded nlinks is 0 (so never an inode whose nlinks is not 0); on an
    image where every inode has nlinks <> 0, create_file reports
    "no free inodes" and leaves the image bytes unchanged. *)
Theorem free_inode_first_fit (file : list Z) (sb_dict : gmap string Z)
    (num_inodes : Z) :
  (forall n,
     find_free_inode file sb_dict num_inodes = Ok (Some n) <->
     1 <= n <= num_inodes
     /\ (exists ino, parse_inode file sb_dict n = Ok ino /\ i_nlinks ino = 0)
     /\ (forall m, 1 <= m < n ->
           exists ino, parse_inode file sb_dict m = Ok ino /\ i_nlinks ino <> 0))
  /\ (forall (w : world) (filename : list Z) (max_filename_length now : Z),
        disk w = file ->
        getitem sb_dict "num_inodes" = Ok num_inodes ->
        (exists root_inode, parse_inode file sb_dict 1 = Ok root_inode) ->
        (forall m, 1 <= m <= num_inodes ->
           exists ino, parse_inode file sb_dict m = Ok ino /\ i_nlinks ino <> 0) ->
        create_new_file sb_dict filename max_filename_length now w
        = (Ok tt, {| disk := disk w; stdout := stdout w;
                     stderr := stderr w ++ [str "Error: No free inodes available."] |})).
Proof.
  split.
  - intros n. apply find_free_inode_Some.
  - intros w filename width now <- Hni [root Hroot] Hall.
    apply find_free_inode_None in Hall.
    unfold create_new_file, cbind, reading, lift.
    rewrite Hroot, Hni, Hall. reflexivity.
Qed.

(** ** Reading a file along its zones *)

Lemma read_blocks_done (file : list Z) (blocks : list Z) (st : list Z * Z) :
  snd st <= 0 -> read_blocks file blocks st = st.
Proof.
  intros H. destruct blocks as [|b rest]; cbn [read_blocks]; [reflexivity|].
  destruct (snd st <=? 0) eqn:E; [reflexivity|]. apply Z.leb_gt in E. lia.
Qed.

Lemma read_blocks_app (file : list Z) (a b : list Z) (st : list Z * Z) :
  read_blocks file (a ++ b) st = read_blocks file b (read_blocks file a st).
Proof.
  revert st. induction a as [|x a IH]; intros st; cbn [read_blocks app].
  - reflexivity.
  - destruct (snd st <=? 0) eqn:E.
    + apply Z.leb_le in E. symmetry. apply read_blocks_done. exact E.
    + apply IH.
Qed.

Lemma read_direct_filter (file : list Z) (zones : list Z) (st : list Z * Z) :
  read_direct file zones st
  = read_blocks file (filter (fun z => z <> EMPTY) zones) st.
Proof.
  revert st. induction zones as [|z zones IH]; intros st; cbn [read_direct].
  - reflexivity.
  - destruct (decide (z = EMPTY)) as [Hz|Hz].
    + rewrite filter_cons_False by (intros H; apply H; exact Hz).
      apply Z.eqb_eq in Hz. rewrite Hz. cbn [negb andb]. apply IH.
    + rewrite filter_cons_True by exact Hz.
      apply Z.eqb_neq in Hz. rewrite Hz. cbn [negb andb read_blocks].
      destruct (0 <? snd st) eqn:E.
      * apply Z.ltb_lt in E.
        destruct (snd st <=? 0) eqn:E'; [apply Z.leb_le in E'; lia|]. apply IH.
      * apply Z.ltb_ge in E.
        destruct (snd st <=? 0) eqn:E'; [|apply Z.leb_gt in E'; lia].
        rewrite IH. apply read_blocks_done. exact E.
Qed.

Lemma read_blocks_gather (file : list Z) (blocks : list Z) (content : list Z)
    (remaining : Z) :
  fst (read_blocks file blocks (content, remaining))
  = content ++ gather file blocks remaining.
Proof.
  revert content remaining.
  induction blocks as [|b rest IH]; intros content remaining;
    cbn [read_blocks gather fst snd].
  - rewrite app_nil_r. reflexivity.
  - destruct (remaining <=? 0).
    + cbn [fst]. rewrite app_nil_r. reflexivity.
    + cbn [read_block]. rewrite IH, <- app_assoc. reflexivity.
Qed.


Lemma more_in_slot_Ok (remaining : Z) (zones : list Z) (i z : Z) :
  getzone zones i = Ok z ->
  more_in_slot remaining zones i = Ok ((0 <? remaining) && negb (z =? EMPTY)).
Proof.
  intros H. unfold more_in_slot. rewrite H.
  destruct (0 <? remaining); reflexivity.
Qed.

Lemma read_stage (file : list Z) (fetch : res (list Z)) (z : Z)
    (st : list Z * Z) (li : list Z) :
  (if z =? EMPTY then Ok [] else fetch) = Ok li ->
  (if (0 <? snd st) && negb (z =? EMPTY)
   then let* blocks := fetch in Ok (read_blocks file blocks st)
   else Ok st) = Ok (read_blocks file li st).
Proof.
  intros H. destruct (z =? EMPTY).
  - inversion H. rewrite andb_false_r. reflexivity.
  - subst fetch. cbn [negb rbind]. rewrite andb_true_r.
    destruct (0 <? snd st) eqn:E; [reflexivity|].
    apply Z.ltb_ge in E. rewrite read_blocks_done by exact E. reflexivity.
Qed.

Lemma read_file_data_resolved (file : list Z) (ino : inode) (blocks : list Z) :
  resolve_zones file (i_zone ino) = Ok blocks ->
  read_file_data file ino = Ok (gather file blocks (i_size ino)).
Proof.
  unfold resolve_zones, read_file_data.
  change INDIRECT_ZONE_INDEX with 7. change DOUBLE_INDIRECT_ZONE_INDEX with 8.
  change (Z.to_nat NUM_DIRECT_ZONES) with 7%nat.
  destruct (getzone (i_zone ino) 7) as [z7|] eqn:H7; cbn [rbind]; [|discriminate].
  destruct (getzone (i_zone ino) 8) as [z8|] eqn:H8; cbn [rbind].
  2:{ destruct (if z7 =? EMPTY then _ else _); discriminate. }
  rewrite (more_in_slot_Ok _ _ _ _ H7). cbn [rbind].
  destruct (if z7 =? EMPTY then _ else _) as [li|] eqn:Hli; cbn [rbind];
    [|discriminate].
  destruct (if z8 =? EMPTY then _ else _) as [ld|] eqn:Hld; cbn [rbind];
    [|discriminate].
  intros H. inversion H; subst blocks; clear H.
  rewrite (read_stage file _ z7 _ li Hli). cbn [rbind].
  rewrite (more_in_slot_Ok _ _ _ _ H8). cbn [rbind].
  rewrite (read_stage file _ z8 _ ld Hld). cbn [rbind].
  f_equal.
  rewrite read_direct_filter, <- !read_blocks_app.
  rewrite read_blocks_gather. reflexivity.
Qed.






(** ** Directory blocks *)

Lemma len_slice {A} (l : list A) (lo hi : Z) :
  0 <= lo -> lo <= hi -> hi <= len l -> len (slice l lo hi) = hi - lo.
Proof.
  unfold len, slice. intros. rewrite length_take, length_drop. lia.
Qed.

Lemma names_of_app (xs ys : list (Z * list Z)) :
  names_of (xs ++ ys) = names_of xs ++ names_of ys.
Proof. unfold names_of. rewrite filter_app, map_app. reflexivity. Qed.

Lemma names_of_cons (e : Z * list Z) (es : list (Z * list Z)) :
  names_of (e :: es)
  = (if negb (fst e =? 0) then [rstrip0 (snd e)] else []) ++ names_of es.
Proof.
  unfold names_of. destruct (fst e =? 0) eqn:E; cbn [negb].
  - apply Z.eqb_eq in E. rewrite filter_cons_False by (intros H; apply H; exact E).
    reflexivity.
  - apply Z.eqb_neq in E. rewrite filter_cons_True by exact E. reflexivity.
Qed.

(** One directory block of 1024 bytes, with a 14- or 30-byte name
    field: the records tile the block, so every record unpacks. *)
Section Block.
Variable w : Z.
Hypothesis Hw : w = 14 \/ w = 30.
Variable block_data : list Z.
Hypothesis Hlen : len block_data = BLOCK_SIZE.

Lemma entry_offsets (offset : Z) :
  offset ∈ py_range 0 BLOCK_SIZE (entry_size w) ->
  0 <= offset /\ offset + entry_size w <= BLOCK_SIZE.
Proof.
  intros Hin. apply list_elem_of_lookup in Hin as [i Hi].
  apply py_range_lookup in Hi as [Hi ->].
  unfold entry_size, BLOCK_SIZE in *.
  destruct Hw as [-> | ->].
  - change ((1024 - 0 + (2 + 14) - 1) / (2 + 14)) with 64 in Hi. lia.
  - change ((1024 - 0 + (2 + 30) - 1) / (2 + 30)) with 32 in Hi. lia.
Qed.

Lemma unpack_entry_at (offset : Z) :
  offset ∈ py_range 0 BLOCK_SIZE (entry_size w) ->
  unpack_entry w (slice block_data offset (offset + entry_size w))
  = Ok (entry_at w block_data offset).
Proof.
  intros Hin. destruct (entry_offsets offset Hin) as [H0 H1].
  assert (0 <= entry_size w) by (unfold entry_size; lia).
  unfold unpack_entry. rewrite len_slice by lia.
  replace (offset + entry_size w - offset =? entry_size w) with true
    by (symmetry; apply Z.eqb_eq; lia).
  reflexivity.
Qed.

(** The inner loop of the listing. *)
Lemma list_block (acc : list (list Z)) :
  for_each (py_range 0 BLOCK_SIZE (entry_size w)) (fun offset entries =>
    let entry_data := slice block_data offset (offset + entry_size w) in
    let* (inode_number, filename) := unpack_entry w entry_data in
    if negb (inode_number =? 0) then
      let cleaned_filename := rstrip0 filename in
      Ok (entries ++ [cleaned_filename])
    else Ok entries) acc
  = Ok (acc ++ names_of (block_entries w block_data)).
Proof.
  rewrite (for_each_ext _ _ (fun offset entries =>
    Ok (entries ++ (let e := entry_at w block_data offset in
                    if negb (fst e =? 0) then [rstrip0 (snd e)] else [])))).
  - rewrite for_each_collect. f_equal. f_equal. unfold block_entries.
    induction (py_range 0 BLOCK_SIZE (entry_size w)) as [|o os IH];
      cbn [flat_map map]; [reflexivity|].
    rewrite names_of_cons, IH. reflexivity.
  - intros offset entries Hin. cbv zeta.
    rewrite (unpack_entry_at offset Hin). cbn [rbind].
    destruct (entry_at w block_data offset) as [ino nm]. cbn [fst snd].
    destruct (negb (ino =? 0)); [reflexivity|]. rewrite app_nil_r. reflexivity.
Qed.

(** The inner loop of the lookup. *)
Lemma scan_block (name : list Z) :
  for_find (py_range 0 BLOCK_SIZE (entry_size w)) (fun offset =>
    let entry_data := slice block_data offset (offset + entry_size w) in
    let* (inode_number, entry_name) := unpack_entry w entry_data in
    let* decoded := decode (rstrip0 entry_name) in
    if bool_decide (decoded = name) then Ok (Some inode_number)
    else Ok None)
  = for_find (block_entries w block_data) (match_entry name).
Proof.
  unfold block_entries. rewrite for_find_map.
  apply for_find_ext. intros offset Hin. cbv zeta.
  rewrite (unpack_entry_at offset Hin). cbn [rbind].
  unfold match_entry. destruct (entry_at w block_data offset) as [ino nm].
  reflexivity.
Qed.

(** The free-slot loop. *)
Lemma find_free_entry_spec :
  find_free_entry block_data w
  = for_find (py_range 0 BLOCK_SIZE (entry_size w)) (fun offset =>
      if fst (entry_at w block_data offset) =? 0 then Ok (Some offset)
      else Ok None).
Proof.
  unfold find_free_entry. apply for_find_ext.
  intros offset Hin. cbv zeta.
  rewrite (unpack_entry_at offset Hin). cbn [rbind].
  destruct (entry_at w block_data offset) as [ino nm]. reflexivity.
Qed.

Lemma find_free_entry_full :
  (forall e, e ∈ block_entries w block_data -> fst e <> 0) ->
  find_free_entry block_data w = Ok None.
Proof.
  intros Hfull. rewrite find_free_entry_spec.
  apply for_find_None, Forall_forall. intros offset Hin.
  assert (H : fst (entry_at w block_data offset) <> 0).
  { apply Hfull. unfold block_entries. apply list_elem_of_fmap_2. exact Hin. }
  apply Z.eqb_neq in H. rewrite H. reflexivity.
Qed.

Lemma find_free_entry_first (k : nat) (offset : Z) :
  py_range 0 BLOCK_SIZE (entry_size w) !! k = Some offset ->
  fst (entry_at w block_data offset) = 0 ->
  (forall (j : nat) offset', (j < k)%nat ->
     py_range 0 BLOCK_SIZE (entry_size w) !! j = Some offset' ->
     fst (entry_at w block_data offset') <> 0) ->
  find_free_entry block_data w = Ok (Some offset).
Proof.
  intros Hk Hfree Hused. rewrite find_free_entry_spec.
  apply for_find_Some. exists k, offset. split; [exact Hk|]. split.
  - rewrite Hfree. reflexivity.
  - intros j offset' Hj Hj'. specialize (Hused j offset' Hj Hj').
    apply Z.eqb_neq in Hused. rewrite Hused. reflexivity.
Qed.
End Block.

Lemma listing_spec (file : list Z) (sb_dict : gmap string Z) (w : Z)
    (root_inode : inode) :
  w = 14 \/ w = 30 ->
  parse_inode file sb_dict 1 = Ok root_inode ->
  blocks_present file (i_zone root_inode) ->
  read_root_directory_entries file sb_dict w
  = Ok (names_of (dir_entries file (i_zone root_inode) w)).
Proof.
  intros Hw Hroot Hpres. unfold read_root_directory_entries.
  rewrite Hroot. cbn [rbind].
  rewrite (for_each_ext _ _ (fun zone entries =>
    Ok (entries ++ (if negb (zone =? EMPTY)
                    then names_of (block_entries w
                           (fread file (zone * BLOCK_SIZE) BLOCK_SIZE))
                    else [])))).
  - rewrite for_each_collect. cbn [app]. f_equal. unfold dir_entries.
    clear Hpres Hroot.
    induction (i_zone root_inode) as [|z zs IH]; cbn [flat_map]; [reflexivity|].
    destruct (z =? EMPTY) eqn:E; cbn [negb].
    + apply Z.eqb_eq in E.
      rewrite filter_cons_False by (intros H; apply H; exact E). exact IH.
    + apply Z.eqb_neq in E. rewrite filter_cons_True by exact E.
      cbn [flat_map]. rewrite names_of_app, IH. reflexivity.
  - intros zone entries Hin.
    destruct (zone =? EMPTY) eqn:E; cbn [negb].
    + rewrite app_nil_r. reflexivity.
    + apply Z.eqb_neq in E. apply list_block; [exact Hw|].
      apply Hpres; assumption.
Qed.

Lemma scan_spec (file : list Z) (dir_inode : inode) (name : list Z) (w : Z) :
  w = 14 \/ w = 30 ->
  blocks_present file (i_zone dir_inode) ->
  scan_directory file dir_inode name w
  = for_find (dir_entries file (i_zone dir_inode) w) (match_entry name).
Proof.
  intros Hw Hpres. unfold scan_directory, dir_entries.
  rewrite for_find_flat_map, for_find_filter.
  apply for_find_ext. intros zone Hin.
  destruct (decide (zone <> EMPTY)) as [Hz|Hz].
  - apply Z.eqb_neq in Hz as Hz'. rewrite Hz'. cbn [negb].
    apply scan_block; [exact Hw|]. apply Hpres; assumption.
  - assert (zone = EMPTY) as -> by (destruct (decide (zone = EMPTY)); tauto).
    reflexivity.
Qed.

Lemma match_entry_Some (name : list Z) (e : Z * list Z) (v : Z) :
  match_entry name e = Ok (Some v) <->
  v = fst e /\ decode (rstrip0 (snd e)) = Ok name.
Proof.
  unfold match_entry. destruct (decode (rstrip0 (snd e))) as [s|]; cbn [rbind].
  - case_bool_decide as Hs.
    + subst s. split; [intros H; inversion H; auto | intros [-> _]; reflexivity].
    + split; [discriminate | intros [_ H]; inversion H; contradiction].
  - split; [discriminate | intros [_ H]; discriminate].
Qed.

Lemma match_entry_None (name : list Z) (e : Z * list Z) :
  match_entry name e = Ok None <->
  exists s, decode (rstrip0 (snd e)) = Ok s /\ s <> name.
Proof.
  unfold match_entry. destruct (decode (rstrip0 (snd e))) as [s|]; cbn [rbind].
  - case_bool_decide as Hs.
    + split; [discriminate|]. intros (s' & H & Hne). inversion H; subst.
      contradiction.
    + split; [|reflexivity]. intros _. exists s. auto.
  - split; [discriminate | intros (s' & H & _); discriminate].
Qed.

Lemma unpack_inode_zones (inode_data : list Z) (ino : inode) :
  unpack_inode inode_data = Ok ino -> length (i_zone ino) = 9%nat.
Proof.
  unfold unpack_inode. destruct (negb (len inode_data =? 32)); [discriminate|].
  intros H. inversion H. reflexivity.
Qed.

Lemma parse_inode_zones (file : list Z) (sb_dict : gmap string Z) (n : Z)
    (ino : inode) :
  parse_inode file sb_dict n = Ok ino -> length (i_zone ino) = 9%nat.
Proof.
  unfold parse_inode. destruct (inode_table_offset sb_dict n); cbn [rbind];
    [apply unpack_inode_zones | discriminate].
Qed.

Lemma dir_entries_slot (file : list Z) (zones : list Z) (w : Z) (i : nat)
    (zone : Z) (e : Z * list Z) :
  zones !! i = Some zone -> zone <> EMPTY ->
  e ∈ block_entries w (fread file (zone * BLOCK_SIZE) BLOCK_SIZE) ->
  e ∈ dir_entries file zones w.
Proof.
  intros Hi Hz He. unfold dir_entries.
  apply list_elem_of_In, in_flat_map. exists zone. split.
  - apply list_elem_of_In, list_elem_of_filter. split; [exact Hz|].
    apply list_elem_of_lookup_2 with i. exact Hi.
  - apply list_elem_of_In. exact He.
Qed.

Lemma dir_entries_frame (file file' : list Z) (zones : list Z) (w : Z) :
  (forall zone, zone ∈ zones -> zone <> EMPTY ->
     fread file' (zone * BLOCK_SIZE) BLOCK_SIZE
     = fread file (zone * BLOCK_SIZE) BLOCK_SIZE) ->
  dir_entries file' zones w = dir_entries file zones w.
Proof.
  intros H. unfold dir_entries.
  assert (Hf : forall zone, zone ∈ filter (fun zone => zone <> EMPTY) zones ->
            zone ∈ zones /\ zone <> EMPTY).
  { intros zone Hin. apply list_elem_of_filter in Hin. tauto. }
  induction (filter (fun zone => zone <> EMPTY) zones) as [|z zs IH];
    cbn [flat_map]; [reflexivity|].
  destruct (Hf z) as [Hin Hz]; [apply list_elem_of_here|].
  rewrite (H z Hin Hz), IH; [reflexivity|].
  intros zone Hzone. apply Hf. apply list_elem_of_further. exact Hzone.
Qed.

(** ** The free-slot search of [touch] and [mkdir] *)

Lemma getzone_lookup (zones : list Z) (i : nat) (z : Z) :
  zones !! i = Some z -> getzone zones (Z.of_nat i) = Ok z.
Proof. intros H. unfold getzone. rewrite Nat2Z.id, H. reflexivity. Qed.

(** What [create_new_file] does once a free inode is found: the inode
    record is written, then the block named by zone slot 0 of the root
    inode, and no other block, is searched for a free record. *)
Lemma create_new_file_run (sb_dict : gmap string Z) (filename : list Z)
    (w now : Z) (wd : world) (root_inode : inode) (num_inodes n ioff blk : Z)
    (record : list Z) (slot : option Z) :
  parse_inode (disk wd) sb_dict 1 = Ok root_inode ->
  getitem sb_dict "num_inodes" = Ok num_inodes ->
  find_free_inode (disk wd) sb_dict num_inodes = Ok (Some n) ->
  inode_table_offset sb_dict n = Ok ioff ->
  pack_inode (Z.lor (Z.lor (Z.lor S_IFREG S_IRUSR) S_IWUSR) S_IXUSR)
             0 0 now 0 1 (repeat EMPTY 9) = Ok record ->
  i_zone root_inode !! 0%nat = Some blk ->
  find_free_entry (fread (fwrite (disk wd) ioff record) (blk * BLOCK_SIZE) BLOCK_SIZE) w
    = Ok slot ->
  create_new_file sb_dict filename w now wd
  = match slot with
    | None =>
        (Ok tt, {| disk := fwrite (disk wd) ioff record; stdout := stdout wd;
                   stderr := stderr wd
                     ++ [str "Error: No free directory entry available."] |})
    | Some offset =>
        match (let* name := encode (ljust filename w 0) in pack_entry w n name) with
        | Ok entry =>
            (Ok tt, {| disk := fwrite (fwrite (disk wd) ioff record)
                                 (blk * BLOCK_SIZE + offset) entry;
                       stdout := stdout wd; stderr := stderr wd |})
        | Raise e =>
            (Raise e, {| disk := fwrite (disk wd) ioff record;
                         stdout := stdout wd; stderr := stderr wd |})
        end
    end.
Proof.
  intros Hroot Hni Hfree Hoff Hpack Hblk Hslot.
  apply (getzone_lookup _ 0%nat) in Hblk. change (Z.of_nat 0) with 0 in Hblk.
  unfold create_new_file, cbind, reading, lift, file_write, file_read.
  rewrite Hroot, Hni, Hfree, Hoff, Hpack. cbn [disk stdout stderr].
  rewrite Hblk, Hslot.
  destruct slot as [offset|]; [|reflexivity].
  destruct (encode (ljust filename w 0)) as [name|e]; cbn [rbind]; [|reflexivity].
  destruct (pack_entry w n name) as [entry|e]; reflexivity.
Qed.

Lemma create_new_directory_full (sb_dict : gmap string Z) (dirname : list Z)
    (w now : Z) (wd : world) (root_inode : inode) (num_inodes n ioff blk : Z)
    (record : list Z) :
  w = 14 \/ w = 30 ->
  parse_inode (disk wd) sb_dict 1 = Ok root_inode ->
  getitem sb_dict "num_inodes" = Ok num_inodes ->
  find_free_inode (disk wd) sb_dict num_inodes = Ok (Some n) ->
  inode_table_offset sb_dict n = Ok ioff ->
  pack_inode (Z.lor (Z.lor (Z.lor S_IFDIR S_IRUSR) S_IWUSR) S_IXUSR)
             0 BLOCK_SIZE now 0 2 (repeat EMPTY 9) = Ok record ->
  i_zone root_inode !! 0%nat = Some blk ->
  len (fread (fwrite (disk wd) ioff record) (blk * BLOCK_SIZE) BLOCK_SIZE)
    = BLOCK_SIZE ->
  (forall e,
     e ∈ block_entries w
           (fread (fwrite (disk wd) ioff record) (blk * BLOCK_SIZE) BLOCK_SIZE) ->
     fst e <> 0) ->
  create_new_directory sb_dict dirname w now wd
  = (Ok tt, {| disk := fwrite (disk wd) ioff record; stdout := stdout wd;
               stderr := stderr wd
                 ++ [str "Error: No free directory entry available."] |}).
Proof.
  intros Hw Hroot Hni Hfree Hoff Hpack Hblk Hlen Hfull.
  apply (getzone_lookup _ 0%nat) in Hblk. change (Z.of_nat 0) with 0 in Hblk.
  unfold create_new_directory, cbind, reading, lift, file_write, file_read.
  rewrite Hroot, Hni, Hfree, Hoff, Hpack. cbn [disk stdout stderr].
  rewrite Hblk, (find_free_entry_full _ Hw _ Hlen Hfull). reflexivity.
Qed.

(** C5, as worded, fails on [image_full]: the root directory has the
    zones 5 and 6; zone 5 is full and zone 6 is empty.  A search over all
    allocated zones finds the free record at offset 0 of zone 6, but
    [touch y] reports that no directory entry is free. *)
Lemma directory_full_with_free_second_zone :
  (i_zone <$> (match parse_inode image_full (example_sb 8) 1 with
               | Ok i => Some i | Raise _ => None end))
    = Some [5; 6; 0; 0; 0; 0; 0; 0; 0]
  /\ spec_free_directory_slot image_full [5; 6; 0; 0; 0; 0; 0; 0; 0] 14 = Some (6, 0)
  /\ fst (main (map str ["mfstool.py"; "image"; "touch"; "y"]%string) 1000
            (boot image_full)) = Ok tt
  /\ stderr (snd (main (map str ["mfstool.py"; "image"; "touch"; "y"]%string) 1000
                    (boot image_full)))
     = [str "Error: No free directory entry available."].
Proof. vm_compute. repeat split. Qed.

(** ** The superblock dictionary *)

(** [parse_superblock] decodes nine fields at fixed offsets and stores
    them under their names, in field order. *)
Lemma parse_superblock_fields (sb_data : list Z) (v0 v1 v2 v3 v4 v5 v6 v7 v8 : Z) :
  unpack_from cH sb_data 0 = Ok v0 ->
  unpack_from cH sb_data 2 = Ok v1 ->
  unpack_from cH sb_data 4 = Ok v2 ->
  unpack_from cH sb_data 6 = Ok v3 ->
  unpack_from cH sb_data 8 = Ok v4 ->
  unpack_from cH sb_data 10 = Ok v5 ->
  unpack_from cI sb_data 12 = Ok v6 ->
  unpack_from cH sb_data 16 = Ok v7 ->
  unpack_from cH sb_data 18 = Ok v8 ->
  parse_superblock sb_data
  = Ok (<["state" := v8]> (<["magic" := v7]> (<["max_file_size" := v6]>
       (<["log_zone_size" := v5]> (<["first_data_zone" := v4]>
       (<["zmap_blocks" := v3]> (<["imap_blocks" := v2]>
       (<["num_zones" := v1]> (<["num_inodes" := v0]> ∅))))))))).
Proof.
  intros H0 H1 H2 H3 H4 H5 H6 H7 H8.
  unfold parse_superblock, fields. cbn [parse_fields calcsize].
  change (0 + 2) with 2. change (2 + 2) with 4. change (4 + 2) with 6.
  change (6 + 2) with 8. change (8 + 2) with 10. change (10 + 2) with 12.
  change (12 + 4) with 16. change (16 + 2) with 18.
  rewrite H0. cbn [rbind]. rewrite H1. cbn [rbind]. rewrite H2. cbn [rbind].
  rewrite H3. cbn [rbind]. rewrite H4. cbn [rbind]. rewrite H5. cbn [rbind].
  rewrite H6. cbn [rbind]. rewrite H7. cbn [rbind]. rewrite H8. reflexivity.
Qed.

(** ** [mkdir]: the data-block scan asks the superblock for "nzones" *)

Lemma parse_fields_keys (fs : list (string * icode)) (sb_data : list Z)
    (idx : Z) (d d' : gmap string Z) (key : string) :
  parse_fields fs sb_data idx d = Ok d' ->
  d !! key = None -> key ∉ map fst fs -> d' !! key = None.
Proof.
  revert idx d. induction fs as [|[name fmt] fs IH]; intros idx d H Hd Hk;
    cbn [parse_fields] in H.
  - inversion H; subst. exact Hd.
  - destruct (unpack_from fmt sb_data idx) as [v|]; cbn [rbind] in H;
      [|discriminate].
    cbn [map fst] in Hk. apply not_elem_of_cons in Hk as [Hne Hk].
    apply (IH _ _ H); [|exact Hk].
    rewrite lookup_insert_ne by congruence. exact Hd.
Qed.

(** No dictionary built by [parse_superblock] has the key "nzones": the
    field is stored under "num_zones". *)
Lemma parse_superblock_no_nzones (sb_data : list Z) (sb_dict : gmap string Z) :
  parse_superblock sb_data = Ok sb_dict ->
  getitem sb_dict "nzones" = Raise (KeyError "nzones").
Proof.
  intros H. unfold getitem.
  rewrite (parse_fields_keys _ _ _ _ _ "nzones" H); [reflexivity | apply lookup_empty |].
  cbn. intros Hin. repeat (apply elem_of_cons in Hin as [Hin|Hin]; [discriminate|]).
  apply elem_of_nil in Hin. exact Hin.
Qed.

(** On a dictionary built by [parse_superblock], [create_new_directory]
    never gets past the lookup of "nzones": a run that ends normally is a
    run that reported "no free inodes" or "directory full". *)
Lemma create_new_directory_never_allocates (sb_data : list Z)
    (sb_dict : gmap string Z) (dirname : list Z) (w now : Z) (wd : world) :
  parse_superblock sb_data = Ok sb_dict ->
  fst (create_new_directory sb_dict dirname w now wd) = Ok tt ->
  stderr (snd (create_new_directory sb_dict dirname w now wd))
    = stderr wd ++ [str "Error: No free inodes available."]
  \/ stderr (snd (create_new_directory sb_dict dirname w now wd))
     = stderr wd ++ [str "Error: No free directory entry available."].
Proof.
  intros Hsb. apply parse_superblock_no_nzones in Hsb.
  unfold create_new_directory, cbind, reading, lift, file_write, file_read.
  destruct (parse_inode (disk wd) sb_dict 1) as [root|]; [|discriminate].
  destruct (getitem sb_dict "num_inodes") as [ni|]; [|discriminate].
  destruct (find_free_inode (disk wd) sb_dict ni) as [[n|]|]; [| |discriminate].
  2:{ intros _. left. reflexivity. }
  destruct (inode_table_offset sb_dict n) as [ioff|]; [|discriminate].
  destruct (pack_inode _ _ _ _ _ _ _) as [record|]; [|discriminate].
  cbn [disk stdout stderr].
  destruct (getzone (i_zone root) 0) as [blk|]; [|discriminate].
  destruct (find_free_entry _ w) as [[offset|]|]; [| |discriminate].
  2:{ intros _. right. reflexivity. }
  destruct (encode (ljust dirname w 0)) as [name|]; [|discriminate].
  destruct (pack_entry w n name) as [entry|]; [|discriminate].
  cbn [disk stdout stderr].
  destruct (getitem sb_dict "first_data_zone") as [fdz|]; [|discriminate].
  rewrite Hsb. discriminate.
Qed.

(** C1: on the image of scenario C (inode table and data zones all
    zero) [mkdir sub] writes the new inode (nlinks 2, size 1024) and a
    directory record for "sub", then stops with KeyError "nzones": no data
    block is looked for, zone slot 0 of the new inode stays 0 and no "."
    and ".." records are written.  With a dictionary that does have the
    key, the block number is stored 16 bytes into the inode record, which
    is zone slot 1, so slot 0 stays 0 there too. *)
Theorem mkdir_stops_at_nzones :
  let r := main (map str ["mfstool.py"; "image"; "mkdir"; "sub"]%string) 1000
             (boot image_free) in
  fst r = Raise (KeyError "nzones")
  /\ parse_inode (disk (snd r)) (example_sb 8) 1
     = Ok {| i_mode := 0x41C0; i_uid := 0; i_size := 1024; i_time := 1000;
             i_gid := 0; i_nlinks := 2; i_zone := [0; 0; 0; 0; 0; 0; 0; 0; 0] |}
  /\ fread (disk (snd r)) 0 16 = entry_bytes 1 (str "sub")
  /\ fread (disk (snd r)) 5120 3072 = repeat 0 3072
  /\ stderr (snd r) = []
  /\ (let r' := create_new_directory (<["nzones" := 8]> (example_sb 8))
                  (str "sub") 14 1000 (boot image_foo) in
      fst r' = Ok tt
      /\ parse_inode (disk (snd r')) (example_sb 8) 2
         = Ok {| i_mode := 0x41C0; i_uid := 0; i_size := 1024; i_time := 1000;
                 i_gid := 0; i_nlinks := 2;
                 i_zone := [0; 6; 0; 0; 0; 0; 0; 0; 0] |}
      /\ fread (disk (snd r')) 6144 32
         = entry_bytes 2 (str ".") ++ entry_bytes 1 (str "..")).
Proof. vm_compute. repeat split. Qed.

(** ** [append]: the call of [read_file_data] passes three arguments *)

(** Whenever the name is found and the inode of the file can be read,
    [append_to_file] raises TypeError before it writes anything. *)
Lemma append_found_raises (sb_dict : gmap string Z) (dir_inode_number : Z)
    (filename data : list Z) (w now : Z) (wd : world)
    (dir_inode file_inode : inode) (inode_number : Z) :
  parse_inode (disk wd) sb_dict dir_inode_number = Ok dir_inode ->
  scan_directory (disk wd) dir_inode filename w = Ok (Some inode_number) ->
  parse_inode (disk wd) sb_dict inode_number = Ok file_inode ->
  append_to_file sb_dict dir_inode_number filename data w now wd
  = (Raise TypeError, wd).
Proof.
  intros Hdir Hscan Hfile. unfold append_to_file, cbind, reading.
  rewrite Hdir, Hscan, Hfile. reflexivity.
Qed.

(** C2: on the example tree, [append d/f xyz] finds the file "f" in the
    directory "d" and then stops with TypeError at the call of
    [read_file_data]: no data block is rewritten and the size and mtime
    of the inode are not updated; the image is left as it was. *)
Theorem append_raises_TypeError :
  main (map str ["mfstool.py"; "image"; "append"; "d/f"; "xyz"]%string) 1000
    (boot image_tree)
  = (Raise TypeError, boot image_tree)
  /\ find_inode_of_directory image_tree (example_sb 8) (str "d") 14 1 = Ok (Some 2)
  /\ find_inode_of_directory image_tree (example_sb 8) (str "f") 14 2 = Ok (Some 3)
  /\ fst (cat_file (example_sb 8) 2 (str "f") 14 (boot image_tree)) = Ok tt
  /\ stdout (snd (cat_file (example_sb 8) 2 (str "f") 14 (boot image_tree)))
     = str "abc".
Proof. vm_compute. repeat split. Qed.

(** ** Lookup: records with inode number 0 are not skipped *)

(** C4: in the root directory of [image_stale] record 0 is the released
    record (0, "a") and record 1 is (3, "a"); the lookup of "a" answers
    inode number 0, the released record, not 3; the listing of the same
    directory does skip record 0.  On the image of scenario A the lookup
    of the empty name answers 0 as well: it matches the first empty
    slot. *)
Theorem lookup_returns_released_record :
  take 2 (dir_entries image_stale [5; 0; 0; 0; 0; 0; 0; 0; 0] 14)
    = [(0, take 14 (str "a" ++ repeat 0 14)); (3, take 14 (str "a" ++ repeat 0 14))]
  /\ find_inode_of_directory image_stale (example_sb 6) (str "a") 14 1 = Ok (Some 0)
  /\ read_root_directory_entries image_stale (example_sb 6) 14 = Ok [str "a"]
  /\ find_inode_of_directory image_foo (example_sb 8) [] 14 1 = Ok (Some 0).
Proof. vm_compute. repeat split. Qed.

(** ** Failures: reported, or raised to the top level *)

Lemma parse_fields_Ok_len (fs : list (string * icode)) (sb_data : list Z)
    (idx : Z) (d d' : gmap string Z) :
  parse_fields fs sb_data idx d = Ok d' ->
  fs = [] \/ idx + foldr (fun f acc => calcsize (snd f) + acc) 0 fs <= len sb_data.
Proof.
  revert idx d. induction fs as [|[name fmt] fs IH]; intros idx d H.
  - left. reflexivity.
  - right. cbn [parse_fields] in H. unfold unpack_from in H.
    destruct (len sb_data - idx <? calcsize fmt) eqn:E; cbn [rbind] in H;
      [discriminate|].
    apply Z.ltb_ge in E. cbn [foldr snd].
    destruct (IH _ _ H) as [-> | Hle]; cbn [foldr]; lia.
Qed.

Lemma parse_fields_raises (fs : list (string * icode)) (sb_data : list Z)
    (idx : Z) (d : gmap string Z) (e : exn) :
  parse_fields fs sb_data idx d = Raise e -> e = StructError.
Proof.
  revert idx d. induction fs as [|[name fmt] fs IH]; intros idx d H;
    cbn [parse_fields] in H; [discriminate|].
  unfold unpack_from in H.
  destruct (len sb_data - idx <? calcsize fmt); cbn [rbind] in H.
  - inversion H. reflexivity.
  - apply (IH _ _ H).
Qed.

Lemma parse_superblock_short (sb_data : list Z) :
  len sb_data < 20 -> parse_superblock sb_data = Raise StructError.
Proof.
  intros Hlen. unfold parse_superblock.
  destruct (parse_fields fields sb_data 0 ∅) as [d|e] eqn:H.
  - apply parse_fields_Ok_len in H as [H|H]; [discriminate H|].
    cbn in H. lia.
  - apply parse_fields_raises in H. subst e. reflexivity.
Qed.

Lemma parse_inode_short (file : list Z) (sb_dict : gmap string Z) (n off : Z) :
  inode_table_offset sb_dict n = Ok off ->
  0 <= off -> len file < off + INODE_SIZE ->
  parse_inode file sb_dict n = Raise StructError.
Proof.
  intros Hoff H0 Hlen. unfold parse_inode. rewrite Hoff. cbn [rbind].
  unfold unpack_inode.
  assert (len (fread file off INODE_SIZE) <> 32).
  { unfold len, fread, INODE_SIZE in *. rewrite length_take, length_drop. lia. }
  apply Z.eqb_neq in H. rewrite H. reflexivity.
Qed.

Lemma inode_table_offset_num_inodes (sb_dict : gmap string Z) (n k : Z) :
  inode_table_offset (<["num_inodes" := k]> sb_dict) n = inode_table_offset sb_dict n.
Proof.
  unfold inode_table_offset, getitem.
  rewrite !lookup_insert_ne by discriminate. reflexivity.
Qed.

Lemma scan_not_found (file : list Z) (dir_inode : inode) (name : list Z) (w : Z) :
  w = 14 \/ w = 30 ->
  blocks_present file (i_zone dir_inode) ->
  (forall e, e ∈ dir_entries file (i_zone dir_inode) w ->
     exists s, decode (rstrip0 (snd e)) = Ok s /\ s <> name) ->
  scan_directory file dir_inode name w = Ok None.
Proof.
  intros Hw Hpres Hall. rewrite scan_spec by assumption.
  apply for_find_None, Forall_forall. intros e He.
  apply match_entry_None. apply Hall. exact He.
Qed.

(** C3, as the code has it: "no free inodes", "directory full" and
    "name not found" are reported (a message of their own on standard
    error and a normal return; [None] from the directory lookup) and are
    not raised, on images whose scanned inode records and directory
    blocks lie inside the image and whose scanned names are UTF-8; a short
    superblock and an inode record beyond the end of the image are not
    detected as such: they raise struct.error, which nothing catches, and
    no inode number is ever compared with num_inodes. *)
Theorem failures_reported_or_raised :
  (* no free inodes *)
  (forall sb_dict (wd : world) (name : list Z) (w now num_inodes : Z),
     getitem sb_dict "num_inodes" = Ok num_inodes ->
     (exists root_inode, parse_inode (disk wd) sb_dict 1 = Ok root_inode) ->
     (forall m, 1 <= m <= num_inodes ->
        exists ino, parse_inode (disk wd) sb_dict m = Ok ino /\ i_nlinks ino <> 0) ->
     let reported := (Ok tt, {| disk := disk wd; stdout := stdout wd;
                                stderr := stderr wd
                                  ++ [str "Error: No free inodes available."] |}) in
     create_new_file sb_dict name w now wd = reported
     /\ create_new_directory sb_dict name w now wd = reported)
  (* directory full, create-file *)
  /\ (forall sb_dict (name : list Z) (w now : Z) (wd : world) root_inode
        num_inodes n ioff blk record,
        w = 14 \/ w = 30 ->
        parse_inode (disk wd) sb_dict 1 = Ok root_inode ->
        getitem sb_dict "num_inodes" = Ok num_inodes ->
        find_free_inode (disk wd) sb_dict num_inodes = Ok (Some n) ->
        inode_table_offset sb_dict n = Ok ioff ->
        pack_inode (Z.lor (Z.lor (Z.lor S_IFREG S_IRUSR) S_IWUSR) S_IXUSR)
                   0 0 now 0 1 (repeat EMPTY 9) = Ok record ->
        i_zone root_inode !! 0%nat = Some blk ->
        len (fread (fwrite (disk wd) ioff record) (blk * BLOCK_SIZE) BLOCK_SIZE)
          = BLOCK_SIZE ->
        (forall e,
           e ∈ block_entries w
                 (fread (fwrite (disk wd) ioff record) (blk * BLOCK_SIZE) BLOCK_SIZE) ->
           fst e <> 0) ->
        create_new_file sb_dict name w now wd
        = (Ok tt, {| disk := fwrite (disk wd) ioff record; stdout := stdout wd;
                     stderr := stderr wd
                       ++ [str "Error: No free directory entry available."] |}))
  (* directory full, create-directory *)
  /\ (forall sb_dict (name : list Z) (w now : Z) (wd : world) root_inode
        num_inodes n ioff blk record,
        w = 14 \/ w = 30 ->
        parse_inode (disk wd) sb_dict 1 = Ok root_inode ->
        getitem sb_dict "num_inodes" = Ok num_inodes ->
        find_free_inode (disk wd) sb_dict num_inodes = Ok (Some n) ->
        inode_table_offset sb_dict n = Ok ioff ->
        pack_inode (Z.lor (Z.lor (Z.lor S_IFDIR S_IRUSR) S_IWUSR) S_IXUSR)
                   0 BLOCK_SIZE now 0 2 (repeat EMPTY 9) = Ok record ->
        i_zone root_inode !! 0%nat = Some blk ->
        len (fread (fwrite (disk wd) ioff record) (blk * BLOCK_SIZE) BLOCK_SIZE)
          = BLOCK_SIZE ->
        (forall e,
           e ∈ block_entries w
                 (fread (fwrite (disk wd) ioff record) (blk * BLOCK_SIZE) BLOCK_SIZE) ->
           fst e <> 0) ->
        create_new_directory sb_dict name w now wd
        = (Ok tt, {| disk := fwrite (disk wd) ioff record; stdout := stdout wd;
                     stderr := stderr wd
                       ++ [str "Error: No free directory entry available."] |}))
  (* name not found *)
  /\ (forall sb_dict (wd : world) (dir_inode_number : Z) dir_inode
        (name : list Z) (w : Z),
        w = 14 \/ w = 30 ->
        parse_inode (disk wd) sb_dict dir_inode_number = Ok dir_inode ->
        blocks_present (disk wd) (i_zone dir_inode) ->
        (forall e, e ∈ dir_entries (disk wd) (i_zone dir_inode) w ->
           exists s, decode (rstrip0 (snd e)) = Ok s /\ s <> name) ->
        let reported := (Ok tt, {| disk := disk wd; stdout := stdout wd;
                                   stderr := stderr wd
                                     ++ [str "File " ++ name
                                           ++ str " not found in dir"] |}) in
        find_inode_of_directory (disk wd) sb_dict name w dir_inode_number = Ok None
        /\ cat_file sb_dict dir_inode_number name w wd = reported
        /\ forall data now,
             append_to_file sb_dict dir_inode_number name data w now wd = reported)
  (* short superblock *)
  /\ (forall sb_data, len sb_data < 20 ->
        parse_superblock sb_data = Raise StructError)
  /\ (forall argv now (wd : world),
        3 <= len argv -> len (disk wd) < 1044 ->
        main argv now wd = (Raise StructError, wd))
  (* inode numbers are not checked *)
  /\ (forall file sb_dict n off,
        inode_table_offset sb_dict n = Ok off ->
        0 <= off -> len file < off + INODE_SIZE ->
        parse_inode file sb_dict n = Raise StructError)
  /\ (forall file sb_dict n k,
        parse_inode file (<["num_inodes" := k]> sb_dict) n
        = parse_inode file sb_dict n).
Proof.
  repeat apply conj.
  - intros sb_dict wd name w now ni Hni [root Hroot] Hall reported.
    apply find_free_inode_None in Hall. subst reported.
    unfold create_new_file, create_new_directory, cbind, reading, lift.
    rewrite Hroot, Hni, Hall. split; reflexivity.
  - intros sb_dict name w now wd root ni n ioff blk record
      Hw Hroot Hni Hfree Hoff Hpack Hblk Hlen Hfull.
    rewrite (create_new_file_run _ _ _ _ _ _ _ _ _ _ _ None
               Hroot Hni Hfree Hoff Hpack Hblk); [reflexivity|].
    apply find_free_entry_full; assumption.
  - intros sb_dict name w now wd root ni n ioff blk record
      Hw Hroot Hni Hfree Hoff Hpack Hblk Hlen Hfull.
    apply (create_new_directory_full _ _ _ _ _ root ni n ioff blk record);
      assumption.
  - intros sb_dict wd dn dir name w Hw Hdir Hpres Hall reported.
    pose proof (scan_not_found _ _ _ _ Hw Hpres Hall) as Hscan.
    subst reported.
    unfold find_inode_of_directory, cat_file, append_to_file, cbind, reading.
    rewrite Hdir. cbn [rbind]. rewrite Hscan. repeat split.
  - apply parse_superblock_short.
  - intros argv now wd Hargs Hlen. unfold main.
    destruct (len argv <? 3) eqn:E; [apply Z.ltb_lt in E; lia|].
    unfold cbind, file_read, lift.
    rewrite parse_superblock_short; [reflexivity|].
    unfold len, fread, BLOCK_SIZE in *. rewrite length_take, length_drop. lia.
  - apply parse_inode_short.
  - intros file sb_dict n k. unfold parse_inode.
    rewrite inode_table_offset_num_inodes. reflexivity.
Qed.

(** C3, as worded, fails: [ls] on a file too short for a superblock,
    [cat d/f] when the record of "d" names an inode beyond the end of the
    image, and [cat d/f] over a directory with a name that is not UTF-8
    all end in an exception that nothing catches. *)
Lemma uncaught_exceptions :
  fst (main (map str ["mfstool.py"; "image"; "ls"]%string) 1000 (boot image_short))
    = Raise StructError
  /\ fst (main (map str ["mfstool.py"; "image"; "cat"; "d/f"]%string) 1000
            (boot image_range)) = Raise StructError
  /\ fst (main (map str ["mfstool.py"; "image"; "cat"; "d/f"]%string) 1000
            (boot image_latin)) = Raise UnicodeDecodeError
  /\ ~ (forall argv now wd, controlled (fst (main argv now wd))).
Proof.
  assert (H : fst (main (map str ["mfstool.py"; "image"; "ls"]%string) 1000
                     (boot image_short)) = Raise StructError)
    by (vm_compute; reflexivity).
  split; [exact H|].
  split; [vm_compute; reflexivity|].
  split; [vm_compute; reflexivity|].
  intros Hall.
  specialize (Hall (map str ["mfstool.py"; "image"; "ls"]%string) 1000
                (boot image_short)).
  rewrite H in Hall. exact Hall.
Qed.

(** ** The theorems at the example images *)

Ltac by_eval := vm_compute; reflexivity.

Ltac each_zone H :=
  apply list_elem_of_In in H; cbn [In] in H;
  repeat (destruct H as [H|H]; [subst|]); try contradiction.

Ltac all_entries_used :=
  let e := fresh "e" in let He := fresh "He" in
  intros e He; revert e He; apply Forall_forall;
  apply (bool_decide_unpack _); vm_compute; exact I.

Ltac inodes_used :=
  let m := fresh "m" in let Hm := fresh "Hm" in
  intros m Hm;
  first
    [ assert (m = 1) as -> by lia
    | assert (m = 1 \/ m = 2) as [-> | ->] by lia ];
  eexists; (split; [by_eval | vm_compute; discriminate]).

(** The superblock of the example images decodes to [example_sb]. *)
Lemma parse_superblock_image_foo :
  parse_superblock (fread (disk (boot image_foo)) BLOCK_SIZE BLOCK_SIZE)
  = Ok (example_sb 8).
Proof. apply parse_superblock_fields; by_eval. Qed.

(** The dictionaries used with the other example images are the ones
    [parse_superblock] builds from their superblocks. *)
Lemma example_superblocks :
  parse_superblock (fread image_free BLOCK_SIZE BLOCK_SIZE) = Ok (example_sb 8)
  /\ parse_superblock (fread image_tree BLOCK_SIZE BLOCK_SIZE) = Ok (example_sb 8)
  /\ parse_superblock (fread image_full BLOCK_SIZE BLOCK_SIZE) = Ok (example_sb 8)
  /\ parse_superblock (fread image_slot7 BLOCK_SIZE BLOCK_SIZE) = Ok (example_sb 8)
  /\ parse_superblock (fread image_stale BLOCK_SIZE BLOCK_SIZE) = Ok (example_sb 6)
  /\ parse_superblock (fread image_latin BLOCK_SIZE BLOCK_SIZE) = Ok (example_sb 6)
  /\ parse_superblock (fread image_range BLOCK_SIZE BLOCK_SIZE) = Ok (example_sb 6)
  /\ parse_superblock (fread image_used BLOCK_SIZE BLOCK_SIZE) = Ok sb_used.
Proof. repeat split; apply parse_superblock_fields; by_eval. Qed.

(** The round trip at inode 2 of [image_foo], also after a later write
    to the record of inode 3. *)
Lemma inode_record_roundtrip_witness :
  parse_inode
    (fwrite image_foo 4128 (inode_bytes 0x81C0 3 0 1 [7; 0; 0; 0; 0; 0; 0; 0; 0]))
    (example_sb 8) 2
  = Ok (inode_file [7; 0; 0; 0; 0; 0; 0; 0; 0] 3)
  /\ parse_inode
       (fwrite (fwrite image_foo 4128
                  (inode_bytes 0x81C0 3 0 1 [7; 0; 0; 0; 0; 0; 0; 0; 0]))
               4160 [1; 2; 3])
       (example_sb 8) 2
     = Ok (inode_file [7; 0; 0; 0; 0; 0; 0; 0; 0] 3).
Proof.
  destruct (inode_record_roundtrip image_foo (example_sb 8) 32 2 4128
              (inode_file [7; 0; 0; 0; 0; 0; 0; 0; 0] 3)
              (inode_bytes 0x81C0 3 0 1 [7; 0; 0; 0; 0; 0; 0; 0; 0])
              ltac:(by_eval) ltac:(lia) ltac:(by_eval) ltac:(by_eval))
    as [H1 H2].
  split; [exact H1|].
  apply H2; [lia | lia |]. right. vm_compute. discriminate.
Defined.

(** The first free inode of [image_foo] is 2; [image_used] has none. *)
Lemma free_inode_first_fit_witness :
  find_free_inode image_foo (example_sb 8) 32 = Ok (Some 2)
  /\ create_new_file sb_used (str "y") 14 1000 (boot image_used)
     = (Ok tt, {| disk := disk (boot image_used);
                  stdout := stdout (boot image_used);
                  stderr := stderr (boot image_used)
                    ++ [str "Error: No free inodes available."] |}).
Proof.
  split.
  - apply (proj1 (free_inode_first_fit image_foo (example_sb 8) 32)).
    split; [lia|]. split; [eexists; split; by_eval | inodes_used].
  - apply (proj2 (free_inode_first_fit (disk (boot image_used)) sb_used 2)
             (boot image_used)).
    + reflexivity.
    + by_eval.
    + eexists. by_eval.
    + inodes_used.
Defined.

(** Every part of the statement at an example image. *)
Lemma failures_reported_or_raised_witness :
  create_new_file sb_used (str "y") 14 1000 (boot image_used)
    = (Ok tt, {| disk := disk (boot image_used);
                 stdout := stdout (boot image_used);
                 stderr := stderr (boot image_used)
                   ++ [str "Error: No free inodes available."] |})
  /\ create_new_directory sb_used (str "y") 14 1000 (boot image_used)
     = (Ok tt, {| disk := disk (boot image_used);
                  stdout := stdout (boot image_used);
                  stderr := stderr (boot image_used)
                    ++ [str "Error: No free inodes available."] |})
  /\ create_new_file (example_sb 8) (str "y") 14 1000 (boot image_full)
     = (Ok tt, {| disk := fwrite (disk (boot image_full)) 4160
                            (inode_bytes 0x81C0 0 1000 1 (repeat 0 9));
                  stdout := stdout (boot image_full);
                  stderr := stderr (boot image_full)
                    ++ [str "Error: No free directory entry available."] |})
  /\ create_new_directory (example_sb 8) (str "y") 14 1000 (boot image_full)
     = (Ok tt, {| disk := fwrite (disk (boot image_full)) 4160
                            (inode_bytes 0x41C0 1024 1000 2 (repeat 0 9));
                  stdout := stdout (boot image_full);
                  stderr := stderr (boot image_full)
                    ++ [str "Error: No free directory entry available."] |})
  /\ find_inode_of_directory (disk (boot image_tree)) (example_sb 8) (str "g") 14 2
     = Ok None
  /\ cat_file (example_sb 8) 2 (str "g") 14 (boot image_tree)
     = (Ok tt, {| disk := disk (boot image_tree);
                  stdout := stdout (boot image_tree);
                  stderr := stderr (boot image_tree)
                    ++ [str "File " ++ str "g" ++ str " not found in dir"] |})
  /\ append_to_file (example_sb 8) 2 (str "g") (str "xyz") 14 1000 (boot image_tree)
     = (Ok tt, {| disk := disk (boot image_tree);
                  stdout := stdout (boot image_tree);
                  stderr := stderr (boot image_tree)
                    ++ [str "File " ++ str "g" ++ str " not found in dir"] |})
  /\ parse_superblock (fread image_short 1024 1024) = Raise StructError
  /\ main (map str ["mfstool.py"; "image"; "ls"]%string) 1000 (boot image_short)
     = (Raise StructError, boot image_short)
  /\ parse_inode image_range (example_sb 6) 40000 = Raise StructError
  /\ parse_inode image_foo (<["num_inodes" := 1]> (example_sb 8)) 5
     = parse_inode image_foo (example_sb 8) 5.
Proof.
  destruct failures_reported_or_raised
    as (Hnone & Hfull & Hfulld & Hname & Hshort & Hmain & Hrange & Hcheck).
  assert (Hfree : find_free_inode (disk (boot image_full)) (example_sb 8) 32
                  = Ok (Some 3)).
  { apply find_free_inode_Some. split; [lia|].
    split; [eexists; split; by_eval | inodes_used]. }
  assert (Hroot : parse_inode (disk (boot image_full)) (example_sb 8) 1
                  = Ok (inode_root [5; 6; 0; 0; 0; 0; 0; 0; 0] 2048)) by by_eval.
  assert (Hni : getitem (example_sb 8) "num_inodes" = Ok 32) by by_eval.
  assert (Hoff : inode_table_offset (example_sb 8) 3 = Ok 4160) by by_eval.
  destruct (Hnone sb_used (boot image_used) (str "y") 14 1000 2
              ltac:(by_eval) ltac:(eexists; by_eval) ltac:(inodes_used))
    as [N1 N2].
  split; [exact N1|]. split; [exact N2|].
  split.
  { apply (Hfull (example_sb 8) (str "y") 14 1000 (boot image_full)
             (inode_root [5; 6; 0; 0; 0; 0; 0; 0; 0] 2048) 32 3 4160 5
             (inode_bytes 0x81C0 0 1000 1 (repeat 0 9))
             (or_introl eq_refl) Hroot Hni Hfree Hoff ltac:(by_eval) eq_refl
             ltac:(by_eval)).
    all_entries_used. }
  split.
  { apply (Hfulld (example_sb 8) (str "y") 14 1000 (boot image_full)
             (inode_root [5; 6; 0; 0; 0; 0; 0; 0; 0] 2048) 32 3 4160 5
             (inode_bytes 0x41C0 1024 1000 2 (repeat 0 9))
             (or_introl eq_refl) Hroot Hni Hfree Hoff ltac:(by_eval) eq_refl
             ltac:(by_eval)).
    all_entries_used. }
  assert (Hpres : blocks_present (disk (boot image_tree))
                    (i_zone (inode_root [6; 0; 0; 0; 0; 0; 0; 0; 0] 1024))).
  { intros zone Hin Hz. cbn [i_zone inode_root] in Hin. each_zone Hin. by_eval. }
  assert (Hother : forall e,
            e ∈ dir_entries (disk (boot image_tree))
                  (i_zone (inode_root [6; 0; 0; 0; 0; 0; 0; 0; 0] 1024)) 14 ->
            exists s, decode (rstrip0 (snd e)) = Ok s /\ s <> str "g").
  { intros e He. apply match_entry_None. revert e He. apply Forall_forall.
    apply for_find_None. by_eval. }
  destruct (Hname (example_sb 8) (boot image_tree) 2
              (inode_root [6; 0; 0; 0; 0; 0; 0; 0; 0] 1024) (str "g") 14
              (or_introl eq_refl) ltac:(by_eval) Hpres Hother) as (F1 & F2 & F3).
  split; [exact F1|]. split; [exact F2|]. split; [exact (F3 (str "xyz") 1000)|].
  split; [apply Hshort; by_eval|].
  split; [apply Hmain; [vm_compute; discriminate | by_eval]|].
  split; [apply (Hrange image_range (example_sb 6) 40000 1284064);
          [by_eval | lia | by_eval]|].
  apply Hcheck.
Defined.

(** * Further properties of the code *)

(** ** Superblock decoding *)

Lemma unpack_from_Ok (c : icode) (data : list Z) (idx : Z) :
  idx + calcsize c <= len data ->
  unpack_from c data idx = Ok (le_decode (slice data idx (idx + calcsize c))).
Proof.
  intros H. unfold unpack_from.
  destruct (len data - idx <? calcsize c) eqn:E; [|reflexivity].
  apply Z.ltb_lt in E. lia.
Qed.

Lemma parse_superblock_Ok_len (sb_data : list Z) (sb_dict : gmap string Z) :
  parse_superblock sb_data = Ok sb_dict -> 20 <= len sb_data.
Proof.
  intros H. apply parse_fields_Ok_len in H as [H|H]; [discriminate H|].
  cbn in H. lia.
Qed.

Lemma parse_superblock_decoded (sb_data : list Z) :
  20 <= len sb_data ->
  parse_superblock sb_data
  = Ok (<["state" := le_decode (slice sb_data 18 20)]>
       (<["magic" := le_decode (slice sb_data 16 18)]>
       (<["max_file_size" := le_decode (slice sb_data 12 16)]>
       (<["log_zone_size" := le_decode (slice sb_data 10 12)]>
       (<["first_data_zone" := le_decode (slice sb_data 8 10)]>
       (<["zmap_blocks" := le_decode (slice sb_data 6 8)]>
       (<["imap_blocks" := le_decode (slice sb_data 4 6)]>
       (<["num_zones" := le_decode (slice sb_data 2 4)]>
       (<["num_inodes" := le_decode (slice sb_data 0 2)]> ∅))))))))).
Proof.
  intros H.
  apply parse_superblock_fields;
    (rewrite unpack_from_Ok by (cbn [calcsize]; lia); reflexivity).
Qed.

Lemma parse_superblock_first_data_zone (sb_data : list Z) (sb_dict : gmap string Z) :
  parse_superblock sb_data = Ok sb_dict ->
  getitem sb_dict "first_data_zone" = Ok (le_decode (slice sb_data 8 10)).
Proof.
  intros H. pose proof (parse_superblock_decoded _ (parse_superblock_Ok_len _ _ H)) as H'.
  rewrite H in H'. inversion H' as [Hd]. unfold getitem.
  rewrite ?lookup_insert_ne by discriminate.
  rewrite lookup_insert_eq. reflexivity.
Qed.

(** X1: the superblock decoder succeeds exactly on buffers of at least 20
    bytes; it then stores the nine fields, read little-endian at the
    offsets 0, 2, 4, 6, 8, 10, 12 (four bytes), 16 and 18, under their
    nine names, and no other key: asking the dictionary for any other
    name, such as "nzones", raises KeyError. *)
Theorem parse_superblock_total_on_20_bytes (sb_data : list Z) :
  ((exists sb_dict, parse_superblock sb_data = Ok sb_dict) <-> 20 <= len sb_data)
  /\ (forall sb_dict,
        parse_superblock sb_data = Ok sb_dict ->
        getitem sb_dict "num_inodes" = Ok (le_decode (slice sb_data 0 2))
        /\ getitem sb_dict "num_zones" = Ok (le_decode (slice sb_data 2 4))
        /\ getitem sb_dict "imap_blocks" = Ok (le_decode (slice sb_data 4 6))
        /\ getitem sb_dict "zmap_blocks" = Ok (le_decode (slice sb_data 6 8))
        /\ getitem sb_dict "first_data_zone" = Ok (le_decode (slice sb_data 8 10))
        /\ getitem sb_dict "log_zone_size" = Ok (le_decode (slice sb_data 10 12))
        /\ getitem sb_dict "max_file_size" = Ok (le_decode (slice sb_data 12 16))
        /\ getitem sb_dict "magic" = Ok (le_decode (slice sb_data 16 18))
        /\ getitem sb_dict "state" = Ok (le_decode (slice sb_data 18 20))
        /\ forall key, key ∉ field_names ->
             getitem sb_dict key = Raise (KeyError key)).
Proof.
  split.
  - split; [intros [d H]; exact (parse_superblock_Ok_len _ d H)
           | intros H; eexists; exact (parse_superblock_decoded _ H)].
  - intros d H.
    pose proof (parse_superblock_decoded _ (parse_superblock_Ok_len _ d H)) as H'.
    rewrite H in H'. inversion H' as [Hd]. clear H'.
    repeat split;
      try (unfold getitem;
           rewrite ?lookup_insert_ne by discriminate;
           rewrite lookup_insert_eq; reflexivity).
    intros key Hkey. unfold getitem.
    rewrite <- Hd.
    rewrite (parse_fields_keys _ _ _ _ _ key H (lookup_empty key) Hkey).
    reflexivity.
Qed.

(** ** Directory records: pack, unpack, trim *)

Lemma rstrip0_zeros (k : nat) : rstrip0 (repeat 0 k) = [].
Proof. induction k as [|k IH]; cbn [repeat rstrip0]; [|rewrite IH]; reflexivity. Qed.

Lemma rstrip0_app_zeros (l : list Z) (k : nat) :
  rstrip0 (l ++ repeat 0 k) = rstrip0 l.
Proof.
  induction l as [|a l IH]; cbn [app rstrip0].
  - apply rstrip0_zeros.
  - rewrite IH. reflexivity.
Qed.

Lemma take_repeat {A} (x : A) (n m : nat) :
  take n (repeat x m) = repeat x (Nat.min n m).
Proof.
  revert m. induction n as [|n IH]; intros [|m]; cbn; try reflexivity.
  rewrite IH. reflexivity.
Qed.

Lemma take_padded (name : list Z) (w : nat) :
  (length name <= w)%nat ->
  take w (name ++ repeat 0 w) = name ++ repeat 0 (w - length name).
Proof.
  intros H. rewrite take_app, take_ge by lia. f_equal.
  rewrite take_repeat. f_equal. lia.
Qed.

Lemma pack_entry_Ok (w ino : Z) (name : list Z) :
  0 <= ino < 65536 ->
  pack_entry w ino name
  = Ok ([ino mod 256; (ino / 256) mod 256]
          ++ take (Z.to_nat w) (name ++ repeat 0 (Z.to_nat w))).
Proof.
  intros H. unfold pack_entry, pack_int.
  change (2 ^ (8 * calcsize cH)) with 65536.
  destruct (0 <=? ino) eqn:E1; [|apply Z.leb_gt in E1; lia].
  destruct (ino <? 65536) eqn:E2; [|apply Z.ltb_ge in E2; lia].
  reflexivity.
Qed.

Lemma unpack_entry_cells (w a b : Z) (field : list Z) :
  0 <= w -> len field = w ->
  unpack_entry w ([a; b] ++ field) = Ok (le_decode [a; b], field).
Proof.
  intros Hw Hlen. unfold unpack_entry, entry_size, len in *.
  cbn [app length]. 
  replace (Z.of_nat (S (S (length field))) =? 2 + w) with true
    by (symmetry; apply Z.eqb_eq; lia).
  cbn [negb]. f_equal. f_equal.
  unfold slice. replace (Z.to_nat (2 + w - 2)) with (length field) by lia.
  change (Z.to_nat 2) with 2%nat. cbn [drop]. apply take_ge. lia.
Qed.

(** X2: a directory record written with [struct.pack] reads back with
    [struct.unpack]: the inode number as given, the name field as the
    name cut or zero-padded to the width; trimming the trailing zero
    bytes of the field gives the name back when it fits the width, and a
    longer name is cut to the width without an error; an inode number
    outside [0, 65536) is refused with struct.error. *)
Theorem directory_record_roundtrip (w ino : Z) (name : list Z) :
  0 <= w ->
  (0 <= ino < 65536 ->
   exists record,
     pack_entry w ino name = Ok record
     /\ len record = entry_size w
     /\ unpack_entry w record
        = Ok (ino, take (Z.to_nat w) (name ++ repeat 0 (Z.to_nat w)))
     /\ (len name <= w ->
         rstrip0 (take (Z.to_nat w) (name ++ repeat 0 (Z.to_nat w))) = rstrip0 name)
     /\ (w <= len name ->
         take (Z.to_nat w) (name ++ repeat 0 (Z.to_nat w)) = take (Z.to_nat w) name))
  /\ (~ 0 <= ino < 65536 -> pack_entry w ino name = Raise StructError).
Proof.
  intros Hw. split.
  - intros Hino. eexists. split; [apply pack_entry_Ok; exact Hino|].
    assert (Hfield : len (take (Z.to_nat w) (name ++ repeat 0 (Z.to_nat w))) = w).
    { unfold len. rewrite length_take, length_app, repeat_length. lia. }
    split; [|split; [|split]].
    + unfold len, entry_size in *. rewrite length_app. cbn [length]. lia.
    + rewrite (unpack_entry_cells w _ _ _ Hw Hfield). f_equal. f_equal.
      apply (le2 ino Hino).
    + intros Hfit. unfold len in Hfit. rewrite take_padded by lia.
      apply rstrip0_app_zeros.
    + intros Hlong. unfold len in Hlong. rewrite take_app_le by lia. reflexivity.
  - intros Hout. unfold pack_entry, pack_int.
    change (2 ^ (8 * calcsize cH)) with 65536.
    destruct (0 <=? ino) eqn:E1; destruct (ino <? 65536) eqn:E2; try reflexivity.
    apply Z.leb_le in E1. apply Z.ltb_lt in E2. lia.
Qed.

(** ** UTF-8: what [encode] writes, [decode] reads back *)

Ltac decide_tests :=
  repeat match goal with
  | |- context [?a <=? ?b] =>
      first [ rewrite (proj2 (Z.leb_le a b)) by lia
            | rewrite (proj2 (Z.leb_gt a b)) by lia ]
  | |- context [?a <? ?b] =>
      first [ rewrite (proj2 (Z.ltb_lt a b)) by lia
            | rewrite (proj2 (Z.ltb_ge a b)) by lia ]
  | |- context [?a =? ?b] =>
      first [ rewrite (proj2 (Z.eqb_eq a b)) by lia
            | rewrite (proj2 (Z.eqb_neq a b)) by lia ]
  end;
  cbn [andb].

(** One step of [decode]. *)
Lemma decode_cons (b0 : Z) (r0 : list Z) :
  decode (b0 :: r0)
  = if (0 <=? b0) && (b0 <? 0x80) then
      let* s := decode r0 in Ok (b0 :: s)
    else if (0xC2 <=? b0) && (b0 <=? 0xDF) then
      match r0 with
      | b1 :: r1 =>
          if is_cont b1 then
            let* s := decode r1 in
            Ok ((b0 - 0xC0) * 64 + (b1 - 0x80) :: s)
          else Raise UnicodeDecodeError
      | _ => Raise UnicodeDecodeError
      end
    else if (0xE0 <=? b0) && (b0 <=? 0xEF) then
      match r0 with
      | b1 :: b2 :: r2 =>
          let lo := if b0 =? 0xE0 then 0xA0 else 0x80 in
          let hi := if b0 =? 0xED then 0x9F else 0xBF in
          if (lo <=? b1) && (b1 <=? hi) && is_cont b2 then
            let* s := decode r2 in
            Ok ((b0 - 0xE0) * 4096 + (b1 - 0x80) * 64 + (b2 - 0x80) :: s)
          else Raise UnicodeDecodeError
      | _ => Raise UnicodeDecodeError
      end
    else if (0xF0 <=? b0) && (b0 <=? 0xF4) then
      match r0 with
      | b1 :: b2 :: b3 :: r3 =>
          let lo := if b0 =? 0xF0 then 0x90 else 0x80 in
          let hi := if b0 =? 0xF4 then 0x8F else 0xBF in
          if (lo <=? b1) && (b1 <=? hi) && is_cont b2 && is_cont b3 then
            let* s := decode r3 in
            Ok ((b0 - 0xF0) * 262144 + (b1 - 0x80) * 4096
                + (b2 - 0x80) * 64 + (b3 - 0x80) :: s)
          else Raise UnicodeDecodeError
      | _ => Raise UnicodeDecodeError
      end
    else Raise UnicodeDecodeError.
Proof. reflexivity. Qed.

Lemma decode_1 (b0 : Z) (rest : list Z) :
  0 <= b0 < 0x80 ->
  decode (b0 :: rest) = let* s := decode rest in Ok (b0 :: s).
Proof. intros H. rewrite decode_cons. decide_tests. reflexivity. Qed.

Lemma decode_2 (b0 b1 : Z) (rest : list Z) :
  0xC2 <= b0 <= 0xDF -> 0x80 <= b1 <= 0xBF ->
  decode (b0 :: b1 :: rest)
  = let* s := decode rest in Ok ((b0 - 0xC0) * 64 + (b1 - 0x80) :: s).
Proof.
  intros H0 H1. rewrite decode_cons. unfold is_cont. decide_tests. reflexivity.
Qed.

Lemma decode_3 (b0 b1 b2 : Z) (rest : list Z) :
  0xE0 <= b0 <= 0xEF -> 0x80 <= b1 <= 0xBF -> 0x80 <= b2 <= 0xBF ->
  (b0 = 0xE0 -> 0xA0 <= b1) -> (b0 = 0xED -> b1 <= 0x9F) ->
  decode (b0 :: b1 :: b2 :: rest)
  = let* s := decode rest in
    Ok ((b0 - 0xE0) * 4096 + (b1 - 0x80) * 64 + (b2 - 0x80) :: s).
Proof.
  intros H0 H1 H2 Hlo Hhi. rewrite decode_cons. unfold is_cont. cbv zeta.
  destruct (Z.eqb_spec b0 0xE0) as [E|E]; [specialize (Hlo E)|];
    (destruct (Z.eqb_spec b0 0xED) as [E'|E']; [specialize (Hhi E')|]);
    try (exfalso; lia); decide_tests; reflexivity.
Qed.

Lemma decode_4 (b0 b1 b2 b3 : Z) (rest : list Z) :
  0xF0 <= b0 <= 0xF4 -> 0x80 <= b1 <= 0xBF -> 0x80 <= b2 <= 0xBF ->
  0x80 <= b3 <= 0xBF ->
  (b0 = 0xF0 -> 0x90 <= b1) -> (b0 = 0xF4 -> b1 <= 0x8F) ->
  decode (b0 :: b1 :: b2 :: b3 :: rest)
  = let* s := decode rest in
    Ok ((b0 - 0xF0) * 262144 + (b1 - 0x80) * 4096 + (b2 - 0x80) * 64
        + (b3 - 0x80) :: s).
Proof.
  intros H0 H1 H2 H3 Hlo Hhi. rewrite decode_cons. unfold is_cont. cbv zeta.
  destruct (Z.eqb_spec b0 0xF0) as [E|E]; [specialize (Hlo E)|];
    (destruct (Z.eqb_spec b0 0xF4) as [E'|E']; [specialize (Hhi E')|]);
    try (exfalso; lia); decide_tests; reflexivity.
Qed.

Lemma decode_encode_char (c : Z) (bytes rest : list Z) :
  scalar c -> encode_char c = Ok bytes ->
  decode (bytes ++ rest) = let* s := decode rest in Ok (c :: s).
Proof.
  intros [Hr Hs] H. unfold encode_char in H.
  destruct (Z.ltb_spec c 0x80).
  { inversion H; subst. cbn [app]. apply decode_1. lia. }
  destruct (Z.ltb_spec c 0x800).
  { inversion H; subst. cbn [app].
    pose proof (Z.div_mod c 64 ltac:(lia)).
    pose proof (Z.mod_pos_bound c 64 ltac:(lia)).
    rewrite decode_2 by lia.
    replace ((192 + c / 64 - 192) * 64 + (128 + c mod 64 - 128)) with c by lia.
    reflexivity. }
  destruct ((0xD800 <=? c) && (c <=? 0xDFFF)) eqn:E; [discriminate H|].
  destruct (Z.ltb_spec c 0x10000).
  { inversion H; subst. cbn [app].
    pose proof (Z.div_mod c 64 ltac:(lia)).
    pose proof (Z.mod_pos_bound c 64 ltac:(lia)).
    pose proof (Z.div_mod (c / 64) 64 ltac:(lia)).
    pose proof (Z.mod_pos_bound (c / 64) 64 ltac:(lia)).
    assert (c / 4096 = c / 64 / 64) by (rewrite Z.div_div by lia; reflexivity).
    rewrite decode_3 by lia.
    replace ((224 + c / 4096 - 224) * 4096 + (128 + (c / 64) mod 64 - 128) * 64
             + (128 + c mod 64 - 128)) with c by lia.
    reflexivity. }
  inversion H; subst. cbn [app].
  pose proof (Z.div_mod c 64 ltac:(lia)).
  pose proof (Z.mod_pos_bound c 64 ltac:(lia)).
  pose proof (Z.div_mod (c / 64) 64 ltac:(lia)).
  pose proof (Z.mod_pos_bound (c / 64) 64 ltac:(lia)).
  pose proof (Z.div_mod (c / 64 / 64) 64 ltac:(lia)).
  pose proof (Z.mod_pos_bound (c / 64 / 64) 64 ltac:(lia)).
  replace (c / 4096) with (c / 64 / 64)
    by (rewrite Z.div_div by lia; reflexivity).
  replace (c / 262144) with (c / 64 / 64 / 64)
    by (rewrite !Z.div_div by lia; reflexivity).
  rewrite decode_4 by lia.
  replace ((240 + c / 64 / 64 / 64 - 240) * 262144
           + (128 + (c / 64 / 64) mod 64 - 128) * 4096
           + (128 + (c / 64) mod 64 - 128) * 64 + (128 + c mod 64 - 128))
    with c by lia.
  reflexivity.
Qed.

Lemma encode_char_scalar (c : Z) : scalar c -> exists bytes, encode_char c = Ok bytes.
Proof.
  intros [Hr Hs]. unfold encode_char.
  destruct (c <? 0x80); [eexists; reflexivity|].
  destruct (c <? 0x800); [eexists; reflexivity|].
  destruct (Z.leb_spec 0xD800 c); destruct (Z.leb_spec c 0xDFFF); cbn [andb];
    try lia; destruct (c <? 0x10000); eexists; reflexivity.
Qed.

(** Every [str] of scalar values encodes, and decoding gives it back. *)
Lemma decode_encode (s : list Z) :
  Forall scalar s ->
  exists bytes, encode s = Ok bytes /\ decode bytes = Ok s.
Proof.
  induction 1 as [|c s Hc Hs (bs & Hbs & Hdec)]; cbn [encode].
  - exists []. split; reflexivity.
  - destruct (encode_char_scalar c Hc) as [b Hb]. rewrite Hb, Hbs. cbn [rbind].
    eexists. split; [reflexivity|].
    rewrite (decode_encode_char c b bs Hc Hb), Hdec. reflexivity.
Qed.

(** ** Writes and what they leave alone *)

Lemma length_fwrite_ge (f : list Z) (off : Z) (data : list Z) :
  (length f <= length (fwrite f off data))%nat.
Proof.
  unfold fwrite. rewrite !length_app, length_take, repeat_length, length_drop. lia.
Qed.

Lemma len_fread_min (f : list Z) (off n : Z) :
  length (fread f off n) = Nat.min (Z.to_nat n) (length f - Z.to_nat off).
Proof. unfold fread. rewrite length_take, length_drop. reflexivity. Qed.

(** A range that lies inside the file still does after a write. *)
Lemma fread_present_fwrite (f : list Z) (a m off : Z) (data : list Z) :
  len (fread f a m) = m ->
  len (fread (fwrite f off data) a m) = m.
Proof.
  unfold len. rewrite !len_fread_min.
  pose proof (length_fwrite_ge f off data). lia.
Qed.

Lemma fread_present_bound (f : list Z) (a m : Z) :
  0 <= a -> 0 < m -> len (fread f a m) = m -> a + m <= len f.
Proof. unfold len. rewrite len_fread_min. lia. Qed.

Lemma slice_fread (f : list Z) (a m lo hi : Z) :
  0 <= a -> 0 <= lo -> lo <= hi -> hi <= m ->
  slice (fread f a m) lo hi = fread f (a + lo) (hi - lo).
Proof.
  intros Ha Hlo Hhi Hm. unfold slice, fread.
  rewrite skipn_firstn_comm, take_take, drop_drop.
  f_equal; [lia | f_equal; lia].
Qed.

Lemma inode_table_offset_shift (sb_dict : gmap string Z) (off1 m : Z) :
  inode_table_offset sb_dict 1 = Ok off1 ->
  inode_table_offset sb_dict m = Ok (off1 + (m - 1) * INODE_SIZE).
Proof.
  unfold inode_table_offset.
  destruct (getitem sb_dict "imap_blocks"); cbn [rbind]; [|discriminate].
  destruct (getitem sb_dict "zmap_blocks"); cbn [rbind]; [|discriminate].
  intros H. inversion H. f_equal. lia.
Qed.

Lemma unpack_inode_len (inode_data : list Z) (ino : inode) :
  unpack_inode inode_data = Ok ino -> len inode_data = INODE_SIZE.
Proof.
  unfold unpack_inode. destruct (len inode_data =? 32) eqn:E; [|discriminate].
  intros _. apply Z.eqb_eq in E. exact E.
Qed.

Lemma parse_inode_present (file : list Z) (sb_dict : gmap string Z) (m off : Z)
    (ino : inode) :
  inode_table_offset sb_dict m = Ok off ->
  parse_inode file sb_dict m = Ok ino ->
  len (fread file off INODE_SIZE) = INODE_SIZE.
Proof.
  intros Hoff. unfold parse_inode. rewrite Hoff. cbn [rbind].
  apply unpack_inode_len.
Qed.

(** A write outside the 32 bytes of an inode record does not change what
    that record decodes to. *)
Lemma parse_inode_frame (file : list Z) (sb_dict : gmap string Z) (m off o : Z)
    (data : list Z) (ino : inode) :
  inode_table_offset sb_dict m = Ok off ->
  0 <= off -> 0 <= o ->
  o + len data <= off \/ off + INODE_SIZE <= o ->
  parse_inode file sb_dict m = Ok ino ->
  parse_inode (fwrite file o data) sb_dict m = Ok ino.
Proof.
  intros Hoff H0 Ho Hdis Hparse.
  pose proof (parse_inode_present _ _ _ _ _ Hoff Hparse) as Hlen.
  unfold parse_inode in *. rewrite Hoff in *. cbn [rbind] in *.
  rewrite fread_fwrite_disjoint; [exact Hparse | lia | unfold INODE_SIZE; lia
    | lia | | lia].
  apply fread_present_bound in Hlen; [lia | lia | unfold INODE_SIZE; lia].
Qed.

(** What [struct.pack] makes of an inode, [struct.unpack] reads back. *)
Lemma unpack_pack_inode (mode uid size time gid nlinks : Z) (zones record : list Z) :
  pack_inode mode uid size time gid nlinks zones = Ok record ->
  len record = INODE_SIZE
  /\ unpack_inode record = Ok (mkInode mode uid size time gid nlinks zones).
Proof.
  intros Hpack.
  apply pack_inode_Ok in Hpack
    as (z0 & z1 & z2 & z3 & z4 & z5 & z6 & z7 & z8 & -> & Hr & Hz & Hrec).
  split.
  { subst record. unfold len. rewrite !length_app, !length_le_encode. reflexivity. }
  subst record. cbn [le_encode app]. rewrite unpack_inode_cells.
  repeat match goal with
  | H : Forall _ (_ :: _) |- _ => apply Forall_cons in H as [? H]
  end.
  destruct Hr as (? & ? & ? & ? & ? & ?).
  pose proof (le2 mode) as E1. pose proof (le2 uid) as E2.
  pose proof (le4 size) as E3. pose proof (le4 time) as E4.
  pose proof (le1 gid) as E5. pose proof (le1 nlinks) as E6.
  pose proof (le2 z0) as F0. pose proof (le2 z1) as F1.
  pose proof (le2 z2) as F2. pose proof (le2 z3) as F3.
  pose proof (le2 z4) as F4. pose proof (le2 z5) as F5.
  pose proof (le2 z6) as F6. pose proof (le2 z7) as F7.
  pose proof (le2 z8) as F8.
  cbn [le_encode] in *.
  rewrite E1, E2, E3, E4, E5, E6, F0, F1, F2, F3, F4, F5, F6, F7, F8
    by assumption.
  reflexivity.
Qed.

Lemma new_file_record (now : Z) :
  0 <= now < 4294967296 ->
  pack_inode (Z.lor (Z.lor (Z.lor S_IFREG S_IRUSR) S_IWUSR) S_IXUSR)
             0 0 now 0 1 (repeat EMPTY 9)
  = Ok (inode_bytes 0x81C0 0 now 1 (repeat 0 9)).
Proof.
  intros H.
  assert (Hn : pack_int cI now = Ok (le_encode 4 now)).
  { unfold pack_int. change (2 ^ (8 * calcsize cI)) with 4294967296.
    destruct (Z.leb_spec 0 now); [|lia].
    destruct (Z.ltb_spec now 4294967296); [|lia]. reflexivity. }
  unfold pack_inode.
  change (negb (len (repeat EMPTY 9) =? 9)) with false. cbv iota.
  change (pack_int cH (Z.lor (Z.lor (Z.lor S_IFREG S_IRUSR) S_IWUSR) S_IXUSR))
    with (Ok (A := list Z) (le_encode 2 0x81C0)).
  change (pack_int cH 0) with (Ok (A := list Z) (le_encode 2 0)).
  change (pack_int cI 0) with (Ok (A := list Z) (le_encode 4 0)).
  cbn [rbind]. rewrite Hn. reflexivity.
Qed.

Lemma new_dir_record (now : Z) :
  0 <= now < 4294967296 ->
  pack_inode (Z.lor (Z.lor (Z.lor S_IFDIR S_IRUSR) S_IWUSR) S_IXUSR)
             0 BLOCK_SIZE now 0 2 (repeat EMPTY 9)
  = Ok (inode_bytes 0x41C0 1024 now 2 (repeat 0 9)).
Proof.
  intros H.
  assert (Hn : pack_int cI now = Ok (le_encode 4 now)).
  { unfold pack_int. change (2 ^ (8 * calcsize cI)) with 4294967296.
    destruct (Z.leb_spec 0 now); [|lia].
    destruct (Z.ltb_spec now 4294967296); [|lia]. reflexivity. }
  unfold pack_inode.
  change (negb (len (repeat EMPTY 9) =? 9)) with false. cbv iota.
  change (pack_int cH (Z.lor (Z.lor (Z.lor S_IFDIR S_IRUSR) S_IWUSR) S_IXUSR))
    with (Ok (A := list Z) (le_encode 2 0x41C0)).
  change (pack_int cH 0) with (Ok (A := list Z) (le_encode 2 0)).
  change (pack_int cI BLOCK_SIZE) with (Ok (A := list Z) (le_encode 4 1024)).
  cbn [rbind]. rewrite Hn. reflexivity.
Qed.

(** [mkdir] up to the lookup of the key "nzones", when an inode and a
    slot are free. *)
Lemma create_new_directory_run (sb_dict : gmap string Z) (dirname : list Z)
    (w now : Z) (wd : world) (root_inode : inode)
    (num_inodes n ioff blk offset first_data_zone : Z)
    (record name entry : list Z) (e : exn) :
  parse_inode (disk wd) sb_dict 1 = Ok root_inode ->
  getitem sb_dict "num_inodes" = Ok num_inodes ->
  find_free_inode (disk wd) sb_dict num_inodes = Ok (Some n) ->
  inode_table_offset sb_dict n = Ok ioff ->
  pack_inode (Z.lor (Z.lor (Z.lor S_IFDIR S_IRUSR) S_IWUSR) S_IXUSR)
             0 BLOCK_SIZE now 0 2 (repeat EMPTY 9) = Ok record ->
  i_zone root_inode !! 0%nat = Some blk ->
  find_free_entry (fread (fwrite (disk wd) ioff record) (blk * BLOCK_SIZE) BLOCK_SIZE) w
    = Ok (Some offset) ->
  encode (ljust dirname w 0) = Ok name ->
  pack_entry w n name = Ok entry ->
  getitem sb_dict "first_data_zone" = Ok first_data_zone ->
  getitem sb_dict "nzones" = Raise e ->
  create_new_directory sb_dict dirname w now wd
  = (Raise e, {| disk := fwrite (fwrite (disk wd) ioff record)
                           (blk * BLOCK_SIZE + offset) entry;
                 stdout := stdout wd; stderr := stderr wd |}).
Proof.
  intros Hroot Hni Hfree Hoff Hpack Hblk Hslot Hname Hentry Hfdz Hnz.
  apply (getzone_lookup _ 0%nat) in Hblk. change (Z.of_nat 0) with 0 in Hblk.
  unfold create_new_directory, cbind, reading, lift, file_write, file_read.
  rewrite Hroot, Hni, Hfree, Hoff, Hpack. cbn [disk stdout stderr].
  rewrite Hblk, Hslot, Hname, Hentry. cbn [disk stdout stderr].
  rewrite Hfdz, Hnz. reflexivity.
Qed.

(** ** Names: encoding, padding, trimming *)

Lemma encode_app (a b : list Z) :
  encode (a ++ b)
  = let* x := encode a in let* y := encode b in Ok (x ++ y).
Proof.
  induction a as [|c a IH]; cbn [app encode rbind].
  - destruct (encode b); reflexivity.
  - destruct (encode_char c); cbn [rbind]; [|reflexivity].
    rewrite IH. destruct (encode a); cbn [rbind]; [|reflexivity].
    destruct (encode b); cbn [rbind]; [|reflexivity].
    rewrite app_assoc. reflexivity.
Qed.

Lemma encode_zeros (k : nat) : encode (repeat 0 k) = Ok (repeat 0 k).
Proof.
  induction k as [|k IH]; cbn [repeat encode]; [reflexivity|].
  rewrite IH. reflexivity.
Qed.

Lemma encode_ljust (filename name : list Z) (w : Z) :
  encode filename = Ok name ->
  encode (ljust filename w 0)
  = Ok (name ++ repeat 0 (Z.to_nat (w - len filename))).
Proof.
  intros H. unfold ljust. rewrite encode_app, H, encode_zeros. reflexivity.
Qed.

Lemma name_field (name : list Z) (w : Z) (k : nat) :
  len name <= w ->
  rstrip0 (take (Z.to_nat w) ((name ++ repeat 0 k) ++ repeat 0 (Z.to_nat w)))
  = rstrip0 name.
Proof.
  intros H. unfold len in H.
  rewrite <- app_assoc, <- repeat_app, take_app, take_ge, take_repeat by lia.
  apply rstrip0_app_zeros.
Qed.

Lemma names_of_elem (e : Z * list Z) (es : list (Z * list Z)) :
  e ∈ es -> fst e <> 0 -> rstrip0 (snd e) ∈ names_of es.
Proof.
  intros Hin Hne. unfold names_of. apply list_elem_of_In, in_map_iff.
  exists e. split; [reflexivity|].
  apply list_elem_of_In, list_elem_of_filter. split; assumption.
Qed.

(** ** One directory block after a record is written into it *)

Lemma entry_at_written (f : list Z) (a w offset : Z) (entry : list Z) :
  0 <= a -> 0 <= w -> 0 <= offset -> offset + entry_size w <= BLOCK_SIZE ->
  len entry = entry_size w ->
  entry_at w (fread (fwrite f (a + offset) entry) a BLOCK_SIZE) offset
  = (le_decode (slice entry 0 2), slice entry 2 (2 + w)).
Proof.
  intros Ha Hw Ho Hfit Hlen. unfold entry_at, entry_size in *.
  rewrite slice_fread by lia.
  replace (offset + (2 + w) - offset) with (len entry) by lia.
  rewrite fread_fwrite_same. reflexivity.
Qed.

Lemma entry_at_kept (f : list Z) (a w offset offset' : Z) (entry : list Z) :
  0 <= a -> 0 <= w -> 0 <= offset -> 0 <= offset' ->
  offset' + entry_size w <= BLOCK_SIZE ->
  a + BLOCK_SIZE <= len f ->
  len entry = entry_size w ->
  offset' + entry_size w <= offset \/ offset + entry_size w <= offset' ->
  entry_at w (fread (fwrite f (a + offset) entry) a BLOCK_SIZE) offset'
  = entry_at w (fread f a BLOCK_SIZE) offset'.
Proof.
  intros Ha Hw Ho Ho' Hfit Hin Hlen Hapart. unfold entry_at, entry_size in *.
  assert (E : slice (fread (fwrite f (a + offset) entry) a BLOCK_SIZE)
                offset' (offset' + (2 + w))
              = slice (fread f a BLOCK_SIZE) offset' (offset' + (2 + w))).
  { rewrite !slice_fread by lia. apply fread_fwrite_disjoint; lia. }
  rewrite E. reflexivity.
Qed.

Lemma range_apart (w : Z) (i j : nat) (x y : Z) :
  0 <= w -> (i < j)%nat ->
  py_range 0 BLOCK_SIZE (entry_size w) !! i = Some x ->
  py_range 0 BLOCK_SIZE (entry_size w) !! j = Some y ->
  x + entry_size w <= y.
Proof.
  intros Hw Hij Hi Hj.
  apply py_range_lookup in Hi as [_ ->]. apply py_range_lookup in Hj as [_ ->].
  unfold entry_size. nia.
Qed.

(** ** The command line: dispatch *)

Lemma main_ls (prog image : list Z) (now : Z) (wd : world)
    (sb_dict : gmap string Z) (w : Z) :
  parse_superblock (fread (disk wd) BLOCK_SIZE BLOCK_SIZE) = Ok sb_dict ->
  name_width sb_dict = Ok w ->
  main [prog; image; str "ls"] now wd = print_root_directory sb_dict w wd.
Proof.
  intros Hsb Hwidth. unfold main.
  change (len [prog; image; str "ls"] <? 3) with false. cbv iota.
  change (arg [prog; image; str "ls"] 2) with (str "ls"). cbv zeta.
  rewrite bool_decide_eq_true_2 by reflexivity.
  unfold cbind at 1 2 3. unfold file_read, lift.
  rewrite Hsb, Hwidth. reflexivity.
Qed.

Lemma main_touch (prog image filename : list Z) (now : Z) (wd : world)
    (sb_dict : gmap string Z) (w : Z) :
  parse_superblock (fread (disk wd) BLOCK_SIZE BLOCK_SIZE) = Ok sb_dict ->
  name_width sb_dict = Ok w ->
  len filename <= w ->
  main [prog; image; str "touch"; filename] now wd
  = create_new_file sb_dict filename w now wd.
Proof.
  intros Hsb Hwidth Hlen. unfold main.
  change (len [prog; image; str "touch"; filename] <? 3) with false. cbv iota.
  change (arg [prog; image; str "touch"; filename] 2) with (str "touch").
  change (arg [prog; image; str "touch"; filename] 3) with filename.
  cbv zeta.
  rewrite (bool_decide_eq_false_2 (str "touch" = str "ls"))
    by (vm_compute; discriminate).
  rewrite (bool_decide_eq_false_2 (str "touch" = str "cat"))
    by (vm_compute; discriminate).
  rewrite bool_decide_eq_true_2 by reflexivity.
  change (negb (len [prog; image; str "touch"; filename] =? 4)) with false.
  cbv iota.
  unfold cbind at 1 2 3. unfold file_read, lift.
  rewrite Hsb, Hwidth.
  destruct (Z.ltb_spec w (len filename)); [lia|]. reflexivity.
Qed.

Lemma encode_char_len (c : Z) (bytes : list Z) :
  encode_char c = Ok bytes -> 1 <= len bytes.
Proof.
  unfold encode_char, len.
  repeat match goal with
  | |- context [if ?b then _ else _] => destruct b
  end; intros H; inversion H; cbn; lia.
Qed.

Lemma encode_len (s bytes : list Z) :
  encode s = Ok bytes -> len s <= len bytes.
Proof.
  revert bytes. induction s as [|c s IH]; intros bytes; cbn [encode].
  - intros H. inversion H. reflexivity.
  - destruct (encode_char c) as [b|] eqn:Ec; cbn [rbind]; [|discriminate].
    destruct (encode s) as [bs|]; cbn [rbind]; [|discriminate].
    intros H. inversion H. apply encode_char_len in Ec.
    specialize (IH bs eq_refl). unfold len in *.
    rewrite length_app. cbn [length]. lia.
Qed.

Lemma len_fwrite_inside (f : list Z) (off : Z) (data : list Z) :
  0 <= off -> off + len data <= len f -> len (fwrite f off data) = len f.
Proof.
  unfold fwrite, len. intros H0 H.
  rewrite !length_app, length_take, repeat_length, length_drop. lia.
Qed.

Lemma dir_entries_head (file : list Z) (zones : list Z) (w zone : Z) :
  zones !! 0%nat = Some zone -> zone <> EMPTY ->
  dir_entries file zones w
  = block_entries w (fread file (zone * BLOCK_SIZE) BLOCK_SIZE)
      ++ dir_entries file (drop 1 zones) w.
Proof.
  intros H Hz. destruct zones as [|z zones]; [discriminate|].
  cbn in H. inversion H; subst z.
  unfold dir_entries. rewrite filter_cons_True by exact Hz. reflexivity.
Qed.

(** ** [touch]: the image after a successful run *)

Section Touch.
Variables (sb_dict : gmap string Z) (filename name : list Z) (w now : Z).
Variables (wd : world) (root_inode : inode).
Variables (num_inodes n off1 blk offset : Z).
Hypothesis Hw : w = 14 \/ w = 30.
Hypothesis Hnow : 0 <= now < 4294967296.
Hypothesis Hroot : parse_inode (disk wd) sb_dict 1 = Ok root_inode.
Hypothesis Hused : i_nlinks root_inode <> 0.
Hypothesis Hni : getitem sb_dict "num_inodes" = Ok num_inodes.
Hypothesis Hni16 : num_inodes < 65536.
Hypothesis Hfree : find_free_inode (disk wd) sb_dict num_inodes = Ok (Some n).
Hypothesis Hoff1 : inode_table_offset sb_dict 1 = Ok off1.
Hypothesis Hoff0 : 0 <= off1.
Hypothesis Hblk : i_zone root_inode !! 0%nat = Some blk.
Hypothesis Htable : off1 + num_inodes * INODE_SIZE <= blk * BLOCK_SIZE.
Hypothesis Hpres : blocks_present (disk wd) (i_zone root_inode).
Hypothesis Hslot :
  find_free_entry (fread (disk wd) (blk * BLOCK_SIZE) BLOCK_SIZE) w = Ok (Some offset).
Hypothesis Hname : encode filename = Ok name.

Lemma touch_n : 2 <= n <= num_inodes.
Proof.
  pose proof Hfree as Hf.
  apply find_free_inode_Some in Hf as (Hn & (ino & Hino & Hz) & _).
  destruct (Z.eq_dec n 1) as [->|]; [|lia].
  rewrite Hroot in Hino. inversion Hino; subst. contradiction.
Qed.

Lemma touch_blk :
  0 < blk /\ blk * BLOCK_SIZE + BLOCK_SIZE <= len (disk wd)
  /\ len (fread (disk wd) (blk * BLOCK_SIZE) BLOCK_SIZE) = BLOCK_SIZE.
Proof.
  pose proof touch_n as Hn. unfold INODE_SIZE, BLOCK_SIZE in *.
  assert (Hb : 0 < blk) by lia. split; [exact Hb|].
  assert (Hlen : len (fread (disk wd) (blk * 1024) 1024) = 1024).
  { apply Hpres; [|unfold EMPTY; lia].
    apply list_elem_of_lookup. exists 0%nat. exact Hblk. }
  split; [|exact Hlen].
  apply fread_present_bound in Hlen; lia.
Qed.

Lemma touch_offset :
  exists k : nat,
    py_range 0 BLOCK_SIZE (entry_size w) !! k = Some offset
    /\ 0 <= offset /\ offset + entry_size w <= BLOCK_SIZE
    /\ forall (j : nat) y, j <> k ->
         py_range 0 BLOCK_SIZE (entry_size w) !! j = Some y ->
         y + entry_size w <= offset \/ offset + entry_size w <= y.
Proof.
  destruct touch_blk as (_ & _ & Hlen).
  pose proof Hslot as H. rewrite (find_free_entry_spec w Hw _ Hlen) in H.
  apply for_find_Some in H as (k & x & Hk & Hbody & _).
  destruct (fst (entry_at w _ x) =? 0); [|discriminate].
  inversion Hbody; subst x. exists k. split; [exact Hk|].
  assert (Hin : offset ∈ py_range 0 BLOCK_SIZE (entry_size w)).
  { apply list_elem_of_lookup. exists k. exact Hk. }
  destruct (entry_offsets w Hw offset Hin) as [H0 H1].
  split; [exact H0|]. split; [exact H1|].
  intros j y Hjk Hj.
  assert (0 <= w) by (destruct Hw; lia).
  destruct (Nat.lt_total j k) as [Hlt|[->|Hgt]]; [left|contradiction|right].
  - exact (range_apart w j k y offset ltac:(assumption) Hlt Hj Hk).
  - exact (range_apart w k j offset y ltac:(assumption) Hgt Hk Hj).
Qed.

Section Written.
Variables (record entry : list Z).
Hypothesis Hrec : len record = INODE_SIZE.
Hypothesis Hent : len entry = entry_size w.

#[local] Notation "'ioff'" := (off1 + (n - 1) * INODE_SIZE).
#[local] Notation "'disk1'" := (fwrite (disk wd) ioff record).
#[local] Notation "'disk2'" := (fwrite disk1 (blk * BLOCK_SIZE + offset) entry).

Lemma touch_len1 : len disk1 = len (disk wd).
Proof.
  pose proof touch_n. destruct touch_blk as (? & ? & _).
  unfold INODE_SIZE, BLOCK_SIZE in *.
  apply len_fwrite_inside; lia.
Qed.

Lemma touch_len : len disk2 = len (disk wd).
Proof.
  destruct touch_blk as (? & ? & _).
  destruct touch_offset as (_ & _ & ? & ? & _).
  rewrite len_fwrite_inside; [apply touch_len1 | unfold BLOCK_SIZE; lia |].
  rewrite touch_len1. lia.
Qed.

Lemma touch_block1 :
  fread disk1 (blk * BLOCK_SIZE) BLOCK_SIZE
  = fread (disk wd) (blk * BLOCK_SIZE) BLOCK_SIZE.
Proof.
  pose proof touch_n. destruct touch_blk as (? & ? & _).
  unfold INODE_SIZE, BLOCK_SIZE in *.
  apply fread_fwrite_disjoint; lia.
Qed.

Lemma touch_record (m : Z) :
  1 <= m <= num_inodes ->
  fread disk2 (off1 + (m - 1) * INODE_SIZE) INODE_SIZE
  = fread disk1 (off1 + (m - 1) * INODE_SIZE) INODE_SIZE.
Proof.
  intros Hm. pose proof touch_len1.
  destruct touch_blk as (? & ? & _).
  destruct touch_offset as (_ & _ & ? & ? & _).
  unfold INODE_SIZE, BLOCK_SIZE in *.
  apply fread_fwrite_disjoint; lia.
Qed.

Lemma touch_other_inodes (m : Z) :
  1 <= m <= num_inodes -> m <> n ->
  parse_inode disk2 sb_dict m = parse_inode (disk wd) sb_dict m.
Proof.
  intros Hm Hne. unfold parse_inode.
  rewrite (inode_table_offset_shift _ _ m Hoff1). cbn [rbind].
  rewrite (touch_record m Hm). f_equal.
  pose proof touch_n. destruct touch_blk as (? & ? & _).
  unfold INODE_SIZE, BLOCK_SIZE in *.
  apply fread_fwrite_disjoint; lia.
Qed.

Lemma touch_new_inode :
  parse_inode disk2 sb_dict n = unpack_inode record.
Proof.
  unfold parse_inode.
  rewrite (inode_table_offset_shift _ _ n Hoff1). cbn [rbind].
  rewrite (touch_record n) by (pose proof touch_n; lia).
  pose proof (fread_fwrite_same (disk wd) ioff record) as E.
  rewrite Hrec in E. rewrite E. reflexivity.
Qed.

Lemma touch_root : parse_inode disk2 sb_dict 1 = Ok root_inode.
Proof.
  pose proof touch_n.
  rewrite touch_other_inodes by lia. exact Hroot.
Qed.

Lemma touch_present : blocks_present disk2 (i_zone root_inode).
Proof.
  intros zone Hin Hz. apply fread_present_fwrite, fread_present_fwrite, Hpres;
    assumption.
Qed.

Lemma touch_entry :
  entry_at w (fread disk2 (blk * BLOCK_SIZE) BLOCK_SIZE) offset
  = (le_decode (slice entry 0 2), slice entry 2 (2 + w)).
Proof.
  destruct touch_blk as (? & ? & _).
  destruct touch_offset as (_ & _ & ? & ? & _).
  apply entry_at_written;
    [unfold BLOCK_SIZE; lia | destruct Hw; lia | assumption | assumption
    | exact Hent].
Qed.

Lemma touch_entries_kept (j : nat) (y : Z) :
  py_range 0 BLOCK_SIZE (entry_size w) !! j = Some y -> y <> offset ->
  entry_at w (fread disk2 (blk * BLOCK_SIZE) BLOCK_SIZE) y
  = entry_at w (fread (disk wd) (blk * BLOCK_SIZE) BLOCK_SIZE) y.
Proof.
  intros Hj Hne.
  destruct touch_blk as (? & ? & Hlen).
  destruct touch_offset as (k & Hk & ? & ? & Hapart).
  assert (Hin : y ∈ py_range 0 BLOCK_SIZE (entry_size w)).
  { apply list_elem_of_lookup. exists j. exact Hj. }
  destruct (entry_offsets w Hw y Hin) as [Hy0 Hy1].
  assert (Hjk : j <> k) by (intros ->; rewrite Hk in Hj; congruence).
  rewrite entry_at_kept;
    [ rewrite touch_block1; reflexivity
    | unfold BLOCK_SIZE; lia | destruct Hw; lia | assumption | assumption
    | assumption | rewrite touch_len1; lia | exact Hent
    | exact (Hapart j y Hjk Hj) ].
Qed.

Lemma touch_no_reuse (m : Z) (ino : inode) :
  unpack_inode record = Ok ino -> i_nlinks ino <> 0 ->
  find_free_inode disk2 sb_dict num_inodes = Ok (Some m) -> n < m.
Proof.
  intros Hino Hlinks Hm.
  apply find_free_inode_Some in Hm as (Hrange & (ino' & Hino' & Hz) & _).
  pose proof Hfree as Hf.
  apply find_free_inode_Some in Hf as (_ & _ & Hbefore).
  destruct (Z.lt_trichotomy m n) as [Hlt|[->|Hgt]]; [exfalso|exfalso|exact Hgt].
  - rewrite touch_other_inodes in Hino' by lia.
    destruct (Hbefore m ltac:(lia)) as (ino'' & Hino'' & Hnz).
    rewrite Hino' in Hino''. inversion Hino''; subst. contradiction.
  - rewrite touch_new_inode, Hino in Hino'. inversion Hino'; subst.
    contradiction.
Qed.

Lemma touch_listed :
  le_decode (slice entry 0 2) <> 0 ->
  exists names,
    read_root_directory_entries disk2 sb_dict w = Ok names
    /\ rstrip0 (slice entry 2 (2 + w)) ∈ names.
Proof.
  intros Hne. eexists. split.
  { exact (listing_spec disk2 sb_dict w root_inode Hw touch_root touch_present). }
  destruct touch_blk as (? & _ & _).
  destruct touch_offset as (k & Hk & _).
  apply (names_of_elem (le_decode (slice entry 0 2), slice entry 2 (2 + w)));
    [|exact Hne].
  apply (dir_entries_slot _ _ _ 0%nat blk); [exact Hblk | unfold EMPTY; lia |].
  rewrite <- touch_entry. unfold block_entries.
  apply list_elem_of_In, in_map, list_elem_of_In, list_elem_of_lookup.
  exists k. exact Hk.
Qed.

Lemma touch_lookup :
  decode (rstrip0 (slice entry 2 (2 + w))) = Ok filename ->
  find_inode_of_directory disk2 sb_dict filename w 1 <> Ok None
  /\ (find_inode_of_directory (disk wd) sb_dict filename w 1 = Ok None ->
      find_inode_of_directory disk2 sb_dict filename w 1
      = Ok (Some (le_decode (slice entry 0 2)))).
Proof.
  intros Hdec.
  destruct touch_blk as (Hb & _ & _).
  destruct touch_offset as (k & Hk & _).
  assert (Hmatch : match_entry filename
                     (entry_at w (fread disk2 (blk * BLOCK_SIZE) BLOCK_SIZE) offset)
                   = Ok (Some (le_decode (slice entry 0 2)))).
  { rewrite touch_entry. apply match_entry_Some. split; [reflexivity|exact Hdec]. }
  assert (Hnew : find_inode_of_directory disk2 sb_dict filename w 1
                 = for_find (dir_entries disk2 (i_zone root_inode) w)
                     (match_entry filename)).
  { unfold find_inode_of_directory. rewrite touch_root. cbn [rbind].
    apply scan_spec; [exact Hw | exact touch_present]. }
  assert (Hold : find_inode_of_directory (disk wd) sb_dict filename w 1
                 = for_find (dir_entries (disk wd) (i_zone root_inode) w)
                     (match_entry filename)).
  { unfold find_inode_of_directory. rewrite Hroot. cbn [rbind].
    apply scan_spec; [exact Hw | exact Hpres]. }
  rewrite Hnew, Hold. split.
  - intros Hnone. apply for_find_None in Hnone.
    rewrite Forall_forall in Hnone.
    specialize (Hnone (entry_at w (fread disk2 (blk * BLOCK_SIZE) BLOCK_SIZE) offset)).
    rewrite Hmatch in Hnone. 
    assert (Habs : Ok (Some (le_decode (slice entry 0 2))) = Ok (A := option Z) None);
      [|discriminate Habs].
    apply Hnone.
    apply (dir_entries_slot _ _ _ 0%nat blk); [exact Hblk | unfold EMPTY; lia |].
    unfold block_entries.
    apply list_elem_of_In, in_map, list_elem_of_In, list_elem_of_lookup.
    exists k. exact Hk.
  - intros Hnone. apply for_find_None in Hnone. rewrite Forall_forall in Hnone.
    rewrite (dir_entries_head _ _ w blk Hblk) by (unfold EMPTY; lia).
    rewrite for_find_app.
    assert (Hfirst : for_find
              (block_entries w (fread disk2 (blk * BLOCK_SIZE) BLOCK_SIZE))
              (match_entry filename)
            = Ok (Some (le_decode (slice entry 0 2)))).
    { unfold block_entries. rewrite for_find_map. apply for_find_Some.
      exists k, offset. split; [exact Hk|]. split; [exact Hmatch|].
      intros j y Hjk Hj.
      rewrite (touch_entries_kept j y Hj).
      - apply Hnone.
        apply (dir_entries_slot _ _ _ 0%nat blk);
          [exact Hblk | unfold EMPTY; lia |].
        unfold block_entries.
        apply list_elem_of_In, in_map, list_elem_of_In, list_elem_of_lookup.
        exists j. exact Hj.
      - intros ->. apply py_range_lookup in Hj as [_ Hy].
        apply py_range_lookup in Hk as [_ Hx].
        assert (0 <= w) by (destruct Hw; lia). unfold entry_size in *. nia. }
    rewrite Hfirst. reflexivity.
Qed.

End Written.

#[local] Notation "'new_record'" := (inode_bytes 0x81C0 0 now 1 (repeat 0 9)).
#[local] Notation "'new_entry'" :=
  ([n mod 256; (n / 256) mod 256]
     ++ take (Z.to_nat w)
          ((name ++ repeat 0 (Z.to_nat (w - len filename)))
             ++ repeat 0 (Z.to_nat w))).

Lemma touch_record_len : len new_record = INODE_SIZE.
Proof. reflexivity. Qed.

Lemma touch_entry_len : len new_entry = entry_size w.
Proof.
  unfold len, entry_size.
  rewrite length_app, length_take, !length_app, !repeat_length.
  cbn [length]. assert (H0 : 0 <= w) by (destruct Hw; lia).
  clear - H0. rewrite Nat.min_l by lia. lia.
Qed.

Lemma touch_entry_fields :
  le_decode (slice new_entry 0 2) = n
  /\ slice new_entry 2 (2 + w)
     = take (Z.to_nat w)
         ((name ++ repeat 0 (Z.to_nat (w - len filename)))
            ++ repeat 0 (Z.to_nat w)).
Proof.
  pose proof touch_n as Hn.
  pose proof touch_entry_len as Hlen. unfold len in Hlen.
  rewrite length_app in Hlen. cbn [length] in Hlen. unfold entry_size in Hlen.
  split.
  - change (slice new_entry 0 2) with [n mod 256; (n / 256) mod 256].
    pose proof (le2 n ltac:(lia)) as E. cbn [le_encode] in E. exact E.
  - unfold slice. change (Z.to_nat 2) with 2%nat. cbn [app drop].
    apply take_ge. rewrite length_take. lia.
Qed.

Lemma touch_run :
  create_new_file sb_dict filename w now wd
  = (Ok tt, {| disk := fwrite (fwrite (disk wd) (off1 + (n - 1) * INODE_SIZE)
                                 new_record)
                         (blk * BLOCK_SIZE + offset) new_entry;
               stdout := stdout wd; stderr := stderr wd |}).
Proof.
  pose proof touch_n.
  rewrite (create_new_file_run sb_dict filename w now wd root_inode num_inodes n
             _ blk _ (Some offset) Hroot Hni Hfree
             (inode_table_offset_shift _ _ n Hoff1) (new_file_record now Hnow)
             Hblk).
  - rewrite (encode_ljust _ _ w Hname). cbn [rbind].
    rewrite pack_entry_Ok by lia. reflexivity.
  - rewrite (touch_block1 new_record touch_record_len). exact Hslot.
Qed.

Lemma touch_record_decodes :
  unpack_inode new_record = Ok (mkInode 0x81C0 0 0 now 0 1 (repeat 0 9)).
Proof.
  exact (proj2 (unpack_pack_inode _ _ _ _ _ _ _ _ (new_file_record now Hnow))).
Qed.

(** X4: after a successful [touch] the image has the length it had; the
    inode that was chosen decodes as a regular file (mode 0o100700) with
    size 0, one link, the time of the call and nine empty zones; every
    other inode of the table decodes as it did before; and the next
    search for a free inode answers a larger number, if any. *)
Theorem touch_then_inode_table :
  exists wd',
    create_new_file sb_dict filename w now wd = (Ok tt, wd')
    /\ len (disk wd') = len (disk wd)
    /\ parse_inode (disk wd') sb_dict n
       = Ok (mkInode 0x81C0 0 0 now 0 1 (repeat 0 9))
    /\ (forall m, 1 <= m <= num_inodes -> m <> n ->
          parse_inode (disk wd') sb_dict m = parse_inode (disk wd) sb_dict m)
    /\ (forall m, find_free_inode (disk wd') sb_dict num_inodes = Ok (Some m) ->
          n < m).
Proof.
  eexists. split; [exact touch_run|]. cbn [disk].
  split; [exact (touch_len new_record new_entry touch_record_len touch_entry_len)|].
  split.
  { rewrite (touch_new_inode new_record new_entry touch_record_len).
    exact touch_record_decodes. }
  split.
  - intros m Hm Hne.
    exact (touch_other_inodes new_record new_entry touch_record_len m Hm Hne).
  - intros m Hm.
    refine (touch_no_reuse new_record new_entry touch_record_len
              m _ touch_record_decodes _ Hm).
    cbn [i_nlinks]. lia.
Qed.

(** X14: a successful [touch] writes the 32 bytes of the inode record
    and the bytes of one directory slot, and nothing else: every range
    of the image that meets neither reads as it did before. *)
Theorem touch_writes_two_records (a m : Z) :
  0 <= a -> 0 <= m -> a + m <= len (disk wd) ->
  a + m <= off1 + (n - 1) * INODE_SIZE \/ off1 + n * INODE_SIZE <= a ->
  a + m <= blk * BLOCK_SIZE + offset
    \/ blk * BLOCK_SIZE + offset + entry_size w <= a ->
  exists wd',
    create_new_file sb_dict filename w now wd = (Ok tt, wd')
    /\ fread (disk wd') a m = fread (disk wd) a m.
Proof.
  intros Ha Hm Hin Hrec Hent.
  eexists. split; [exact touch_run|]. cbn [disk].
  pose proof touch_n.
  pose proof (touch_len1 new_record touch_record_len) as Hl.
  pose proof touch_entry_len as Hel.
  destruct touch_blk as (? & ? & _).
  destruct touch_offset as (_ & _ & ? & ? & _).
  unfold INODE_SIZE, BLOCK_SIZE in *.
  rewrite fread_fwrite_disjoint by lia.
  apply fread_fwrite_disjoint; try lia.
  change (len new_record) with 32. lia.
Qed.

(** X11: [touch] does not refuse a name whose encoding is longer than the
    name field (the command line compares the number of characters, not
    of bytes): the record is written with the first [w] bytes of the
    encoding, and that cut name is what [ls] lists afterwards. *)
Theorem touch_cuts_long_name :
  w < len name ->
  exists wd',
    create_new_file sb_dict filename w now wd = (Ok tt, wd')
    /\ exists names,
         read_root_directory_entries (disk wd') sb_dict w = Ok names
         /\ rstrip0 (take (Z.to_nat w) name) ∈ names.
Proof.
  intros Hlong. eexists. split; [exact touch_run|]. cbn [disk].
  pose proof touch_n as Hn.
  destruct touch_entry_fields as [Hino Hfield].
  destruct (touch_listed new_record new_entry touch_record_len touch_entry_len)
    as (names & Hls & Hin); [rewrite Hino; lia|].
  exists names. split; [exact Hls|].
  rewrite Hfield in Hin. unfold len in Hlong.
  rewrite <- app_assoc, take_app_le in Hin by lia. exact Hin.
Qed.

Hypothesis Hscalar : Forall scalar filename.
Hypothesis Hfit : len name <= w.
Hypothesis Htrim : rstrip0 name = name.

Lemma touch_name_field :
  rstrip0 (slice new_entry 2 (2 + w)) = name.
Proof.
  rewrite (proj2 touch_entry_fields), name_field by exact Hfit. exact Htrim.
Qed.

#[local] Notation "'dir_record'" := (inode_bytes 0x41C0 1024 now 2 (repeat 0 9)).

(** X12: on every dictionary that [parse_superblock] can return, under
    the conditions in which [touch] succeeds, [mkdir] does not: it writes
    the inode (a directory of size 1024 with two links and no zone) and
    the record in the root directory, then raises KeyError for the key
    "nzones".  The name is listed by [ls] afterwards and nothing was
    printed. *)
Theorem mkdir_leaves_entry_without_block (sb_data : list Z) :
  parse_superblock sb_data = Ok sb_dict ->
  exists wd',
    create_new_directory sb_dict filename w now wd
      = (Raise (KeyError "nzones"), wd')
    /\ stdout wd' = stdout wd /\ stderr wd' = stderr wd
    /\ (exists names,
          read_root_directory_entries (disk wd') sb_dict w = Ok names
          /\ name ∈ names)
    /\ parse_inode (disk wd') sb_dict n
       = Ok (mkInode 0x41C0 0 1024 now 0 2 (repeat 0 9)).
Proof.
  intros Hparsed. pose proof touch_n as Hn.
  assert (Hrec : len dir_record = INODE_SIZE) by reflexivity.
  eexists. split.
  { apply (create_new_directory_run sb_dict filename w now wd root_inode
             num_inodes n _ blk offset (le_decode (slice sb_data 8 10))
             dir_record
             (name ++ repeat 0 (Z.to_nat (w - len filename))) new_entry
             (KeyError "nzones")
             Hroot Hni Hfree (inode_table_offset_shift _ _ n Hoff1)
             (new_dir_record now Hnow) Hblk).
    - rewrite (touch_block1 dir_record Hrec). exact Hslot.
    - exact (encode_ljust _ _ w Hname).
    - apply pack_entry_Ok. lia.
    - exact (parse_superblock_first_data_zone _ _ Hparsed).
    - exact (parse_superblock_no_nzones _ _ Hparsed). }
  cbn [disk stdout stderr]. split; [reflexivity|]. split; [reflexivity|].
  destruct touch_entry_fields as [Hino _].
  split.
  - destruct (touch_listed dir_record new_entry Hrec touch_entry_len)
      as (names & Hls & Hin); [rewrite Hino; lia|].
    exists names. split; [exact Hls|]. rewrite touch_name_field in Hin. exact Hin.
  - rewrite (touch_new_inode dir_record new_entry Hrec).
    exact (proj2 (unpack_pack_inode _ _ _ _ _ _ _ _ (new_dir_record now Hnow))).
Qed.

Lemma touch_name_decodes : decode name = Ok filename.
Proof.
  destruct (decode_encode filename Hscalar) as (bytes & Henc & Hdec).
  rewrite Hname in Henc. inversion Henc; subst. exact Hdec.
Qed.

(** X3: after a successful [touch] (root directory in use, a free inode
    and a free slot in the first root block, inode table before that
    block, a name that fits the field and does not end in NUL), [ls]
    lists the encoded name, looking the name up never answers
    "not found", and it answers the new inode number when the name was
    not in the directory before.  Nothing is printed. *)
Theorem touch_then_ls_and_lookup :
  exists wd',
    create_new_file sb_dict filename w now wd = (Ok tt, wd')
    /\ stdout wd' = stdout wd /\ stderr wd' = stderr wd
    /\ (exists names,
          read_root_directory_entries (disk wd') sb_dict w = Ok names
          /\ name ∈ names)
    /\ find_inode_of_directory (disk wd') sb_dict filename w 1 <> Ok None
    /\ (find_inode_of_directory (disk wd) sb_dict filename w 1 = Ok None ->
        find_inode_of_directory (disk wd') sb_dict filename w 1 = Ok (Some n)).
Proof.
  eexists. split; [exact touch_run|]. cbn [disk stdout stderr].
  split; [reflexivity|]. split; [reflexivity|].
  pose proof touch_n as Hn.
  destruct touch_entry_fields as [Hino _].
  split.
  - destruct (touch_listed new_record new_entry touch_record_len touch_entry_len)
      as (names & Hls & Hin); [rewrite Hino; lia|].
    exists names. split; [exact Hls|]. rewrite touch_name_field in Hin. exact Hin.
  - destruct (touch_lookup new_record new_entry touch_record_len touch_entry_len)
      as [Hsome Hnew].
    { rewrite touch_name_field. exact touch_name_decodes. }
    split; [exact Hsome|]. rewrite Hino in Hnew. exact Hnew.
Qed.

Hypothesis Hsb :
  parse_superblock (fread (disk wd) BLOCK_SIZE BLOCK_SIZE) = Ok sb_dict.
Hypothesis Hwidth : name_width sb_dict = Ok w.
Hypothesis Htab : 2 * BLOCK_SIZE <= off1.

Lemma touch_superblock :
  fread (fwrite (fwrite (disk wd) (off1 + (n - 1) * INODE_SIZE) new_record)
           (blk * BLOCK_SIZE + offset) new_entry) BLOCK_SIZE BLOCK_SIZE
  = fread (disk wd) BLOCK_SIZE BLOCK_SIZE.
Proof.
  pose proof touch_n.
  pose proof (touch_len1 new_record touch_record_len) as Hl.
  destruct touch_blk as (? & ? & _).
  destruct touch_offset as (_ & _ & ? & ? & _).
  unfold INODE_SIZE, BLOCK_SIZE in *.
  rewrite fread_fwrite_disjoint by lia.
  apply fread_fwrite_disjoint; lia.
Qed.

(** X5: the command line, end to end: after [mfstool.py image touch NAME]
    succeeded under the conditions of X3, [mfstool.py image ls] prints
    the lines of the root directory, the encoded NAME followed by a
    newline among them, prints nothing on standard error and leaves the
    image as [touch] left it. *)
Theorem touch_then_ls_prints_name (prog image prog' image' : list Z) (now' : Z) :
  exists wd' wd'' names,
    main [prog; image; str "touch"; filename] now wd = (Ok tt, wd')
    /\ main [prog'; image'; str "ls"] now' wd' = (Ok tt, wd'')
    /\ stdout wd'' = stdout wd ++ flat_map (fun entry => entry ++ [10]) names
    /\ name ∈ names
    /\ stderr wd'' = stderr wd
    /\ disk wd'' = disk wd'.
Proof.
  pose proof touch_n as Hn.
  destruct touch_entry_fields as [Hino _].
  destruct (touch_listed new_record new_entry touch_record_len touch_entry_len)
    as (names & Hls & Hin); [rewrite Hino; lia|].
  rewrite touch_name_field in Hin.
  eexists. eexists. exists names.
  split.
  { rewrite (main_touch prog image filename now wd sb_dict w Hsb Hwidth).
    - exact touch_run.
    - pose proof (encode_len _ _ Hname). lia. }
  split.
  { rewrite (main_ls prog' image' now' _ sb_dict w).
    - unfold print_root_directory, cbind, reading, print_directory_entries.
      cbn [disk stdout stderr]. rewrite Hls. reflexivity.
    - cbn [disk]. rewrite touch_superblock. exact Hsb.
    - exact Hwidth. }
  cbn [disk stdout stderr].
  split; [reflexivity|]. split; [exact Hin|]. split; reflexivity.
Qed.

End Touch.

(** ** What a command leaves alone *)

Lemma keeps_cbind {A B C} (proj : world -> C) (m : cmd A) (k : A -> cmd B) :
  keeps proj m -> (forall a, keeps proj (k a)) -> keeps proj (cbind m k).
Proof.
  intros Hm Hk wd. unfold cbind. specialize (Hm wd).
  destruct (m wd) as [[a|e] wd1]; cbn [snd] in *.
  - rewrite Hk. exact Hm.
  - exact Hm.
Qed.

Lemma keeps_raise_first {A B C} (proj : world -> C) (e : exn) (k : A -> cmd B) :
  keeps proj (cbind (raise e) k).
Proof. intros wd. reflexivity. Qed.

Lemma keeps_cret {A C} (proj : world -> C) (a : A) : keeps proj (cret a).
Proof. intros wd. reflexivity. Qed.

Lemma keeps_raise {A C} (proj : world -> C) (e : exn) : keeps proj (raise (A := A) e).
Proof. intros wd. reflexivity. Qed.

Lemma keeps_sys_exit {A C} (proj : world -> C) (code : Z) :
  keeps proj (sys_exit (A := A) code).
Proof. intros wd. reflexivity. Qed.

Lemma keeps_lift {A C} (proj : world -> C) (r : res A) : keeps proj (lift r).
Proof. intros wd. reflexivity. Qed.

Lemma keeps_reading {A C} (proj : world -> C) (f : list Z -> res A) :
  keeps proj (reading f).
Proof. intros wd. reflexivity. Qed.

Lemma keeps_file_read {C} (proj : world -> C) (off n : Z) :
  keeps proj (file_read off n).
Proof. intros wd. reflexivity. Qed.

Lemma print_stderr_keeps_disk (msg : list Z) : keeps disk (print_stderr msg).
Proof. intros wd. reflexivity. Qed.

Lemma print_stderr_keeps_stdout (msg : list Z) : keeps stdout (print_stderr msg).
Proof. intros wd. reflexivity. Qed.

Lemma stdout_write_keeps_disk (data : list Z) : keeps disk (stdout_write data).
Proof. intros wd. reflexivity. Qed.

Lemma file_write_keeps_stdout (off : Z) (data : list Z) :
  keeps stdout (file_write off data).
Proof. intros wd. reflexivity. Qed.

Lemma print_directory_entries_keeps_disk (entries : list (list Z)) :
  keeps disk (print_directory_entries entries).
Proof. intros wd. reflexivity. Qed.

Ltac keeps_step :=
  first
    [ apply keeps_cret | apply keeps_raise | apply keeps_sys_exit
    | apply keeps_lift | apply keeps_reading | apply keeps_file_read
    | apply print_stderr_keeps_disk | apply print_stderr_keeps_stdout
    | apply stdout_write_keeps_disk | apply file_write_keeps_stdout
    | apply print_directory_entries_keeps_disk
    | apply keeps_raise_first
    | apply keeps_cbind; [|intros ?]
    | match goal with
      | |- keeps _ (if ?b then _ else _) => destruct b
      | |- keeps _ (match ?x with _ => _ end) => destruct x
      end ].

Lemma print_root_directory_keeps_disk (sb_dict : gmap string Z) (w : Z) :
  keeps disk (print_root_directory sb_dict w).
Proof. unfold print_root_directory. repeat keeps_step. Qed.

Lemma cat_file_keeps_disk (sb_dict : gmap string Z) (dir_inode_number : Z)
    (filename : list Z) (w : Z) :
  keeps disk (cat_file sb_dict dir_inode_number filename w).
Proof. unfold cat_file, call_read_file_data. repeat keeps_step. Qed.

Lemma create_new_file_keeps_stdout (sb_dict : gmap string Z) (filename : list Z)
    (w now : Z) :
  keeps stdout (create_new_file sb_dict filename w now).
Proof. unfold create_new_file. repeat keeps_step. Qed.

Lemma create_new_directory_keeps_stdout (sb_dict : gmap string Z)
    (dirname : list Z) (w now : Z) :
  keeps stdout (create_new_directory sb_dict dirname w now).
Proof. unfold create_new_directory. repeat keeps_step. Qed.

(** X6: whatever the arguments and the image, and whether the run ends
    normally, with an exit or with an exception: only [touch] and [mkdir]
    can change the image ([ls], [cat], [append], an unknown command and
    the usage errors leave every byte as it was), and only [ls] and [cat]
    write to standard output. *)
Theorem only_touch_and_mkdir_write (argv : list (list Z)) (now : Z) (wd : world) :
  (arg argv 2 <> str "touch" -> arg argv 2 <> str "mkdir" ->
   disk (snd (main argv now wd)) = disk wd)
  /\ (arg argv 2 <> str "ls" -> arg argv 2 <> str "cat" ->
      stdout (snd (main argv now wd)) = stdout wd).
Proof.
  split.
  - intros Htouch Hmkdir. revert wd. change (keeps disk (main argv now)).
    unfold main.
    destruct (len argv <? 3); [repeat keeps_step|].
    apply keeps_cbind; [apply keeps_file_read|intros sb_data].
    apply keeps_cbind; [apply keeps_lift|intros sb_dict].
    destruct (bool_decide (arg argv 2 = str "ls")); [repeat keeps_step|].
    destruct (bool_decide (arg argv 2 = str "cat")); [repeat keeps_step|].
    destruct (bool_decide_reflect (arg argv 2 = str "touch")); [contradiction|].
    destruct (bool_decide_reflect (arg argv 2 = str "mkdir")); [contradiction|].
    repeat keeps_step.
  - intros Hls Hcat. revert wd. change (keeps stdout (main argv now)).
    unfold main.
    destruct (len argv <? 3); [repeat keeps_step|].
    apply keeps_cbind; [apply keeps_file_read|intros sb_data].
    apply keeps_cbind; [apply keeps_lift|intros sb_dict].
    destruct (bool_decide_reflect (arg argv 2 = str "ls")); [contradiction|].
    destruct (bool_decide_reflect (arg argv 2 = str "cat")); [contradiction|].
    destruct (bool_decide (arg argv 2 = str "touch")); [repeat keeps_step|].
    destruct (bool_decide (arg argv 2 = str "mkdir")); [repeat keeps_step|].
    repeat keeps_step.
Qed.

(** ** [read_file_data]: how much is read *)

Lemma len_fread_le (f : list Z) (off n : Z) : 0 <= n -> len (fread f off n) <= n.
Proof. intros H. unfold len. rewrite len_fread_min. lia. Qed.

Lemma read_direct_idle (file : list Z) (zones : list Z) (st : list Z * Z) :
  snd st <= 0 -> read_direct file zones st = st.
Proof.
  intros H. induction zones as [|z zones IH]; cbn [read_direct]; [reflexivity|].
  destruct (Z.ltb_spec 0 (snd st)); [lia|]. rewrite andb_false_r. exact IH.
Qed.

Lemma read_blocks_idle (file : list Z) (blocks : list Z) (st : list Z * Z) :
  snd st <= 0 -> read_blocks file blocks st = st.
Proof.
  intros H. destruct blocks as [|b blocks]; cbn [read_blocks]; [reflexivity|].
  destruct (Z.leb_spec (snd st) 0); [reflexivity|lia].
Qed.

Section ReadBound.
Variable file : list Z.
Variable size : Z.


Lemma read_block_within (block : Z) (st : list Z * Z) :
  0 < snd st -> within size st -> within size (read_block file block st).
Proof.
  destruct st as [content remaining]. unfold within, read_block. cbn [fst snd].
  intros Hpos [H0 H1].
  pose proof (len_fread_le file (block * BLOCK_SIZE) (Z.min BLOCK_SIZE remaining)
                ltac:(unfold BLOCK_SIZE; lia)) as Hr.
  unfold len in *. rewrite length_app. unfold BLOCK_SIZE in *. lia.
Qed.

Lemma read_direct_within (zones : list Z) (st : list Z * Z) :
  within size st -> within size (read_direct file zones st).
Proof.
  revert st. induction zones as [|z zones IH]; intros st Hst;
    cbn [read_direct]; [exact Hst|].
  destruct (negb (z =? EMPTY)); cbn [andb]; [|apply IH, Hst].
  destruct (Z.ltb_spec 0 (snd st)); apply IH; [|exact Hst].
  apply read_block_within; assumption.
Qed.

Lemma read_blocks_within (blocks : list Z) (st : list Z * Z) :
  within size st -> within size (read_blocks file blocks st).
Proof.
  revert st. induction blocks as [|b blocks IH]; intros st Hst;
    cbn [read_blocks]; [exact Hst|].
  destruct (Z.leb_spec (snd st) 0); [exact Hst|].
  apply IH, read_block_within; assumption.
Qed.

End ReadBound.

(** X7: [read_file_data] never returns more bytes than the size field
    says, whatever the zones hold and however many blocks they name; for
    a size of 0 (or a negative one) it returns the empty content without
    looking at the indirect slots at all. *)
Theorem read_file_data_at_most_size (file : list Z) (ino : inode) :
  (i_size ino <= 0 -> read_file_data file ino = Ok [])
  /\ (forall content,
        read_file_data file ino = Ok content ->
        len content <= Z.max 0 (i_size ino)).
Proof.
  assert (Hzero : i_size ino <= 0 -> read_file_data file ino = Ok []).
  { intros Hs. unfold read_file_data. cbv zeta.
    rewrite read_direct_idle by exact Hs. cbn [snd fst].
    unfold more_in_slot.
    assert (E : (0 <? i_size ino) = false) by (apply Z.ltb_ge; exact Hs).
    rewrite E. cbn [rbind snd]. rewrite E. reflexivity. }
  split; [exact Hzero|].
  intros content Hread.
  destruct (Z.le_gt_cases (i_size ino) 0) as [Hs|Hs].
  { rewrite (Hzero Hs) in Hread. inversion Hread. unfold len. cbn [length]. lia. }
  unfold read_file_data in Hread. cbv zeta in Hread.
  pose proof (read_direct_within file (i_size ino)
                (take (Z.to_nat NUM_DIRECT_ZONES) (i_zone ino)) ([], i_size ino)
                ltac:(unfold within, len; cbn [fst snd length]; lia)) as H1.
  set (st1 := read_direct file _ _) in *.
  destruct (more_in_slot (snd st1) (i_zone ino) INDIRECT_ZONE_INDEX) as [c1|];
    cbn [rbind] in Hread; [|discriminate].
  assert (H2 : forall st2,
            (if c1
             then let* indirect_index := getzone (i_zone ino) INDIRECT_ZONE_INDEX in
                  let* indirect_blocks :=
                    fetch_indirect_block_addresses file indirect_index in
                  Ok (read_blocks file indirect_blocks st1)
             else Ok st1) = Ok st2 -> within (i_size ino) st2).
  { intros st2. destruct c1.
    - destruct (getzone _ _); cbn [rbind]; [|discriminate].
      destruct (fetch_indirect_block_addresses _ _); cbn [rbind]; [|discriminate].
      intros H. inversion H. apply read_blocks_within, H1.
    - intros H. inversion H; subst. exact H1. }
  destruct (if c1 then _ else _) as [st2|]; cbn [rbind] in Hread; [|discriminate].
  specialize (H2 st2 eq_refl).
  destruct (more_in_slot (snd st2) (i_zone ino) DOUBLE_INDIRECT_ZONE_INDEX) as [c2|];
    cbn [rbind] in Hread; [|discriminate].
  assert (H3 : forall st3,
            (if c2
             then let* double_indirect_index :=
                    getzone (i_zone ino) DOUBLE_INDIRECT_ZONE_INDEX in
                  let* double_indirect_blocks :=
                    fetch_double_indirect_block_addresses file double_indirect_index in
                  Ok (read_blocks file double_indirect_blocks st2)
             else Ok st2) = Ok st3 -> within (i_size ino) st3).
  { intros st3. destruct c2.
    - destruct (getzone _ _); cbn [rbind]; [|discriminate].
      destruct (fetch_double_indirect_block_addresses _ _); cbn [rbind];
        [|discriminate].
      intros H. inversion H. apply read_blocks_within, H2.
    - intros H. inversion H; subst. exact H2. }
  destruct (if c2 then _ else _) as [st3|]; cbn [rbind] in Hread; [|discriminate].
  specialize (H3 st3 eq_refl). inversion Hread; subst content.
  destruct H3 as [? ?]. lia.
Qed.

Lemma read_direct_remaining (file : list Z) (zones : list Z) (st : list Z * Z) :
  snd st - BLOCK_SIZE * len zones <= snd (read_direct file zones st).
Proof.
  revert st. induction zones as [|z zones IH]; intros st; cbn [read_direct].
  - unfold len. cbn [length]. lia.
  - assert (Hlen : len (z :: zones) = len zones + 1)
      by (unfold len; cbn [length]; lia).
    rewrite Hlen.
    destruct (negb (z =? EMPTY) && (0 <? snd st)).
    + specialize (IH (read_block file z st)). destruct st as [c r].
      unfold read_block in *. cbn [snd] in *. unfold BLOCK_SIZE in *. lia.
    + specialize (IH st). unfold BLOCK_SIZE in *. lia.
Qed.

Lemma fetch_indirect_short (file : list Z) (block_num : Z) :
  len (fread file (block_num * BLOCK_SIZE) BLOCK_SIZE) < BLOCK_SIZE ->
  fetch_indirect_block_addresses file block_num = Raise StructError.
Proof.
  intros H. unfold fetch_indirect_block_addresses, unpack_from_512H.
  change (2 * (BLOCK_SIZE / 2)) with BLOCK_SIZE.
  destruct (Z.ltb_spec (len (fread file (block_num * BLOCK_SIZE) BLOCK_SIZE))
              BLOCK_SIZE); [reflexivity|lia].
Qed.

(** X8: a file larger than its seven direct zones can hold, whose
    indirect slot names a block that does not lie wholly inside the
    image, cannot be read: [read_file_data] raises struct.error (a direct
    zone outside the image is read as a short or empty block instead). *)
Theorem read_file_data_indirect_outside (file : list Z) (ino : inode) (z7 : Z) :
  NUM_DIRECT_ZONES * BLOCK_SIZE < i_size ino ->
  i_zone ino !! 7%nat = Some z7 ->
  z7 <> EMPTY ->
  len (fread file (z7 * BLOCK_SIZE) BLOCK_SIZE) < BLOCK_SIZE ->
  read_file_data file ino = Raise StructError.
Proof.
  intros Hsize Hz7 Hne Hshort. unfold read_file_data. cbv zeta.
  pose proof (read_direct_remaining file
                (take (Z.to_nat NUM_DIRECT_ZONES) (i_zone ino)) ([], i_size ino))
    as Hrem.
  set (st1 := read_direct file _ _) in *.
  assert (Hpos : 0 < snd st1).
  { cbn [snd] in Hrem. unfold len in Hrem. rewrite length_take in Hrem.
    unfold NUM_DIRECT_ZONES, BLOCK_SIZE in *. lia. }
  assert (Hget : getzone (i_zone ino) INDIRECT_ZONE_INDEX = Ok z7).
  { exact (getzone_lookup _ 7%nat _ Hz7). }
  rewrite (more_in_slot_Ok _ _ _ _ Hget).
  destruct (Z.ltb_spec 0 (snd st1)); [|lia].
  destruct (Z.eqb_spec z7 EMPTY); [contradiction|].
  cbn [andb negb rbind]. rewrite Hget. cbn [rbind].
  rewrite (fetch_indirect_short _ _ Hshort). reflexivity.
Qed.

(** ** [cat] *)

(** X9: [cat_file] looks the name up among all records of the directory
    (first match in slot and block order), decodes the inode the record
    names and writes to standard output what its blocks hold, read in
    zone order up to [i_size] bytes, nothing else; when no record matches
    it prints
    the not-found line on standard error instead.  The image is not
    changed. *)
Theorem cat_file_prints_the_file (sb_dict : gmap string Z) (dir_inode_number : Z)
    (filename : list Z) (w : Z) (wd : world) (dir_inode : inode) :
  w = 14 \/ w = 30 ->
  parse_inode (disk wd) sb_dict dir_inode_number = Ok dir_inode ->
  blocks_present (disk wd) (i_zone dir_inode) ->
  (forall inode_number file_inode blocks,
     for_find (dir_entries (disk wd) (i_zone dir_inode) w) (match_entry filename)
       = Ok (Some inode_number) ->
     parse_inode (disk wd) sb_dict inode_number = Ok file_inode ->
     resolve_zones (disk wd) (i_zone file_inode) = Ok blocks ->
     cat_file sb_dict dir_inode_number filename w wd
     = (Ok tt, {| disk := disk wd;
                  stdout := stdout wd ++ gather (disk wd) blocks (i_size file_inode);
                  stderr := stderr wd |}))
  /\ (for_find (dir_entries (disk wd) (i_zone dir_inode) w) (match_entry filename)
        = Ok None ->
      cat_file sb_dict dir_inode_number filename w wd
      = (Ok tt, {| disk := disk wd; stdout := stdout wd;
                   stderr := stderr wd
                     ++ [str "File " ++ filename ++ str " not found in dir"] |})).
Proof.
  intros Hw Hdir Hpres.
  pose proof (scan_spec (disk wd) dir_inode filename w Hw Hpres) as Hscan.
  split.
  - intros inode_number file_inode blocks Hfound Hino Hzones.
    unfold cat_file, call_read_file_data, cbind, reading, stdout_write.
    rewrite Hdir. cbv beta iota. rewrite Hscan, Hfound. cbv beta iota.
    rewrite Hino. cbv beta iota.
    rewrite (read_file_data_resolved _ _ _ Hzones). reflexivity.
  - intros Hnone.
    unfold cat_file, cbind, reading, print_stderr.
    rewrite Hdir. cbv beta iota. rewrite Hscan, Hnone. reflexivity.
Qed.

(** ** [touch] into a full directory block *)

Lemma parse_inode_fwrite_same (file : list Z) (sb_dict : gmap string Z)
    (n off : Z) (record : list Z) :
  inode_table_offset sb_dict n = Ok off ->
  len record = INODE_SIZE ->
  parse_inode (fwrite file off record) sb_dict n = unpack_inode record.
Proof.
  intros Hoff Hlen. unfold parse_inode. rewrite Hoff. cbn [rbind].
  rewrite <- Hlen, fread_fwrite_same. reflexivity.
Qed.

Lemma parse_inode_fwrite_other (file : list Z) (sb_dict : gmap string Z)
    (m off o : Z) (data : list Z) :
  inode_table_offset sb_dict m = Ok off ->
  0 <= off -> 0 <= o -> off + INODE_SIZE <= len file ->
  o + len data <= off \/ off + INODE_SIZE <= o ->
  parse_inode (fwrite file o data) sb_dict m = parse_inode file sb_dict m.
Proof.
  intros Hoff H0 Ho Hin Hdis. unfold parse_inode. rewrite Hoff. cbn [rbind].
  rewrite fread_fwrite_disjoint; [reflexivity | | | | |];
    unfold INODE_SIZE in *; lia.
Qed.

Section TouchFull.
Variables (sb_dict : gmap string Z) (filename : list Z) (w now : Z).
Variables (wd : world) (root_inode : inode).
Variables (num_inodes n off1 blk : Z).
Hypothesis Hw : w = 14 \/ w = 30.
Hypothesis Hnow : 0 <= now < 4294967296.
Hypothesis Hroot : parse_inode (disk wd) sb_dict 1 = Ok root_inode.
Hypothesis Hused : i_nlinks root_inode <> 0.
Hypothesis Hni : getitem sb_dict "num_inodes" = Ok num_inodes.
Hypothesis Hfree : find_free_inode (disk wd) sb_dict num_inodes = Ok (Some n).
Hypothesis Hoff1 : inode_table_offset sb_dict 1 = Ok off1.
Hypothesis Hoff0 : 0 <= off1.
Hypothesis Hblk : i_zone root_inode !! 0%nat = Some blk.
Hypothesis Hblk0 : blk <> EMPTY.
Hypothesis Hzones :
  forall zone, zone ∈ i_zone root_inode -> zone <> EMPTY ->
    off1 + num_inodes * INODE_SIZE <= zone * BLOCK_SIZE.
Hypothesis Hpres : blocks_present (disk wd) (i_zone root_inode).
Hypothesis Hfull :
  find_free_entry (fread (disk wd) (blk * BLOCK_SIZE) BLOCK_SIZE) w = Ok None.

#[local] Notation "'new_record'" := (inode_bytes 0x81C0 0 now 1 (repeat 0 9)).
#[local] Notation "'disk1'" :=
  (fwrite (disk wd) (off1 + (n - 1) * INODE_SIZE) new_record).

Lemma full_n : 2 <= n <= num_inodes.
Proof.
  pose proof Hfree as Hf.
  apply find_free_inode_Some in Hf as (Hn & (ino & Hino & Hz) & _).
  destruct (Z.eq_dec n 1) as [->|]; [|lia].
  rewrite Hroot in Hino. inversion Hino; subst. contradiction.
Qed.

Lemma full_zone (zone : Z) :
  zone ∈ i_zone root_inode -> zone <> EMPTY ->
  0 < zone /\ zone * BLOCK_SIZE + BLOCK_SIZE <= len (disk wd)
  /\ fread disk1 (zone * BLOCK_SIZE) BLOCK_SIZE
     = fread (disk wd) (zone * BLOCK_SIZE) BLOCK_SIZE.
Proof.
  intros Hin Hne. pose proof full_n as Hn.
  pose proof (Hzones zone Hin Hne) as Hz.
  pose proof (Hpres zone Hin Hne) as Hlen.
  unfold INODE_SIZE, BLOCK_SIZE in *.
  assert (0 < zone) by lia. apply fread_present_bound in Hlen; [|lia|lia].
  split; [assumption|]. split; [lia|].
  apply fread_fwrite_disjoint; try lia.
  right. change (len new_record) with 32. lia.
Qed.

Lemma full_blk : blk ∈ i_zone root_inode.
Proof. apply list_elem_of_lookup. exists 0%nat. exact Hblk. Qed.

Lemma full_table (m : Z) :
  1 <= m <= num_inodes ->
  inode_table_offset sb_dict m = Ok (off1 + (m - 1) * INODE_SIZE)
  /\ off1 + (m - 1) * INODE_SIZE + INODE_SIZE <= len (disk wd).
Proof.
  intros Hm. split; [exact (inode_table_offset_shift _ _ m Hoff1)|].
  destruct (full_zone blk full_blk Hblk0) as (? & ? & _).
  pose proof (Hzones blk full_blk Hblk0).
  unfold INODE_SIZE, BLOCK_SIZE in *. lia.
Qed.

Lemma full_run :
  create_new_file sb_dict filename w now wd
  = (Ok tt, {| disk := disk1; stdout := stdout wd;
               stderr := stderr wd
                 ++ [str "Error: No free directory entry available."] |}).
Proof.
  pose proof full_n as Hn.
  rewrite (create_new_file_run sb_dict filename w now wd root_inode num_inodes n
             _ blk _ None Hroot Hni Hfree
             (inode_table_offset_shift _ _ n Hoff1) (new_file_record now Hnow)
             Hblk).
  - reflexivity.
  - rewrite (proj2 (proj2 (full_zone blk full_blk Hblk0))). exact Hfull.
Qed.

(** X10: when the first block of the root directory has no free slot,
    [touch] reports it and creates no entry (the listing is what it
    was), but the inode it had picked stays written as a file in use:
    it is lost to the next search for a free inode. *)
Theorem touch_full_directory_keeps_inode :
  exists wd',
    create_new_file sb_dict filename w now wd = (Ok tt, wd')
    /\ stderr wd' = stderr wd ++ [str "Error: No free directory entry available."]
    /\ read_root_directory_entries (disk wd') sb_dict w
       = read_root_directory_entries (disk wd) sb_dict w
    /\ parse_inode (disk wd') sb_dict n
       = Ok (mkInode 0x81C0 0 0 now 0 1 (repeat 0 9))
    /\ (forall m, find_free_inode (disk wd') sb_dict num_inodes = Ok (Some m) ->
          n < m).
Proof.
  eexists. split; [exact full_run|]. cbn [disk stderr].
  split; [reflexivity|].
  pose proof full_n as Hn.
  assert (Hnew : parse_inode disk1 sb_dict n
                 = Ok (mkInode 0x81C0 0 0 now 0 1 (repeat 0 9))).
  { rewrite (parse_inode_fwrite_same (disk wd) sb_dict n _ new_record
               (inode_table_offset_shift _ _ n Hoff1) eq_refl).
    exact (proj2 (unpack_pack_inode _ _ _ _ _ _ _ _ (new_file_record now Hnow))). }
  assert (Hother : forall m, 1 <= m <= num_inodes -> m <> n ->
            parse_inode disk1 sb_dict m = parse_inode (disk wd) sb_dict m).
  { intros m Hm Hne. destruct (full_table m Hm) as [Hoff Hin].
    apply (parse_inode_fwrite_other _ _ m _ _ _ Hoff);
      [unfold INODE_SIZE; lia | unfold INODE_SIZE; lia | exact Hin |].
    change (len new_record) with 32. unfold INODE_SIZE. lia. }
  split; [|split; [exact Hnew|]].
  - assert (Hroot1 : parse_inode disk1 sb_dict 1 = Ok root_inode).
    { rewrite Hother by lia. exact Hroot. }
    assert (Hpres1 : blocks_present disk1 (i_zone root_inode)).
    { intros zone Hin Hne. apply fread_present_fwrite, Hpres; assumption. }
    rewrite (listing_spec _ _ _ _ Hw Hroot1 Hpres1).
    rewrite (listing_spec _ _ _ _ Hw Hroot Hpres).
    rewrite (dir_entries_frame (disk wd) disk1); [reflexivity|].
    intros zone Hin Hne. exact (proj2 (proj2 (full_zone zone Hin Hne))).
  - intros m Hm.
    apply find_free_inode_Some in Hm as (Hrange & (ino & Hino & Hz) & _).
    pose proof Hfree as Hf.
    apply find_free_inode_Some in Hf as (_ & _ & Hbefore).
    destruct (Z.lt_trichotomy m n) as [Hlt|[->|Hgt]];
      [exfalso|exfalso|exact Hgt].
    + rewrite Hother in Hino by lia.
      destruct (Hbefore m ltac:(lia)) as (ino' & Hino' & Hnz).
      rewrite Hino in Hino'. inversion Hino'; subst. contradiction.
    + rewrite Hnew in Hino. inversion Hino; subst. cbn in Hz. discriminate.
Qed.

End TouchFull.

(** ** Paths on the command line *)

Lemma split_nonempty (sep : Z) (s : list Z) : split sep s <> [].
Proof.
  destruct s as [|c s]; [discriminate|]. cbn [split].
  destruct (split sep s); [|destruct (c =? sep)]; discriminate.
Qed.

Lemma split_cons (sep c : Z) (s : list Z) :
  split sep (c :: s)
  = if c =? sep then [] :: split sep s
    else match split sep s with
         | cur :: rest => (c :: cur) :: rest
         | [] => [[c]]
         end.
Proof.
  cbn [split]. destruct (split sep s) as [|cur rest] eqn:E; [|reflexivity].
  exfalso. exact (split_nonempty _ _ E).
Qed.

Lemma length_split (sep : Z) (s : list Z) :
  length (split sep s) = S (count_occ Z.eq_dec s sep).
Proof.
  induction s as [|c s IH]; [reflexivity|].
  rewrite split_cons. cbn [count_occ].
  destruct (Z.eqb_spec c sep) as [->|Hne].
  - destruct (Z.eq_dec sep sep); [|contradiction]. cbn [length]. rewrite IH.
    reflexivity.
  - destruct (Z.eq_dec c sep); [contradiction|].
    destruct (split sep s) as [|cur rest] eqn:E;
      [exfalso; exact (split_nonempty _ _ E)|].
    cbn [length] in *. exact IH.
Qed.

Lemma split_no_sep (sep : Z) (s : list Z) : sep ∉ s -> split sep s = [s].
Proof.
  induction s as [|c s IH]; intros Hnot; [reflexivity|].
  apply not_elem_of_cons in Hnot as [Hne Hnot].
  rewrite split_cons, (IH Hnot).
  destruct (Z.eqb_spec c sep); [congruence|reflexivity].
Qed.

Lemma split_at_sep (sep : Z) (d r : list Z) :
  sep ∉ d -> split sep (d ++ sep :: r) = d :: split sep r.
Proof.
  induction d as [|c d IH]; intros Hnot; cbn [app].
  - rewrite split_cons, Z.eqb_refl. reflexivity.
  - apply not_elem_of_cons in Hnot as [Hne Hnot].
    rewrite split_cons, (IH Hnot).
    destruct (Z.eqb_spec c sep); [congruence|reflexivity].
Qed.

(** X13: [cat] takes a path with exactly one "/": with none or with more
    the run ends with exit status 1 and the line about the supported
    format; with one, the part before it is looked up in the root
    directory (exit status 1 and a line naming it when it is not there)
    and the part after it is handed to [cat_file] in the directory found.
    A file in the root directory cannot be named. *)
Theorem cat_takes_one_directory_level (prog image path : list Z) (now : Z)
    (wd : world) (sb_dict : gmap string Z) (w : Z) :
  parse_superblock (fread (disk wd) BLOCK_SIZE BLOCK_SIZE) = Ok sb_dict ->
  name_width sb_dict = Ok w ->
  (count_occ Z.eq_dec path 47 <> 1%nat ->
   main [prog; image; str "cat"; path] now wd
   = (Raise (SystemExit 1),
      {| disk := disk wd; stdout := stdout wd;
         stderr := stderr wd ++ [str
           "Error: Only paths in the format 'directory/filename' are supported."] |}))
  /\ (forall dir_name file_name,
        path = dir_name ++ 47 :: file_name ->
        47 ∉ dir_name -> 47 ∉ file_name ->
        (forall dir_inode_number,
           find_inode_of_directory (disk wd) sb_dict dir_name w 1
             = Ok (Some dir_inode_number) ->
           main [prog; image; str "cat"; path] now wd
           = cat_file sb_dict dir_inode_number file_name w wd)
        /\ (find_inode_of_directory (disk wd) sb_dict dir_name w 1 = Ok None ->
            main [prog; image; str "cat"; path] now wd
            = (Raise (SystemExit 1),
               {| disk := disk wd; stdout := stdout wd;
                  stderr := stderr wd ++ [str "Error: The directory '" ++ dir_name
                                            ++ str "' was not found."] |}))).
Proof.
  intros Hsb Hwidth.
  assert (Hmain : main [prog; image; str "cat"; path] now wd
    = match split 47 path with
      | [dir_name; file_name] =>
          match find_inode_of_directory (disk wd) sb_dict dir_name w 1 with
          | Ok (Some dir_inode_number) =>
              cat_file sb_dict dir_inode_number file_name w wd
          | Ok None =>
              (Raise (SystemExit 1),
               {| disk := disk wd; stdout := stdout wd;
                  stderr := stderr wd ++ [str "Error: The directory '" ++ dir_name
                                            ++ str "' was not found."] |})
          | Raise e => (Raise e, wd)
          end
      | _ =>
          (Raise (SystemExit 1),
           {| disk := disk wd; stdout := stdout wd;
              stderr := stderr wd ++ [str
                "Error: Only paths in the format 'directory/filename' are supported."] |})
      end).
  { unfold main.
    change (len [prog; image; str "cat"; path] <? 3) with false. cbv iota.
    change (arg [prog; image; str "cat"; path] 2) with (str "cat").
    change (arg [prog; image; str "cat"; path] 3) with path.
    cbv zeta.
    rewrite (bool_decide_eq_false_2 (str "cat" = str "ls"))
      by (vm_compute; discriminate).
    rewrite bool_decide_eq_true_2 by reflexivity.
    change (negb (len [prog; image; str "cat"; path] =? 4)) with false.
    cbv iota.
    unfold cbind at 1 2. unfold file_read, lift at 1. rewrite Hsb.
    destruct (split 47 path) as [|a [|b [|c r]]]; try reflexivity.
    unfold cbind at 1. unfold lift. rewrite Hwidth.
    unfold cbind at 1. unfold reading.
    destruct (find_inode_of_directory (disk wd) sb_dict a w 1) as [[dino|]|e];
      reflexivity. }
  split.
  - intros Hcount. rewrite Hmain.
    pose proof (length_split 47 path) as Hlen.
    destruct (split 47 path) as [|a [|b [|c r]]]; try reflexivity.
    cbn [length] in Hlen. congruence.
  - intros dir_name file_name -> Hd Hf.
    rewrite Hmain, (split_at_sep 47 _ _ Hd), (split_no_sep 47 _ Hf).
    split.
    + intros dino Hfind. rewrite Hfind. reflexivity.
    + intros Hfind. rewrite Hfind. reflexivity.
Qed.

(** ** [ls] *)

(** X15: the command line, for both name widths: [ls] prints, for every
    non-zero zone slot of the root inode in slot order and every record
    of that block in block order, the zero-trimmed name of each record
    whose inode number is not 0, each followed by a newline; the width
    of the name field is 30 when the magic number is 0x138F and 14
    otherwise.  Nothing is printed on standard error and the image is
    not changed. *)
Theorem ls_prints_used_records (prog image : list Z) (now : Z) (wd : world)
    (sb_dict : gmap string Z) (magic : Z) (root_inode : inode) :
  parse_superblock (fread (disk wd) BLOCK_SIZE BLOCK_SIZE) = Ok sb_dict ->
  getitem sb_dict "magic" = Ok magic ->
  parse_inode (disk wd) sb_dict 1 = Ok root_inode ->
  blocks_present (disk wd) (i_zone root_inode) ->
  main [prog; image; str "ls"] now wd
  = (Ok tt,
     {| disk := disk wd;
        stdout := stdout wd
          ++ flat_map (fun entry => entry ++ [10])
               (names_of (dir_entries (disk wd) (i_zone root_inode)
                            (if magic =? 0x138F then 30 else 14)));
        stderr := stderr wd |}).
Proof.
  intros Hsb Hmagic Hroot Hpres.
  assert (Hwidth : name_width sb_dict = Ok (if magic =? 0x138F then 30 else 14)).
  { unfold name_width. rewrite Hmagic. reflexivity. }
  assert (Hw : (if magic =? 0x138F then 30 else 14) = 14
               \/ (if magic =? 0x138F then 30 else 14) = 30)
    by (destruct (magic =? 0x138F); [right|left]; reflexivity).
  rewrite (main_ls prog image now wd sb_dict _ Hsb Hwidth).
  unfold print_root_directory, cbind, reading, print_directory_entries.
  rewrite (listing_spec (disk wd) sb_dict _ root_inode Hw Hroot Hpres).
  reflexivity.
Qed.

Lemma image_foo_root_blocks :
  blocks_present (disk (boot image_foo))
    (i_zone (inode_root [5; 0; 0; 0; 0; 0; 0; 0; 0] 1024)).
Proof.
  intros zone Hin Hz. cbn [i_zone inode_root] in Hin. each_zone Hin; by_eval.
Qed.

Lemma image_foo_free_inode :
  find_free_inode (disk (boot image_foo)) (example_sb 8) 32 = Ok (Some 2).
Proof.
  apply find_free_inode_Some. split; [lia|].
  split; [eexists; split; by_eval | inodes_used].
Qed.

Lemma touch_then_ls_and_lookup_witness :
  exists wd',
    create_new_file (example_sb 8) (str "y") 14 1000 (boot image_foo) = (Ok tt, wd')
    /\ stdout wd' = stdout (boot image_foo)
    /\ stderr wd' = stderr (boot image_foo)
    /\ (exists names,
          read_root_directory_entries (disk wd') (example_sb 8) 14 = Ok names
          /\ str "y" ∈ names)
    /\ find_inode_of_directory (disk wd') (example_sb 8) (str "y") 14 1 <> Ok None
    /\ find_inode_of_directory (disk wd') (example_sb 8) (str "y") 14 1
       = Ok (Some 2).
Proof.
  destruct (touch_then_ls_and_lookup (example_sb 8) (str "y") (str "y") 14 1000
              (boot image_foo) (inode_root [5; 0; 0; 0; 0; 0; 0; 0; 0] 1024)
              32 2 4096 5 16
              (or_introl eq_refl) ltac:(lia) ltac:(by_eval)
              ltac:(vm_compute; discriminate) ltac:(by_eval) ltac:(lia)
              image_foo_free_inode ltac:(by_eval) ltac:(lia) eq_refl
              ltac:(vm_compute; discriminate) image_foo_root_blocks
              ltac:(by_eval) ltac:(by_eval)
              ltac:(change (Forall scalar [121]);
                    repeat (apply List.Forall_cons; [unfold scalar; lia|]);
                    apply List.Forall_nil)
              ltac:(vm_compute; discriminate) ltac:(by_eval))
    as (wd' & Hrun & Hout & Herr & Hls & Hsome & Hnew).
  exists wd'. split; [exact Hrun|]. split; [exact Hout|]. split; [exact Herr|].
  split; [exact Hls|]. split; [exact Hsome|]. apply Hnew. by_eval.
Defined.

Lemma touch_then_inode_table_witness :
  exists wd',
    create_new_file (example_sb 8) (str "y") 14 1000 (boot image_foo) = (Ok tt, wd')
    /\ len (disk wd') = len (disk (boot image_foo))
    /\ parse_inode (disk wd') (example_sb 8) 2
       = Ok (mkInode 0x81C0 0 0 1000 0 1 (repeat 0 9))
    /\ parse_inode (disk wd') (example_sb 8) 1
       = parse_inode (disk (boot image_foo)) (example_sb 8) 1
    /\ find_free_inode (disk wd') (example_sb 8) 32 <> Ok (Some 2).
Proof.
  destruct (touch_then_inode_table (example_sb 8) (str "y") (str "y") 14 1000
              (boot image_foo) (inode_root [5; 0; 0; 0; 0; 0; 0; 0; 0] 1024)
              32 2 4096 5 16
              (or_introl eq_refl) ltac:(lia) ltac:(by_eval)
              ltac:(vm_compute; discriminate) ltac:(by_eval) ltac:(lia)
              image_foo_free_inode ltac:(by_eval) ltac:(lia) eq_refl
              ltac:(vm_compute; discriminate) image_foo_root_blocks
              ltac:(by_eval) ltac:(by_eval))
    as (wd' & Hrun & Hlen & Hnew & Hother & Hnext).
  exists wd'. split; [exact Hrun|]. split; [exact Hlen|]. split; [exact Hnew|].
  split; [apply Hother; lia|].
  intros H. apply Hnext in H. lia.
Defined.

Lemma touch_then_ls_prints_name_witness :
  exists wd' wd'' names,
    main [str "mfstool.py"; str "image"; str "touch"; str "y"] 1000 (boot image_foo)
      = (Ok tt, wd')
    /\ main [str "mfstool.py"; str "image"; str "ls"] 1001 wd' = (Ok tt, wd'')
    /\ stdout wd''
       = stdout (boot image_foo) ++ flat_map (fun entry => entry ++ [10]) names
    /\ str "y" ∈ names
    /\ stderr wd'' = stderr (boot image_foo)
    /\ disk wd'' = disk wd'.
Proof.
  exact (touch_then_ls_prints_name (example_sb 8) (str "y") (str "y") 14 1000
           (boot image_foo) (inode_root [5; 0; 0; 0; 0; 0; 0; 0; 0] 1024)
           32 2 4096 5 16
           (or_introl eq_refl) ltac:(lia) ltac:(by_eval)
           ltac:(vm_compute; discriminate) ltac:(by_eval) ltac:(lia)
           image_foo_free_inode ltac:(by_eval) ltac:(lia) eq_refl
           ltac:(vm_compute; discriminate) image_foo_root_blocks
           ltac:(by_eval) ltac:(by_eval)
           ltac:(vm_compute; discriminate) ltac:(by_eval)
           parse_superblock_image_foo ltac:(by_eval)
           ltac:(vm_compute; discriminate)
           (str "mfstool.py") (str "image") (str "mfstool.py") (str "image") 1001).
Defined.

Lemma parse_superblock_total_on_20_bytes_witness :
  exists sb_dict,
    parse_superblock (superblock_bytes 32 8) = Ok sb_dict
    /\ getitem sb_dict "magic" = Ok (le_decode (slice (superblock_bytes 32 8) 16 18))
    /\ getitem sb_dict "nzones" = Raise (KeyError "nzones").
Proof.
  destruct (parse_superblock_total_on_20_bytes (superblock_bytes 32 8))
    as [Hiff Hfields].
  destruct (proj2 Hiff ltac:(vm_compute; discriminate)) as [sb_dict Hsb].
  exists sb_dict. split; [exact Hsb|].
  destruct (Hfields sb_dict Hsb) as (_ & _ & _ & _ & _ & _ & _ & Hmagic & _ & Hkey).
  split; [exact Hmagic|]. apply Hkey.
  apply (bool_decide_unpack _). vm_compute. exact I.
Defined.

Lemma directory_record_roundtrip_witness :
  (exists record,
     pack_entry 14 2 (str "y") = Ok record
     /\ len record = entry_size 14
     /\ unpack_entry 14 record
        = Ok (2, take (Z.to_nat 14) (str "y" ++ repeat 0 (Z.to_nat 14)))
     /\ rstrip0 (take (Z.to_nat 14) (str "y" ++ repeat 0 (Z.to_nat 14)))
        = rstrip0 (str "y"))
  /\ pack_entry 14 70000 (str "y") = Raise StructError.
Proof.
  split.
  - destruct (proj1 (directory_record_roundtrip 14 2 (str "y") ltac:(lia))
                ltac:(lia)) as (record & Hpack & Hlen & Hunpack & Hfit & _).
    exists record. split; [exact Hpack|]. split; [exact Hlen|].
    split; [exact Hunpack|]. apply Hfit. vm_compute. discriminate.
  - apply (proj2 (directory_record_roundtrip 14 70000 (str "y") ltac:(lia))). lia.
Defined.

Lemma only_touch_and_mkdir_write_witness :
  disk (snd (main [str "mfstool.py"; str "image"; str "ls"] 1000 (boot image_foo)))
    = disk (boot image_foo)
  /\ stdout (snd (main [str "mfstool.py"; str "image"; str "touch"; str "y"] 1000
                    (boot image_foo)))
     = stdout (boot image_foo).
Proof.
  split.
  - apply (proj1 (only_touch_and_mkdir_write
                    [str "mfstool.py"; str "image"; str "ls"] 1000 (boot image_foo)));
      vm_compute; discriminate.
  - apply (proj2 (only_touch_and_mkdir_write
                    [str "mfstool.py"; str "image"; str "touch"; str "y"] 1000
                    (boot image_foo)));
      vm_compute; discriminate.
Defined.

Lemma read_file_data_at_most_size_witness :
  read_file_data image_B (inode_file [10; 0; 0; 0; 0; 0; 0; 0; 0] 0) = Ok []
  /\ len (gather image_B [10; 11; 12] (i_size inode_B)) <= Z.max 0 (i_size inode_B).
Proof.
  split.
  - apply (proj1 (read_file_data_at_most_size image_B
                    (inode_file [10; 0; 0; 0; 0; 0; 0; 0; 0] 0))).
    cbn [i_size inode_file]. lia.
  - apply (proj2 (read_file_data_at_most_size image_B inode_B)). by_eval.
Defined.

Lemma read_file_data_indirect_outside_witness :
  read_file_data image_foo
    {| i_mode := 0x81C0; i_uid := 0; i_size := 8000; i_time := 0; i_gid := 0;
       i_nlinks := 1; i_zone := [5; 0; 0; 0; 0; 0; 0; 100; 0] |}
  = Raise StructError.
Proof.
  apply (read_file_data_indirect_outside image_foo _ 100).
  - vm_compute. reflexivity.
  - reflexivity.
  - discriminate.
  - vm_compute. reflexivity.
Defined.

Lemma image_tree_d_blocks :
  blocks_present (disk (boot image_tree))
    (i_zone (inode_root [6; 0; 0; 0; 0; 0; 0; 0; 0] 1024)).
Proof.
  intros zone Hin Hz. cbn [i_zone inode_root] in Hin. each_zone Hin; by_eval.
Qed.

Lemma cat_file_prints_the_file_witness :
  cat_file (example_sb 8) 2 (str "f") 14 (boot image_tree)
    = (Ok tt, {| disk := disk (boot image_tree);
                 stdout := stdout (boot image_tree)
                   ++ gather (disk (boot image_tree)) [7]
                        (i_size (inode_file [7; 0; 0; 0; 0; 0; 0; 0; 0] 3));
                 stderr := stderr (boot image_tree) |})
  /\ cat_file (example_sb 8) 2 (str "g") 14 (boot image_tree)
     = (Ok tt, {| disk := disk (boot image_tree);
                  stdout := stdout (boot image_tree);
                  stderr := stderr (boot image_tree)
                    ++ [str "File " ++ str "g" ++ str " not found in dir"] |}).
Proof.
  split.
  - apply (proj1 (cat_file_prints_the_file (example_sb 8) 2 (str "f") 14
                    (boot image_tree) (inode_root [6; 0; 0; 0; 0; 0; 0; 0; 0] 1024)
                    (or_introl eq_refl) ltac:(by_eval) image_tree_d_blocks)
             3 (inode_file [7; 0; 0; 0; 0; 0; 0; 0; 0] 3) [7]); by_eval.
  - apply (proj2 (cat_file_prints_the_file (example_sb 8) 2 (str "g") 14
                    (boot image_tree) (inode_root [6; 0; 0; 0; 0; 0; 0; 0; 0] 1024)
                    (or_introl eq_refl) ltac:(by_eval) image_tree_d_blocks)).
    by_eval.
Defined.

Lemma image_full_root_blocks :
  blocks_present (disk (boot image_full))
    (i_zone (inode_root [5; 6; 0; 0; 0; 0; 0; 0; 0] 2048)).
Proof.
  intros zone Hin Hz. cbn [i_zone inode_root] in Hin. each_zone Hin; by_eval.
Qed.

Lemma image_full_free_inode :
  find_free_inode (disk (boot image_full)) (example_sb 8) 32 = Ok (Some 3).
Proof.
  apply find_free_inode_Some. split; [lia|].
  split; [eexists; split; by_eval | inodes_used].
Qed.

Lemma touch_full_directory_keeps_inode_witness :
  exists wd',
    create_new_file (example_sb 8) (str "y") 14 1000 (boot image_full) = (Ok tt, wd')
    /\ stderr wd'
       = stderr (boot image_full) ++ [str "Error: No free directory entry available."]
    /\ read_root_directory_entries (disk wd') (example_sb 8) 14
       = read_root_directory_entries (disk (boot image_full)) (example_sb 8) 14
    /\ parse_inode (disk wd') (example_sb 8) 3
       = Ok (mkInode 0x81C0 0 0 1000 0 1 (repeat 0 9))
    /\ find_free_inode (disk wd') (example_sb 8) 32 <> Ok (Some 3).
Proof.
  assert (Hzones : forall zone,
            zone ∈ i_zone (inode_root [5; 6; 0; 0; 0; 0; 0; 0; 0] 2048) ->
            zone <> EMPTY -> 4096 + 32 * INODE_SIZE <= zone * BLOCK_SIZE).
  { intros zone Hin Hz. cbn [i_zone inode_root] in Hin.
    each_zone Hin; vm_compute; discriminate. }
  destruct (touch_full_directory_keeps_inode (example_sb 8) (str "y") 14 1000
              (boot image_full) (inode_root [5; 6; 0; 0; 0; 0; 0; 0; 0] 2048)
              32 3 4096 5
              (or_introl eq_refl) ltac:(lia) ltac:(by_eval)
              ltac:(vm_compute; discriminate) ltac:(by_eval)
              image_full_free_inode ltac:(by_eval) ltac:(lia) eq_refl
              ltac:(discriminate) Hzones image_full_root_blocks ltac:(by_eval))
    as (wd' & Hrun & Herr & Hls & Hnew & Hnext).
  exists wd'. split; [exact Hrun|]. split; [exact Herr|]. split; [exact Hls|].
  split; [exact Hnew|]. intros H. apply Hnext in H. lia.
Defined.

Lemma touch_cuts_long_name_witness :
  exists wd',
    create_new_file (example_sb 8) (str "abcdefghijklmnop") 14 1000 (boot image_foo)
      = (Ok tt, wd')
    /\ exists names,
         read_root_directory_entries (disk wd') (example_sb 8) 14 = Ok names
         /\ rstrip0 (take (Z.to_nat 14) (str "abcdefghijklmnop")) ∈ names.
Proof.
  exact (touch_cuts_long_name (example_sb 8) (str "abcdefghijklmnop")
           (str "abcdefghijklmnop") 14 1000
           (boot image_foo) (inode_root [5; 0; 0; 0; 0; 0; 0; 0; 0] 1024)
           32 2 4096 5 16
           (or_introl eq_refl) ltac:(lia) ltac:(by_eval)
           ltac:(vm_compute; discriminate) ltac:(by_eval) ltac:(lia)
           image_foo_free_inode ltac:(by_eval) ltac:(lia) eq_refl
           ltac:(vm_compute; discriminate) image_foo_root_blocks
           ltac:(by_eval) ltac:(by_eval) ltac:(vm_compute; reflexivity)).
Defined.

Lemma mkdir_leaves_entry_without_block_witness :
  exists wd',
    create_new_directory (example_sb 8) (str "sub") 14 1000 (boot image_foo)
      = (Raise (KeyError "nzones"), wd')
    /\ stdout wd' = stdout (boot image_foo)
    /\ stderr wd' = stderr (boot image_foo)
    /\ (exists names,
          read_root_directory_entries (disk wd') (example_sb 8) 14 = Ok names
          /\ str "sub" ∈ names)
    /\ parse_inode (disk wd') (example_sb 8) 2
       = Ok (mkInode 0x41C0 0 1024 1000 0 2 (repeat 0 9)).
Proof.
  exact (mkdir_leaves_entry_without_block (example_sb 8) (str "sub") (str "sub")
           14 1000
           (boot image_foo) (inode_root [5; 0; 0; 0; 0; 0; 0; 0; 0] 1024)
           32 2 4096 5 16
           (or_introl eq_refl) ltac:(lia) ltac:(by_eval)
           ltac:(vm_compute; discriminate) ltac:(by_eval) ltac:(lia)
           image_foo_free_inode ltac:(by_eval) ltac:(lia) eq_refl
           ltac:(vm_compute; discriminate) image_foo_root_blocks
           ltac:(by_eval) ltac:(by_eval)
           ltac:(vm_compute; discriminate) ltac:(by_eval)
           (fread (disk (boot image_foo)) BLOCK_SIZE BLOCK_SIZE)
           parse_superblock_image_foo).
Defined.

Lemma cat_takes_one_directory_level_witness :
  main [str "mfstool.py"; str "image"; str "cat"; str "foo"] 1000 (boot image_foo)
    = (Raise (SystemExit 1),
       {| disk := disk (boot image_foo); stdout := stdout (boot image_foo);
          stderr := stderr (boot image_foo) ++ [str
            "Error: Only paths in the format 'directory/filename' are supported."] |})
  /\ main [str "mfstool.py"; str "image"; str "cat"; str "d" ++ 47 :: str "f"] 1000
       (boot image_tree)
     = cat_file (example_sb 8) 2 (str "f") 14 (boot image_tree).
Proof.
  split.
  - apply (proj1 (cat_takes_one_directory_level (str "mfstool.py") (str "image")
                    (str "foo") 1000 (boot image_foo) (example_sb 8) 14
                    parse_superblock_image_foo ltac:(by_eval))).
    vm_compute. discriminate.
  - apply (proj1 (proj2 (cat_takes_one_directory_level (str "mfstool.py")
                           (str "image") (str "d" ++ 47 :: str "f") 1000
                           (boot image_tree) (example_sb 8) 14
                           (proj1 (proj2 example_superblocks)) ltac:(by_eval))
                    (str "d") (str "f") eq_refl
                    ltac:(apply (bool_decide_unpack _); vm_compute; exact I)
                    ltac:(apply (bool_decide_unpack _); vm_compute; exact I))).
    by_eval.
Defined.

Lemma touch_writes_two_records_witness :
  exists wd',
    create_new_file (example_sb 8) (str "y") 14 1000 (boot image_foo) = (Ok tt, wd')
    /\ fread (disk wd') 0 4128 = fread (disk (boot image_foo)) 0 4128.
Proof.
  exact (touch_writes_two_records (example_sb 8) (str "y") (str "y") 14 1000
           (boot image_foo) (inode_root [5; 0; 0; 0; 0; 0; 0; 0; 0] 1024)
           32 2 4096 5 16
           (or_introl eq_refl) ltac:(lia) ltac:(by_eval)
           ltac:(vm_compute; discriminate) ltac:(by_eval) ltac:(lia)
           image_foo_free_inode ltac:(by_eval) ltac:(lia) eq_refl
           ltac:(vm_compute; discriminate) image_foo_root_blocks
           ltac:(by_eval) ltac:(by_eval)
           0 4128 ltac:(lia) ltac:(lia) ltac:(vm_compute; discriminate)
           ltac:(left; vm_compute; discriminate)
           ltac:(left; vm_compute; discriminate)).
Defined.

Lemma ls_prints_used_records_witness :
  main [str "mfstool.py"; str "image"; str "ls"] 1000 (boot image_foo)
  = (Ok tt,
     {| disk := disk (boot image_foo);
        stdout := stdout (boot image_foo)
          ++ flat_map (fun entry => entry ++ [10])
               (names_of (dir_entries (disk (boot image_foo))
                            (i_zone (inode_root [5; 0; 0; 0; 0; 0; 0; 0; 0] 1024))
                            (if 0x137F =? 0x138F then 30 else 14)));
        stderr := stderr (boot image_foo) |}).
Proof.
  exact (ls_prints_used_records (str "mfstool.py") (str "image") 1000
           (boot image_foo) (example_sb 8) 0x137F
           (inode_root [5; 0; 0; 0; 0; 0; 0; 0; 0] 1024)
           parse_superblock_image_foo ltac:(by_eval) ltac:(by_eval)
           image_foo_root_blocks).
Defined.

(** ** [read_file_data]: the zones it consults *)











(** C6: listing and lookup go through all nine zone-slot values of the
    directory inode, the indirect slot (index 7) and the double-indirect
    slot (index 8) included, and read every non-zero slot value directly
    as one 1024-byte block of directory records; the records of the block
    named by any slot, 7 and 8 too, are scanned, and the result depends on
    no block other than the ones the nine slots name, so an indirect slot
    is never expanded as a block of zone numbers.  This holds for the
    listing, for the lookup of [find_inode_of_directory] and for the
    lookups inside [cat_file] and [append_to_file], which are the scans
    of a directory other than the root. *)
Theorem directory_scans_read_every_slot_as_a_block (file : list Z)
    (sb_dict : gmap string Z) (w n : Z) (dir_inode : inode) :
  w = 14 \/ w = 30 ->
  parse_inode file sb_dict n = Ok dir_inode ->
  blocks_present file (i_zone dir_inode) ->
  length (i_zone dir_inode) = 9%nat
  /\ (n = 1 ->
      read_root_directory_entries file sb_dict w
      = Ok (names_of (dir_entries file (i_zone dir_inode) w)))
  /\ (forall name,
        find_inode_of_directory file sb_dict name w n
        = for_find (dir_entries file (i_zone dir_inode) w) (match_entry name))
  /\ (forall (i : nat) zone e,
        i_zone dir_inode !! i = Some zone -> zone <> EMPTY ->
        e ∈ block_entries w (fread file (zone * BLOCK_SIZE) BLOCK_SIZE) ->
        e ∈ dir_entries file (i_zone dir_inode) w)
  /\ (forall file',
        parse_inode file' sb_dict n = Ok dir_inode ->
        (forall zone, zone ∈ i_zone dir_inode -> zone <> EMPTY ->
           fread file' (zone * BLOCK_SIZE) BLOCK_SIZE
           = fread file (zone * BLOCK_SIZE) BLOCK_SIZE) ->
        (n = 1 ->
         read_root_directory_entries file' sb_dict w
         = read_root_directory_entries file sb_dict w)
        /\ (forall name,
              find_inode_of_directory file' sb_dict name w n
              = find_inode_of_directory file sb_dict name w n)
        /\ dir_entries file' (i_zone dir_inode) w
           = dir_entries file (i_zone dir_inode) w)
  /\ (forall name wd,
        disk wd = file ->
        cat_file sb_dict n name w wd
        = match for_find (dir_entries file (i_zone dir_inode) w)
                  (match_entry name) with
          | Ok (Some inode_number) =>
              match parse_inode file sb_dict inode_number with
              | Ok file_inode =>
                  match read_file_data file file_inode with
                  | Ok file_content =>
                      (Ok tt, {| disk := disk wd;
                                 stdout := stdout wd ++ file_content;
                                 stderr := stderr wd |})
                  | Raise e => (Raise e, wd)
                  end
              | Raise e => (Raise e, wd)
              end
          | Ok None =>
              (Ok tt, {| disk := disk wd; stdout := stdout wd;
                         stderr := stderr wd
                           ++ [str "File " ++ name ++ str " not found in dir"] |})
          | Raise e => (Raise e, wd)
          end)
  /\ (forall name data now wd,
        disk wd = file ->
        append_to_file sb_dict n name data w now wd
        = match for_find (dir_entries file (i_zone dir_inode) w)
                  (match_entry name) with
          | Ok (Some inode_number) =>
              match parse_inode file sb_dict inode_number with
              | Ok file_inode => (Raise TypeError, wd)
              | Raise e => (Raise e, wd)
              end
          | Ok None =>
              (Ok tt, {| disk := disk wd; stdout := stdout wd;
                         stderr := stderr wd
                           ++ [str "File " ++ name ++ str " not found in dir"] |})
          | Raise e => (Raise e, wd)
          end).
Proof.
  intros Hw Hdir Hpres.
  assert (Hlookup : forall f, parse_inode f sb_dict n = Ok dir_inode ->
            blocks_present f (i_zone dir_inode) -> forall name,
            find_inode_of_directory f sb_dict name w n
            = for_find (dir_entries f (i_zone dir_inode) w) (match_entry name)).
  { intros f Hf Hp name. unfold find_inode_of_directory. rewrite Hf. cbn [rbind].
    apply scan_spec; assumption. }
  split; [exact (parse_inode_zones _ _ _ _ Hdir)|].
  split; [intros ->; apply listing_spec; assumption|].
  split; [apply Hlookup; assumption|].
  split; [intros i zone e; apply dir_entries_slot|].
  split.
  { intros file' Hdir' Hsame.
    assert (Hpres' : blocks_present file' (i_zone dir_inode)).
    { intros zone Hin Hz. rewrite Hsame by assumption. apply Hpres; assumption. }
    split; [|split].
    - intros ->. rewrite (listing_spec file' _ _ _ Hw Hdir' Hpres').
      rewrite (listing_spec file _ _ _ Hw Hdir Hpres).
      rewrite (dir_entries_frame file file' _ _ Hsame). reflexivity.
    - intros name.
      rewrite (Hlookup file' Hdir' Hpres'), (Hlookup file Hdir Hpres).
      rewrite (dir_entries_frame file file' _ _ Hsame). reflexivity.
    - exact (dir_entries_frame file file' _ _ Hsame). }
  pose proof (fun name => scan_spec file dir_inode name w Hw Hpres) as Hscan.
  split.
  - intros name wd <-.
    unfold cat_file, call_read_file_data, cbind, reading, stdout_write,
      print_stderr.
    rewrite Hdir. cbv beta iota. rewrite Hscan.
    destruct (for_find _ _) as [[k|]|e]; reflexivity.
  - intros name data now wd <-.
    unfold append_to_file, cbind, reading, print_stderr.
    rewrite Hdir. cbv beta iota. rewrite Hscan.
    destruct (for_find _ _) as [[k|]|e]; reflexivity.
Qed.

Lemma image_cat7_root_blocks :
  blocks_present (disk (boot image_cat7))
    (i_zone (inode_root [5; 0; 0; 0; 0; 0; 0; 6; 0] 2048)).
Proof.
  intros zone Hin Hz. cbn [i_zone inode_root] in Hin. each_zone Hin; by_eval.
Qed.

(** On [image_slot7] the block named by zone slot 7 is listed and
    searched as a block of directory records; on [image_cat7] the file
    whose record lies in the block of slot 7 is found and printed by
    [cat_file], and found by [append_to_file]. *)
Lemma directory_scans_read_every_slot_as_a_block_witness :
  read_root_directory_entries image_slot7 (example_sb 8) 14
    = Ok (names_of (dir_entries image_slot7
                      (i_zone (inode_root [5; 0; 0; 0; 0; 0; 0; 6; 0] 2048)) 14))
  /\ names_of (dir_entries image_slot7
                 (i_zone (inode_root [5; 0; 0; 0; 0; 0; 0; 6; 0] 2048)) 14)
     = [str "foo"; str "bar"]
  /\ find_inode_of_directory image_slot7 (example_sb 8) (str "bar") 14 1
     = for_find (dir_entries image_slot7
                   (i_zone (inode_root [5; 0; 0; 0; 0; 0; 0; 6; 0] 2048)) 14)
         (match_entry (str "bar"))
  /\ for_find (dir_entries image_slot7
                 (i_zone (inode_root [5; 0; 0; 0; 0; 0; 0; 6; 0] 2048)) 14)
       (match_entry (str "bar"))
     = Ok (Some 6)
  /\ cat_file (example_sb 8) 1 (str "bar") 14 (boot image_cat7)
     = (Ok tt, {| disk := disk (boot image_cat7);
                  stdout := stdout (boot image_cat7) ++ str "abc";
                  stderr := stderr (boot image_cat7) |})
  /\ append_to_file (example_sb 8) 1 (str "bar") (str "x") 14 1000 (boot image_cat7)
     = (Raise TypeError, boot image_cat7)
  /\ cat_file (example_sb 8) 1 (str "baz") 14 (boot image_cat7)
     = (Ok tt, {| disk := disk (boot image_cat7);
                  stdout := stdout (boot image_cat7);
                  stderr := stderr (boot image_cat7)
                    ++ [str "File " ++ str "baz" ++ str " not found in dir"] |}).
Proof.
  assert (Hpres : blocks_present image_slot7
                    (i_zone (inode_root [5; 0; 0; 0; 0; 0; 0; 6; 0] 2048))).
  { intros zone Hin Hz. cbn [i_zone inode_root] in Hin.
    each_zone Hin; by_eval. }
  destruct (directory_scans_read_every_slot_as_a_block image_slot7 (example_sb 8)
              14 1 (inode_root [5; 0; 0; 0; 0; 0; 0; 6; 0] 2048)
              (or_introl eq_refl) ltac:(by_eval) Hpres)
    as (_ & Hls & Hfind & _).
  destruct (directory_scans_read_every_slot_as_a_block (disk (boot image_cat7))
              (example_sb 8)
              14 1 (inode_root [5; 0; 0; 0; 0; 0; 0; 6; 0] 2048)
              (or_introl eq_refl) ltac:(by_eval) image_cat7_root_blocks)
    as (_ & _ & _ & _ & _ & Hcat & Happend).
  split; [exact (Hls eq_refl)|].
  split; [by_eval|]. split; [exact (Hfind (str "bar"))|]. split; [by_eval|].
  split; [rewrite (Hcat (str "bar") (boot image_cat7) eq_refl); by_eval|].
  split; [rewrite (Happend (str "bar") (str "x") 1000 (boot image_cat7) eq_refl);
          by_eval|].
  rewrite (Hcat (str "baz") (boot image_cat7) eq_refl). by_eval.
Defined.

(** ** [ls]: records with inode number 0 are skipped *)

Lemma entry_at_fst (w : Z) (block_data : list Z) (offset : Z) :
  0 <= w ->
  fst (entry_at w block_data offset)
  = le_decode (slice block_data offset (offset + 2)).
Proof.
  intros Hw. unfold entry_at, entry_size, slice. cbn [fst]. f_equal.
  change (Z.to_nat 0) with 0%nat. rewrite drop_0, take_take. f_equal. lia.
Qed.

Lemma names_of_free (entries : list (Z * list Z)) :
  Forall (fun e => fst e = 0) entries -> names_of entries = [].
Proof.
  induction 1 as [|e es He _ IH]; [reflexivity|].
  rewrite names_of_cons, IH, He. reflexivity.
Qed.

(** C10: the name-field width is 30 when magic = 0x138F and 14 otherwise;
    on an image with magic 0x137F whose root inode has a single direct
    zone holding the entry ("foo", 5) followed by empty slots (records
    with inode number 0, whatever their name bytes are), listing the
    root directory returns exactly ["foo"].  In general, on every image
    whose root blocks lie inside it, [ls] prints the names of the
    records in slot order and block order, and a record is skipped
    exactly when its inode number is 0. *)
Theorem ls_lists_foo (w0 : world) (sb_dict : gmap string Z)
    (root_inode : inode) (zone now : Z) (prog image entry : list Z) :
  parse_superblock (fread (disk w0) BLOCK_SIZE BLOCK_SIZE) = Ok sb_dict ->
  getitem sb_dict "magic" = Ok 0x137F ->
  parse_inode (disk w0) sb_dict 1 = Ok root_inode ->
  i_zone root_inode = [zone; 0; 0; 0; 0; 0; 0; 0; 0] ->
  zone <> 0 ->
  pack_entry 14 5 (str "foo") = Ok entry ->
  len (fread (disk w0) (zone * BLOCK_SIZE) BLOCK_SIZE) = BLOCK_SIZE ->
  slice (fread (disk w0) (zone * BLOCK_SIZE) BLOCK_SIZE) 0 16 = entry ->
  (forall offset,
     offset ∈ py_range 0 BLOCK_SIZE 16 -> offset <> 0 ->
     le_decode (slice (fread (disk w0) (zone * BLOCK_SIZE) BLOCK_SIZE)
                  offset (offset + 2)) = 0) ->
  (forall sb magic,
     getitem sb "magic" = Ok magic ->
     name_width sb = Ok (if magic =? 0x138F then 30 else 14))
  /\ name_width sb_dict = Ok 14
  /\ entry_size 14 = 16
  /\ read_root_directory_entries (disk w0) sb_dict 14 = Ok [str "foo"]
  /\ read_root_directory_entries (disk w0) sb_dict 14
     = Ok (names_of (dir_entries (disk w0) (i_zone root_inode) 14))
  /\ main [prog; image; str "ls"] now w0
     = (Ok tt, {| disk := disk w0;
                  stdout := stdout w0 ++ str "foo" ++ [10];
                  stderr := stderr w0 |})
  /\ (forall wd sb magic root,
        parse_superblock (fread (disk wd) BLOCK_SIZE BLOCK_SIZE) = Ok sb ->
        getitem sb "magic" = Ok magic ->
        parse_inode (disk wd) sb 1 = Ok root ->
        blocks_present (disk wd) (i_zone root) ->
        main [prog; image; str "ls"] now wd
        = (Ok tt,
           {| disk := disk wd;
              stdout := stdout wd
                ++ flat_map (fun name => name ++ [10])
                     (names_of (dir_entries (disk wd) (i_zone root)
                                  (if magic =? 0x138F then 30 else 14)));
              stderr := stderr wd |}))
  /\ (forall e es,
        names_of (e :: es)
        = (if negb (fst e =? 0) then [rstrip0 (snd e)] else []) ++ names_of es)
  /\ names_of [] = [].
Proof.
  intros Hsb Hmagic Hroot Hzones Hz Hentry Hlen Hfirst Hfree.
  assert (Hwidth : forall sb magic, getitem sb "magic" = Ok magic ->
            name_width sb = Ok (if magic =? 0x138F then 30 else 14)).
  { intros sb magic H. unfold name_width. rewrite H. reflexivity. }
  assert (Hgeneral : forall wd sb magic root,
            parse_superblock (fread (disk wd) BLOCK_SIZE BLOCK_SIZE) = Ok sb ->
            getitem sb "magic" = Ok magic ->
            parse_inode (disk wd) sb 1 = Ok root ->
            blocks_present (disk wd) (i_zone root) ->
            main [prog; image; str "ls"] now wd
            = (Ok tt,
               {| disk := disk wd;
                  stdout := stdout wd
                    ++ flat_map (fun name => name ++ [10])
                         (names_of (dir_entries (disk wd) (i_zone root)
                                      (if magic =? 0x138F then 30 else 14)));
                  stderr := stderr wd |})).
  { intros wd sb magic root Hsb' Hmagic' Hroot' Hpres'.
    assert (Hw : (if magic =? 0x138F then 30 else 14) = 14
                 \/ (if magic =? 0x138F then 30 else 14) = 30)
      by (destruct (magic =? 0x138F); [right|left]; reflexivity).
    rewrite (main_ls prog image now wd sb _ Hsb' (Hwidth sb magic Hmagic')).
    unfold print_root_directory, cbind, reading, print_directory_entries.
    rewrite (listing_spec (disk wd) sb _ root Hw Hroot' Hpres'). reflexivity. }
  assert (Hpres : blocks_present (disk w0) (i_zone root_inode)).
  { intros z Hin Hne. rewrite Hzones in Hin.
    apply list_elem_of_In in Hin. cbn [In] in Hin.
    assert (z = zone) as -> by (unfold EMPTY in Hne; intuition congruence).
    exact Hlen. }
  assert (Hspec := listing_spec (disk w0) sb_dict 14 root_inode
                     (or_introl eq_refl) Hroot Hpres).
  set (block := fread (disk w0) (zone * BLOCK_SIZE) BLOCK_SIZE) in *.
  assert (Hnames : names_of (dir_entries (disk w0) (i_zone root_inode) 14)
                   = [str "foo"]).
  { rewrite Hzones. unfold dir_entries.
    rewrite filter_cons_True by exact Hz.
    replace (filter (fun z => z <> EMPTY) [0; 0; 0; 0; 0; 0; 0; 0])
      with (@nil Z) by reflexivity.
    cbn [flat_map]. rewrite app_nil_r. fold block. unfold block_entries.
    change (entry_size 14) with 16.
    assert (Hoffs : py_range 0 BLOCK_SIZE 16
                    = 0 :: tl (py_range 0 BLOCK_SIZE 16)) by reflexivity.
    assert (Hrest : Forall (fun offset =>
                      offset ∈ py_range 0 BLOCK_SIZE 16 /\ offset <> 0)
                      (tl (py_range 0 BLOCK_SIZE 16))).
    { apply (bool_decide_unpack _). vm_compute. exact I. }
    rewrite Hoffs. cbn [map]. rewrite names_of_cons.
    rewrite names_of_free.
    - unfold entry_at. change (0 + entry_size 14) with 16. rewrite Hfirst.
      vm_compute in Hentry. inversion Hentry. reflexivity.
    - apply Forall_map. eapply Forall_impl; [exact Hrest|].
      intros offset [Hin Hne]. cbn beta.
      rewrite entry_at_fst by lia. exact (Hfree offset Hin Hne). }
  assert (Hls : read_root_directory_entries (disk w0) sb_dict 14 = Ok [str "foo"]).
  { rewrite Hspec, Hnames. reflexivity. }
  split; [exact Hwidth|].
  split; [exact (Hwidth sb_dict _ Hmagic)|].
  split; [reflexivity|].
  split; [exact Hls|].
  split; [exact Hspec|].
  split.
  { rewrite (Hgeneral w0 sb_dict _ root_inode Hsb Hmagic Hroot Hpres).
    change (if 4991 =? 5007 then 30 else 14) with 14.
    rewrite Hnames. cbn [flat_map]. rewrite app_nil_r. reflexivity. }
  split; [exact Hgeneral|].
  split; [exact names_of_cons | reflexivity].
Qed.

(** Scenario A on [image_foo_old], through the command line: the record
    after ("foo", 5) has inode number 0 and the name "old", and is not
    listed. *)
Lemma ls_lists_foo_witness :
  main [str "mfstool.py"; str "image"; str "ls"] 1000 (boot image_foo_old)
  = (Ok tt, {| disk := disk (boot image_foo_old);
               stdout := stdout (boot image_foo_old) ++ str "foo" ++ [10];
               stderr := stderr (boot image_foo_old) |}).
Proof.
  assert (Hfree : forall offset,
            offset ∈ py_range 0 BLOCK_SIZE 16 -> offset <> 0 ->
            le_decode (slice (fread (disk (boot image_foo_old)) (5 * BLOCK_SIZE)
                                BLOCK_SIZE) offset (offset + 2)) = 0).
  { apply (proj1 (Forall_forall
             (fun offset =>
                offset <> 0 ->
                le_decode (slice (fread (disk (boot image_foo_old))
                                    (5 * BLOCK_SIZE) BLOCK_SIZE)
                             offset (offset + 2)) = 0)
             (py_range 0 BLOCK_SIZE 16))).
    apply (bool_decide_unpack _). vm_compute. exact I. }
  exact (proj1 (proj2 (proj2 (proj2 (proj2 (proj2
    (ls_lists_foo (boot image_foo_old) (example_sb 8)
       (inode_root [5; 0; 0; 0; 0; 0; 0; 0; 0] 1024) 5 1000
       (str "mfstool.py") (str "image") (entry_bytes 5 (str "foo"))
       ltac:(apply parse_superblock_fields; by_eval)
       ltac:(by_eval) ltac:(by_eval) eq_refl
       ltac:(discriminate) ltac:(by_eval) ltac:(by_eval) ltac:(by_eval)
       Hfree))))))).
Defined.

(** C5, as the code has it: the free-slot search of create-file and
    create-directory reads only the block named by zone slot 0 of the
    root inode and answers the offset of the first record of that block
    whose inode number is 0: that is where create-file and
    create-directory write the new record, whatever create-directory
    does afterwards (it stops at the key "nzones", reports that no data
    block is free, or goes on to write the new block).  When all records
    of that one block are in use the outcome is "directory full",
    whatever the other zones of the directory hold, and the image then
    differs from the original only by the inode record written before;
    no zone is added to the directory. *)
Theorem free_slot_search_reads_first_zone_only (sb_dict : gmap string Z)
    (filename : list Z) (w now : Z) (wd : world) (root_inode : inode)
    (num_inodes n ioff blk : Z) (record : list Z) :
  w = 14 \/ w = 30 ->
  parse_inode (disk wd) sb_dict 1 = Ok root_inode ->
  getitem sb_dict "num_inodes" = Ok num_inodes ->
  find_free_inode (disk wd) sb_dict num_inodes = Ok (Some n) ->
  inode_table_offset sb_dict n = Ok ioff ->
  pack_inode (Z.lor (Z.lor (Z.lor S_IFREG S_IRUSR) S_IWUSR) S_IXUSR)
             0 0 now 0 1 (repeat EMPTY 9) = Ok record ->
  i_zone root_inode !! 0%nat = Some blk ->
  len (fread (fwrite (disk wd) ioff record) (blk * BLOCK_SIZE) BLOCK_SIZE)
    = BLOCK_SIZE ->
  let block := fread (fwrite (disk wd) ioff record) (blk * BLOCK_SIZE) BLOCK_SIZE in
  ((forall e, e ∈ block_entries w block -> fst e <> 0) ->
   create_new_file sb_dict filename w now wd
   = (Ok tt, {| disk := fwrite (disk wd) ioff record; stdout := stdout wd;
                stderr := stderr wd
                  ++ [str "Error: No free directory entry available."] |}))
  /\ (forall (k : nat) offset name entry,
        py_range 0 BLOCK_SIZE (entry_size w) !! k = Some offset ->
        fst (entry_at w block offset) = 0 ->
        (forall (j : nat) offset', (j < k)%nat ->
           py_range 0 BLOCK_SIZE (entry_size w) !! j = Some offset' ->
           fst (entry_at w block offset') <> 0) ->
        encode (ljust filename w 0) = Ok name ->
        pack_entry w n name = Ok entry ->
        create_new_file sb_dict filename w now wd
        = (Ok tt, {| disk := fwrite (fwrite (disk wd) ioff record)
                               (blk * BLOCK_SIZE + offset) entry;
                     stdout := stdout wd; stderr := stderr wd |}))
  /\ (forall record_d,
        pack_inode (Z.lor (Z.lor (Z.lor S_IFDIR S_IRUSR) S_IWUSR) S_IXUSR)
                   0 BLOCK_SIZE now 0 2 (repeat EMPTY 9) = Ok record_d ->
        len (fread (fwrite (disk wd) ioff record_d) (blk * BLOCK_SIZE) BLOCK_SIZE)
          = BLOCK_SIZE ->
        (forall e,
           e ∈ block_entries w
                 (fread (fwrite (disk wd) ioff record_d) (blk * BLOCK_SIZE)
                    BLOCK_SIZE) ->
           fst e <> 0) ->
        create_new_directory sb_dict filename w now wd
        = (Ok tt, {| disk := fwrite (disk wd) ioff record_d; stdout := stdout wd;
                     stderr := stderr wd
                       ++ [str "Error: No free directory entry available."] |}))
  /\ (forall record_d (k : nat) offset name entry,
        pack_inode (Z.lor (Z.lor (Z.lor S_IFDIR S_IRUSR) S_IWUSR) S_IXUSR)
                   0 BLOCK_SIZE now 0 2 (repeat EMPTY 9) = Ok record_d ->
        let block_d :=
          fread (fwrite (disk wd) ioff record_d) (blk * BLOCK_SIZE) BLOCK_SIZE in
        let wd2 :=
          {| disk := fwrite (fwrite (disk wd) ioff record_d)
                       (blk * BLOCK_SIZE + offset) entry;
             stdout := stdout wd; stderr := stderr wd |} in
        len block_d = BLOCK_SIZE ->
        py_range 0 BLOCK_SIZE (entry_size w) !! k = Some offset ->
        fst (entry_at w block_d offset) = 0 ->
        (forall (j : nat) offset', (j < k)%nat ->
           py_range 0 BLOCK_SIZE (entry_size w) !! j = Some offset' ->
           fst (entry_at w block_d offset') <> 0) ->
        encode (ljust filename w 0) = Ok name ->
        pack_entry w n name = Ok entry ->
        forall first_data_zone,
        getitem sb_dict "first_data_zone" = Ok first_data_zone ->
        (forall e,
           getitem sb_dict "nzones" = Raise e ->
           create_new_directory sb_dict filename w now wd = (Raise e, wd2))
        /\ (forall nzones,
              getitem sb_dict "nzones" = Ok nzones ->
              (find_free_block (disk wd2) first_data_zone nzones = Ok None ->
               create_new_directory sb_dict filename w now wd
               = (Ok tt, {| disk := disk wd2; stdout := stdout wd;
                            stderr := stderr wd
                              ++ [str "Error: No free data blocks available."] |}))
              /\ (forall new_dir_block zone_field dot dotdot,
                    find_free_block (disk wd2) first_data_zone nzones
                      = Ok (Some new_dir_block) ->
                    pack_int cH new_dir_block = Ok zone_field ->
                    pack_entry w n (ljust (str ".") w 0) = Ok dot ->
                    pack_entry w 1 (ljust (str "..") w 0) = Ok dotdot ->
                    create_new_directory sb_dict filename w now wd
                    = (Ok tt,
                       {| disk := fwrite (fwrite (disk wd2) (ioff + 16) zone_field)
                                    (new_dir_block * BLOCK_SIZE) (dot ++ dotdot);
                          stdout := stdout wd; stderr := stderr wd |})))).
Proof.
  intros Hw Hroot Hni Hfree Hoff Hpack Hblk Hlen block. split; [|split; [|split]].
  - intros Hfull.
    rewrite (create_new_file_run _ _ _ _ _ _ _ _ _ _ _ None
               Hroot Hni Hfree Hoff Hpack Hblk); [reflexivity|].
    apply find_free_entry_full; assumption.
  - intros k offset name entry Hk Hzero Hused Hname Hentry.
    rewrite (create_new_file_run _ _ _ _ _ _ _ _ _ _ _ (Some offset)
               Hroot Hni Hfree Hoff Hpack Hblk).
    + rewrite Hname. cbn [rbind]. rewrite Hentry. reflexivity.
    + apply find_free_entry_first with (k := k); assumption.
  - intros record_d Hpack_d Hlen_d Hfull.
    apply (create_new_directory_full _ _ _ _ _ root_inode num_inodes n ioff blk
             record_d); assumption.
  - intros record_d k offset name entry Hpack_d block_d wd2 Hlen_d Hk Hzero
      Hused Hname Hentry first_data_zone Hfdz.
    assert (Hslot : find_free_entry block_d w = Ok (Some offset))
      by (apply find_free_entry_first with (k := k); assumption).
    pose proof (getzone_lookup _ 0%nat _ Hblk) as Hz.
    change (Z.of_nat 0) with 0 in Hz.
    assert (Hrun : create_new_directory sb_dict filename w now wd
              = (let! nzones := lift (getitem sb_dict "nzones") in
                 let! new_dir_block := reading (fun file =>
                   find_free_block file first_data_zone nzones) in
                 match new_dir_block with
                 | None => print_stderr (str "Error: No free data blocks available.")
                 | Some new_dir_block =>
                     let! zone_field := lift (pack_int cH new_dir_block) in
                     let! _ := file_write (ioff + 16) zone_field in
                     let! dot := lift (pack_entry w n (ljust (str ".") w 0)) in
                     let! dotdot := lift (pack_entry w 1 (ljust (str "..") w 0)) in
                     file_write (new_dir_block * BLOCK_SIZE) (dot ++ dotdot)
                 end) wd2).
    { unfold create_new_directory.
      unfold cbind at 1 2 3 4 5 6 7 8 9 10 11 12 13.
      unfold reading at 1 2. unfold lift at 1 2 3 4 5 6 7 8.
      unfold file_write at 1 2. unfold file_read.
      rewrite Hroot, Hni, Hfree, Hoff, Hpack_d. cbn [disk stdout stderr].
      rewrite Hz. fold block_d. rewrite Hslot, Hname, Hentry.
      cbn [disk stdout stderr]. rewrite Hfdz. reflexivity. }
    rewrite Hrun. split.
    + intros e Hnz. unfold cbind, lift. rewrite Hnz. reflexivity.
    + intros nzones Hnz. split.
      * intros Hnone. unfold cbind, lift, reading, print_stderr.
        rewrite Hnz, Hnone. reflexivity.
      * intros new_dir_block zone_field dot dotdot Hsome Hzf Hdot Hdotdot.
        unfold cbind, lift, reading, file_write.
        rewrite Hnz, Hsome, Hzf. cbn [disk stdout stderr].
        rewrite Hdot, Hdotdot. reflexivity.
Qed.

Lemma parse_superblock_nzones_absent :
  getitem (example_sb 8) "nzones" = Raise (KeyError "nzones").
Proof. exact (parse_superblock_no_nzones _ _ parse_superblock_image_foo). Qed.

(** [touch y] and [mkdir y] on [image_full] (first zone full, second
    zone empty); [touch y] and [mkdir y] on [image_foo] (record 1 of zone
    5 free), the latter also with a dictionary that has the key
    "nzones". *)
Lemma free_slot_search_reads_first_zone_only_witness :
  create_new_file (example_sb 8) (str "y") 14 1000 (boot image_full)
    = (Ok tt, {| disk := fwrite (disk (boot image_full)) 4160
                           (inode_bytes 0x81C0 0 1000 1 (repeat 0 9));
                 stdout := stdout (boot image_full);
                 stderr := stderr (boot image_full)
                   ++ [str "Error: No free directory entry available."] |})
  /\ create_new_file (example_sb 8) (str "y") 14 1000 (boot image_foo)
     = (Ok tt, {| disk := fwrite (fwrite (disk (boot image_foo)) 4128
                                    (inode_bytes 0x81C0 0 1000 1 (repeat 0 9)))
                           (5 * BLOCK_SIZE + 16) (entry_bytes 2 (str "y"));
                  stdout := stdout (boot image_foo);
                  stderr := stderr (boot image_foo) |})
  /\ create_new_directory (example_sb 8) (str "y") 14 1000 (boot image_full)
     = (Ok tt, {| disk := fwrite (disk (boot image_full)) 4160
                            (inode_bytes 0x41C0 1024 1000 2 (repeat 0 9));
                  stdout := stdout (boot image_full);
                  stderr := stderr (boot image_full)
                    ++ [str "Error: No free directory entry available."] |})
  /\ create_new_directory (example_sb 8) (str "y") 14 1000 (boot image_foo)
     = (Raise (KeyError "nzones"),
        {| disk := fwrite (fwrite (disk (boot image_foo)) 4128
                             (inode_bytes 0x41C0 1024 1000 2 (repeat 0 9)))
                     (5 * BLOCK_SIZE + 16) (entry_bytes 2 (str "y"));
           stdout := stdout (boot image_foo);
           stderr := stderr (boot image_foo) |})
  /\ create_new_directory sb_nzones (str "y") 14 1000
       (boot image_foo)
     = (Ok tt,
        {| disk := fwrite (fwrite
                     (disk {| disk := fwrite (fwrite (disk (boot image_foo)) 4128
                                (inode_bytes 0x41C0 1024 1000 2 (repeat 0 9)))
                                (5 * BLOCK_SIZE + 16) (entry_bytes 2 (str "y"));
                              stdout := stdout (boot image_foo);
                              stderr := stderr (boot image_foo) |})
                     (4128 + 16) (le_encode 2 6))
                     (6 * BLOCK_SIZE)
                     (entry_bytes 2 (str ".") ++ entry_bytes 1 (str ".."));
           stdout := stdout (boot image_foo);
           stderr := stderr (boot image_foo) |}).
Proof.
  assert (Hfirst : forall (j : nat) offset', (j < 1)%nat ->
            py_range 0 BLOCK_SIZE (entry_size 14) !! j = Some offset' ->
            fst (entry_at 14
                   (fread (fwrite (disk (boot image_foo)) 4128
                             (inode_bytes 0x41C0 1024 1000 2 (repeat 0 9)))
                      (5 * BLOCK_SIZE) BLOCK_SIZE) offset') <> 0).
  { intros j offset' Hj. assert (j = 0%nat) as -> by lia.
    intros H. vm_compute in H. inversion H; subst. vm_compute. discriminate. }
  split; [|split; [|split; [|split]]].
  - apply (proj1 (free_slot_search_reads_first_zone_only (example_sb 8) (str "y")
             14 1000 (boot image_full) (inode_root [5; 6; 0; 0; 0; 0; 0; 0; 0] 2048)
             32 3 4160 5 (inode_bytes 0x81C0 0 1000 1 (repeat 0 9))
             (or_introl eq_refl) ltac:(by_eval) ltac:(by_eval)
             ltac:(apply find_free_inode_Some;
                   (split; [lia|]); split;
                   [eexists; split; by_eval | inodes_used])
             ltac:(by_eval) ltac:(by_eval) eq_refl ltac:(by_eval))).
    all_entries_used.
  - apply (proj1 (proj2 (free_slot_search_reads_first_zone_only (example_sb 8) (str "y")
             14 1000 (boot image_foo) (inode_root [5; 0; 0; 0; 0; 0; 0; 0; 0] 1024)
             32 2 4128 5 (inode_bytes 0x81C0 0 1000 1 (repeat 0 9))
             (or_introl eq_refl) ltac:(by_eval) ltac:(by_eval)
             ltac:(apply find_free_inode_Some;
                   (split; [lia|]); split;
                   [eexists; split; by_eval | inodes_used])
             ltac:(by_eval) ltac:(by_eval) eq_refl ltac:(by_eval)))
             1%nat 16 (str "y" ++ repeat 0 13) (entry_bytes 2 (str "y"))).
    + by_eval.
    + by_eval.
    + intros j offset' Hj. assert (j = 0%nat) as -> by lia.
      intros H. vm_compute in H. inversion H; subst. vm_compute. discriminate.
    + by_eval.
    + by_eval.
  - apply (proj1 (proj2 (proj2 (free_slot_search_reads_first_zone_only (example_sb 8)
             (str "y") 14 1000 (boot image_full)
             (inode_root [5; 6; 0; 0; 0; 0; 0; 0; 0] 2048)
             32 3 4160 5 (inode_bytes 0x81C0 0 1000 1 (repeat 0 9))
             (or_introl eq_refl) ltac:(by_eval) ltac:(by_eval)
             ltac:(apply find_free_inode_Some;
                   (split; [lia|]); split;
                   [eexists; split; by_eval | inodes_used])
             ltac:(by_eval) ltac:(by_eval) eq_refl ltac:(by_eval))))
             (inode_bytes 0x41C0 1024 1000 2 (repeat 0 9))).
    + by_eval.
    + by_eval.
    + all_entries_used.
  - pose proof (proj2 (proj2 (proj2 (free_slot_search_reads_first_zone_only
             (example_sb 8) (str "y") 14 1000 (boot image_foo)
             (inode_root [5; 0; 0; 0; 0; 0; 0; 0; 0] 1024)
             32 2 4128 5 (inode_bytes 0x81C0 0 1000 1 (repeat 0 9))
             (or_introl eq_refl) ltac:(by_eval) ltac:(by_eval)
             ltac:(apply find_free_inode_Some;
                   (split; [lia|]); split;
                   [eexists; split; by_eval | inodes_used])
             ltac:(by_eval) ltac:(by_eval) eq_refl ltac:(by_eval))))) as Hmkdir.
    apply (proj1 (Hmkdir
             (inode_bytes 0x41C0 1024 1000 2 (repeat 0 9))
             1%nat 16 (str "y" ++ repeat 0 13) (entry_bytes 2 (str "y"))
             ltac:(by_eval) ltac:(by_eval) ltac:(by_eval) ltac:(by_eval)
             Hfirst
             ltac:(by_eval) ltac:(by_eval) 5 ltac:(by_eval))).
    exact parse_superblock_nzones_absent.
  - pose proof (proj2 (proj2 (proj2 (free_slot_search_reads_first_zone_only
             sb_nzones (str "y") 14 1000 (boot image_foo)
             (inode_root [5; 0; 0; 0; 0; 0; 0; 0; 0] 1024)
             32 2 4128 5 (inode_bytes 0x81C0 0 1000 1 (repeat 0 9))
             (or_introl eq_refl) ltac:(by_eval) ltac:(by_eval)
             ltac:(apply find_free_inode_Some;
                   (split; [lia|]); split;
                   [eexists; split; by_eval | inodes_used])
             ltac:(by_eval) ltac:(by_eval) eq_refl ltac:(by_eval))))) as Hmkdir.
    pose proof (proj2 (Hmkdir
             (inode_bytes 0x41C0 1024 1000 2 (repeat 0 9))
             1%nat 16 (str "y" ++ repeat 0 13) (entry_bytes 2 (str "y"))
             ltac:(by_eval) ltac:(by_eval) ltac:(by_eval) ltac:(by_eval)
             Hfirst
             ltac:(by_eval) ltac:(by_eval) 5 ltac:(by_eval))) as Hkey.
    apply (proj2 (Hkey 8 ltac:(by_eval))
             6 (le_encode 2 6) (entry_bytes 2 (str ".")) (entry_bytes 1 (str "..")));
      by_eval.
Defined.
